(** * WindowPhysics: the taskbar-window gesture and physics controller

    The repository holds five versions of one JavaScript class,
    [WindowPhysics]: three are concatenated in [js/window-physics.js] and two
    more are files of their own.  Each version is embedded below in a module:

    - [ShakePhysics]   js/window-physics.js, lines 1-572: strict shake
                       gesture, friction and bounce physics;
    - [StretchGravity] js/window-physics.js, lines 574-1193: stretch
                       gesture, physics with optional gravity;
    - [ShakeBasic]     js/window-physics.js, lines 1195-1539: basic shake
                       gesture, no physics;
    - [Stretch]        the file that opens with "Stretching-based window
                       physics system": stretch gesture ([maxStretch = 80]),
                       physics without gravity;
    - [StretchClean]   the file that opens with "Clean stretching-based
                       window physics system": stretch gesture
                       ([maxStretch = 60]), gravity on double click.

    Modelling conventions.

    - A JavaScript number is a rational ([Q]): every constant of the code
      (0.8, 0.95, 0.1, ...) is one, and the code only adds, multiplies,
      divides and compares.  The rounding of IEEE doubles is not modelled,
      except in the module [Double], which repeats the horizontal half of a
      physics step on doubles.
    - The object [this] is a record with one field per property; the record
      lists the union of the properties of the five versions, a version's
      constructor fills in its own and leaves the others at a default.
    - The DOM element [this.window] and the globals ([window], [document],
      [localStorage], the timers) are explicit state: a handler is a
      function [State -> State].
    - [console.log] and [e.preventDefault()] do not change the state and are
      left out. *)

From Stdlib Require Import PrimFloat QArith Qabs Qminmax Qround Lqa ZArith Lia.
From stdpp Require Import base gmap strings list.

Open Scope Q_scope.

(** ** Numbers *)

Definition Qltb (a b : Q) : bool := negb (Qle_bool b a).
Definition Qgtb (a b : Q) : bool := Qltb b a.
Definition Qgeb (a b : Q) : bool := Qle_bool b a.

Infix "<=?" := Qle_bool (at level 70, no associativity) : Q_scope.
Infix "<?" := Qltb (at level 70, no associativity) : Q_scope.
Infix ">?" := Qgtb (at level 70, no associativity) : Q_scope.
Infix ">=?" := Qgeb (at level 70, no associativity) : Q_scope.

(** [Math.abs], [Math.max], [Math.min]. *)
Definition Math_abs (a : Q) : Q := if a <? 0 then - a else a.
Definition Math_max (a b : Q) : Q := if a <=? b then b else a.
Definition Math_min (a b : Q) : Q := if a <=? b then a else b.

(** [Math.sqrt], rounded down to a multiple of [2^-52 / den]; it is exact on
    the squares of rationals, in particular [Math_sqrt 0 = 0]. *)
Definition Math_sqrt (a : Q) : Q :=
  Z.sqrt (Qnum a * Zpos (Qden a) * 4 ^ 52) # (Qden a * 2 ^ 52).

(** [a || b] on numbers: [0] is falsy. *)
Definition or_else (a b : Q) : Q := if Qeq_bool a 0 then b else a.

(** An object [{ x, y }]. *)
Record Vec : Type := { X : Q; Y : Q }.

(** An entry of [lastPositions]: [{ x, y, time }]. *)
Record Sample : Type := { pos_x : Q; pos_y : Q; time : Q }.

(** ** Text

    CSS values and storage values are strings, many of them built by
    concatenation or by a template literal around a number.  A text is kept
    as the list of its pieces, the numbers not yet printed. *)

Inductive Piece : Type :=
  | Lit (s : string)
  | Num (q : Q).

Abbreviation Text := (list Piece).

Definition lit (s : string) : Text := [Lit s].
(** [q + 'px'] *)
Definition px (q : Q) : Text := [Num q; Lit "px"].

(** [t.replace('px', '')], on the texts the code applies it to. *)
Definition strip_px (t : Text) : Text :=
  match t with
  | [Num q; Lit "px"] => [Num q]
  | _ => t
  end.

(** ** The DOM *)

Inductive DomEvent : Type :=
  | windowDetached (windowId : string)
  | windowReattached (windowId : string).

(** The closures the code hands to [setTimeout]. *)
Inductive Callback : Type :=
  | RemoveClass (c : string)
      (* () => { this.window.classList.remove(c) } *)
  | RestoreTransform (t : Text)
      (* () => { style.transform = t; style.transition = 'none' } *)
  | TransitionNone
      (* () => { style.transition = 'none' } *)
  | FinishSnapBack.
      (* () => { style.transition = 'none';
                 this.isStretching = false; this.stretchAmount = 0 } *)

(** The element [this.window].  [classList] is a set of class names and
    [style] the inline style, a map from property to text; a property that
    is absent reads as the empty string.  [flowLeft] and [flowTop] give the
    place the style sheets put the element at when the inline style does not
    say. *)
Record Element : Type := {
  el_id : string;
  hasTitleBar : bool;
  classList : gset string;
  style : gmap string Text;
  offsetWidth : Q;
  offsetHeight : Q;
  flowLeft : Q;
  flowTop : Q
}.

(** The globals: the viewport, the optional host hook [window.bringToFront]
    (with the number of times it was called), the events dispatched on the
    element, the notifications shown, [localStorage], the pending timeouts
    [(handle, delay, callback)], the handles of the running intervals, the
    next timer handle (handles are positive, hence truthy) and the value of
    [Date.now()]. *)
Record Browser : Type := {
  innerWidth : Q;
  innerHeight : Q;
  hasBringToFront : bool;
  raised : nat;
  dispatched : list DomEvent;
  notifications : list string;
  localStorage : gmap string Text;
  timeouts : list (positive * Q * Callback);
  intervals : list positive;
  nextHandle : positive;
  now : Q
}.

(** ** The controller object *)

Record WindowPhysics : Type := {
  isDetached : bool;
  isDragging : bool;
  isStretching : bool;
  stretchStartY : Q;
  stretchAmount : Q;
  maxStretch : Q;
  snapThreshold : Q;
  dragOffset : Vec;
  lastMouseX : Q;
  lastMouseY : Q;
  originalTransform : Text;
  velocity : Vec;
  acceleration : Vec;
  gravityEnabled : bool;
  friction : Q;
  bounce : Q;
  physicsInterval : option positive;
  lastPositions : list Sample;
  shakeThreshold : Q;
  shakeCount : Q;
  slamVelocityThreshold : Q;
  taskbarHeight : Q;
  taskbarOffset : Q;
  dragStartTime : Q;
  initialWindowX : Q;
  initialWindowY : Q;
  dragStartX : Q;
  dragStartY : Q;
  windowStartX : Q;
  windowStartY : Q
}.

Record State : Type := {
  this : WindowPhysics;
  elem : Element;
  browser : Browser
}.

(** *** Field assignment *)

Definition set_isDetached (v : bool) (w : WindowPhysics) : WindowPhysics :=
  {| isDetached := v; isDragging := isDragging w;
     isStretching := isStretching w; stretchStartY := stretchStartY w;
     stretchAmount := stretchAmount w; maxStretch := maxStretch w;
     snapThreshold := snapThreshold w; dragOffset := dragOffset w;
     lastMouseX := lastMouseX w; lastMouseY := lastMouseY w;
     originalTransform := originalTransform w; velocity := velocity w;
     acceleration := acceleration w; gravityEnabled := gravityEnabled w;
     friction := friction w; bounce := bounce w;
     physicsInterval := physicsInterval w; lastPositions := lastPositions w;
     shakeThreshold := shakeThreshold w; shakeCount := shakeCount w;
     slamVelocityThreshold := slamVelocityThreshold w;
     taskbarHeight := taskbarHeight w; taskbarOffset := taskbarOffset w;
     dragStartTime := dragStartTime w; initialWindowX := initialWindowX w;
     initialWindowY := initialWindowY w; dragStartX := dragStartX w;
     dragStartY := dragStartY w; windowStartX := windowStartX w;
     windowStartY := windowStartY w |}.
Definition set_isDragging (v : bool) (w : WindowPhysics) : WindowPhysics :=
  {| isDetached := isDetached w; isDragging := v;
     isStretching := isStretching w; stretchStartY := stretchStartY w;
     stretchAmount := stretchAmount w; maxStretch := maxStretch w;
     snapThreshold := snapThreshold w; dragOffset := dragOffset w;
     lastMouseX := lastMouseX w; lastMouseY := lastMouseY w;
     originalTransform := originalTransform w; velocity := velocity w;
     acceleration := acceleration w; gravityEnabled := gravityEnabled w;
     friction := friction w; bounce := bounce w;
     physicsInterval := physicsInterval w; lastPositions := lastPositions w;
     shakeThreshold := shakeThreshold w; shakeCount := shakeCount w;
     slamVelocityThreshold := slamVelocityThreshold w;
     taskbarHeight := taskbarHeight w; taskbarOffset := taskbarOffset w;
     dragStartTime := dragStartTime w; initialWindowX := initialWindowX w;
     initialWindowY := initialWindowY w; dragStartX := dragStartX w;
     dragStartY := dragStartY w; windowStartX := windowStartX w;
     windowStartY := windowStartY w |}.
Definition set_isStretching (v : bool) (w : WindowPhysics) : WindowPhysics :=
  {| isDetached := isDetached w; isDragging := isDragging w;
     isStretching := v; stretchStartY := stretchStartY w;
     stretchAmount := stretchAmount w; maxStretch := maxStretch w;
     snapThreshold := snapThreshold w; dragOffset := dragOffset w;
     lastMouseX := lastMouseX w; lastMouseY := lastMouseY w;
     originalTransform := originalTransform w; velocity := velocity w;
     acceleration := acceleration w; gravityEnabled := gravityEnabled w;
     friction := friction w; bounce := bounce w;
     physicsInterval := physicsInterval w; lastPositions := lastPositions w;
     shakeThreshold := shakeThreshold w; shakeCount := shakeCount w;
     slamVelocityThreshold := slamVelocityThreshold w;
     taskbarHeight := taskbarHeight w; taskbarOffset := taskbarOffset w;
     dragStartTime := dragStartTime w; initialWindowX := initialWindowX w;
     initialWindowY := initialWindowY w; dragStartX := dragStartX w;
     dragStartY := dragStartY w; windowStartX := windowStartX w;
     windowStartY := windowStartY w |}.
Definition set_stretchStartY (v : Q) (w : WindowPhysics) : WindowPhysics :=
  {| isDetached := isDetached w; isDragging := isDragging w;
     isStretching := isStretching w; stretchStartY := v;
     stretchAmount := stretchAmount w; maxStretch := maxStretch w;
     snapThreshold := snapThreshold w; dragOffset := dragOffset w;
     lastMouseX := lastMouseX w; lastMouseY := lastMouseY w;
     originalTransform := originalTransform w; velocity := velocity w;
     acceleration := acceleration w; gravityEnabled := gravityEnabled w;
     friction := friction w; bounce := bounce w;
     physicsInterval := physicsInterval w; lastPositions := lastPositions w;
     shakeThreshold := shakeThreshold w; shakeCount := shakeCount w;
     slamVelocityThreshold := slamVelocityThreshold w;
     taskbarHeight := taskbarHeight w; taskbarOffset := taskbarOffset w;
     dragStartTime := dragStartTime w; initialWindowX := initialWindowX w;
     initialWindowY := initialWindowY w; dragStartX := dragStartX w;
     dragStartY := dragStartY w; windowStartX := windowStartX w;
     windowStartY := windowStartY w |}.
Definition set_stretchAmount (v : Q) (w : WindowPhysics) : WindowPhysics :=
  {| isDetached := isDetached w; isDragging := isDragging w;
     isStretching := isStretching w; stretchStartY := stretchStartY w;
     stretchAmount := v; maxStretch := maxStretch w;
     snapThreshold := snapThreshold w; dragOffset := dragOffset w;
     lastMouseX := lastMouseX w; lastMouseY := lastMouseY w;
     originalTransform := originalTransform w; velocity := velocity w;
     acceleration := acceleration w; gravityEnabled := gravityEnabled w;
     friction := friction w; bounce := bounce w;
     physicsInterval := physicsInterval w; lastPositions := lastPositions w;
     shakeThreshold := shakeThreshold w; shakeCount := shakeCount w;
     slamVelocityThreshold := slamVelocityThreshold w;
     taskbarHeight := taskbarHeight w; taskbarOffset := taskbarOffset w;
     dragStartTime := dragStartTime w; initialWindowX := initialWindowX w;
     initialWindowY := initialWindowY w; dragStartX := dragStartX w;
     dragStartY := dragStartY w; windowStartX := windowStartX w;
     windowStartY := windowStartY w |}.
Definition set_dragOffset (v : Vec) (w : WindowPhysics) : WindowPhysics :=
  {| isDetached := isDetached w; isDragging := isDragging w;
     isStretching := isStretching w; stretchStartY := stretchStartY w;
     stretchAmount := stretchAmount w; maxStretch := maxStretch w;
     snapThreshold := snapThreshold w; dragOffset := v;
     lastMouseX := lastMouseX w; lastMouseY := lastMouseY w;
     originalTransform := originalTransform w; velocity := velocity w;
     acceleration := acceleration w; gravityEnabled := gravityEnabled w;
     friction := friction w; bounce := bounce w;
     physicsInterval := physicsInterval w; lastPositions := lastPositions w;
     shakeThreshold := shakeThreshold w; shakeCount := shakeCount w;
     slamVelocityThreshold := slamVelocityThreshold w;
     taskbarHeight := taskbarHeight w; taskbarOffset := taskbarOffset w;
     dragStartTime := dragStartTime w; initialWindowX := initialWindowX w;
     initialWindowY := initialWindowY w; dragStartX := dragStartX w;
     dragStartY := dragStartY w; windowStartX := windowStartX w;
     windowStartY := windowStartY w |}.
Definition set_lastMouseX (v : Q) (w : WindowPhysics) : WindowPhysics :=
  {| isDetached := isDetached w; isDragging := isDragging w;
     isStretching := isStretching w; stretchStartY := stretchStartY w;
     stretchAmount := stretchAmount w; maxStretch := maxStretch w;
     snapThreshold := snapThreshold w; dragOffset := dragOffset w;
     lastMouseX := v; lastMouseY := lastMouseY w;
     originalTransform := originalTransform w; velocity := velocity w;
     acceleration := acceleration w; gravityEnabled := gravityEnabled w;
     friction := friction w; bounce := bounce w;
     physicsInterval := physicsInterval w; lastPositions := lastPositions w;
     shakeThreshold := shakeThreshold w; shakeCount := shakeCount w;
     slamVelocityThreshold := slamVelocityThreshold w;
     taskbarHeight := taskbarHeight w; taskbarOffset := taskbarOffset w;
     dragStartTime := dragStartTime w; initialWindowX := initialWindowX w;
     initialWindowY := initialWindowY w; dragStartX := dragStartX w;
     dragStartY := dragStartY w; windowStartX := windowStartX w;
     windowStartY := windowStartY w |}.
Definition set_lastMouseY (v : Q) (w : WindowPhysics) : WindowPhysics :=
  {| isDetached := isDetached w; isDragging := isDragging w;
     isStretching := isStretching w; stretchStartY := stretchStartY w;
     stretchAmount := stretchAmount w; maxStretch := maxStretch w;
     snapThreshold := snapThreshold w; dragOffset := dragOffset w;
     lastMouseX := lastMouseX w; lastMouseY := v;
     originalTransform := originalTransform w; velocity := velocity w;
     acceleration := acceleration w; gravityEnabled := gravityEnabled w;
     friction := friction w; bounce := bounce w;
     physicsInterval := physicsInterval w; lastPositions := lastPositions w;
     shakeThreshold := shakeThreshold w; shakeCount := shakeCount w;
     slamVelocityThreshold := slamVelocityThreshold w;
     taskbarHeight := taskbarHeight w; taskbarOffset := taskbarOffset w;
     dragStartTime := dragStartTime w; initialWindowX := initialWindowX w;
     initialWindowY := initialWindowY w; dragStartX := dragStartX w;
     dragStartY := dragStartY w; windowStartX := windowStartX w;
     windowStartY := windowStartY w |}.
Definition set_originalTransform (v : Text) (w : WindowPhysics) : WindowPhysics :=
  {| isDetached := isDetached w; isDragging := isDragging w;
     isStretching := isStretching w; stretchStartY := stretchStartY w;
     stretchAmount := stretchAmount w; maxStretch := maxStretch w;
     snapThreshold := snapThreshold w; dragOffset := dragOffset w;
     lastMouseX := lastMouseX w; lastMouseY := lastMouseY w;
     originalTransform := v; velocity := velocity w;
     acceleration := acceleration w; gravityEnabled := gravityEnabled w;
     friction := friction w; bounce := bounce w;
     physicsInterval := physicsInterval w; lastPositions := lastPositions w;
     shakeThreshold := shakeThreshold w; shakeCount := shakeCount w;
     slamVelocityThreshold := slamVelocityThreshold w;
     taskbarHeight := taskbarHeight w; taskbarOffset := taskbarOffset w;
     dragStartTime := dragStartTime w; initialWindowX := initialWindowX w;
     initialWindowY := initialWindowY w; dragStartX := dragStartX w;
     dragStartY := dragStartY w; windowStartX := windowStartX w;
     windowStartY := windowStartY w |}.
Definition set_velocity (v : Vec) (w : WindowPhysics) : WindowPhysics :=
  {| isDetached := isDetached w; isDragging := isDragging w;
     isStretching := isStretching w; stretchStartY := stretchStartY w;
     stretchAmount := stretchAmount w; maxStretch := maxStretch w;
     snapThreshold := snapThreshold w; dragOffset := dragOffset w;
     lastMouseX := lastMouseX w; lastMouseY := lastMouseY w;
     originalTransform := originalTransform w; velocity := v;
     acceleration := acceleration w; gravityEnabled := gravityEnabled w;
     friction := friction w; bounce := bounce w;
     physicsInterval := physicsInterval w; lastPositions := lastPositions w;
     shakeThreshold := shakeThreshold w; shakeCount := shakeCount w;
     slamVelocityThreshold := slamVelocityThreshold w;
     taskbarHeight := taskbarHeight w; taskbarOffset := taskbarOffset w;
     dragStartTime := dragStartTime w; initialWindowX := initialWindowX w;
     initialWindowY := initialWindowY w; dragStartX := dragStartX w;
     dragStartY := dragStartY w; windowStartX := windowStartX w;
     windowStartY := windowStartY w |}.
Definition set_acceleration (v : Vec) (w : WindowPhysics) : WindowPhysics :=
  {| isDetached := isDetached w; isDragging := isDragging w;
     isStretching := isStretching w; stretchStartY := stretchStartY w;
     stretchAmount := stretchAmount w; maxStretch := maxStretch w;
     snapThreshold := snapThreshold w; dragOffset := dragOffset w;
     lastMouseX := lastMouseX w; lastMouseY := lastMouseY w;
     originalTransform := originalTransform w; velocity := velocity w;
     acceleration := v; gravityEnabled := gravityEnabled w;
     friction := friction w; bounce := bounce w;
     physicsInterval := physicsInterval w; lastPositions := lastPositions w;
     shakeThreshold := shakeThreshold w; shakeCount := shakeCount w;
     slamVelocityThreshold := slamVelocityThreshold w;
     taskbarHeight := taskbarHeight w; taskbarOffset := taskbarOffset w;
     dragStartTime := dragStartTime w; initialWindowX := initialWindowX w;
     initialWindowY := initialWindowY w; dragStartX := dragStartX w;
     dragStartY := dragStartY w; windowStartX := windowStartX w;
     windowStartY := windowStartY w |}.
Definition set_gravityEnabled (v : bool) (w : WindowPhysics) : WindowPhysics :=
  {| isDetached := isDetached w; isDragging := isDragging w;
     isStretching := isStretching w; stretchStartY := stretchStartY w;
     stretchAmount := stretchAmount w; maxStretch := maxStretch w;
     snapThreshold := snapThreshold w; dragOffset := dragOffset w;
     lastMouseX := lastMouseX w; lastMouseY := lastMouseY w;
     originalTransform := originalTransform w; velocity := velocity w;
     acceleration := acceleration w; gravityEnabled := v;
     friction := friction w; bounce := bounce w;
     physicsInterval := physicsInterval w; lastPositions := lastPositions w;
     shakeThreshold := shakeThreshold w; shakeCount := shakeCount w;
     slamVelocityThreshold := slamVelocityThreshold w;
     taskbarHeight := taskbarHeight w; taskbarOffset := taskbarOffset w;
     dragStartTime := dragStartTime w; initialWindowX := initialWindowX w;
     initialWindowY := initialWindowY w; dragStartX := dragStartX w;
     dragStartY := dragStartY w; windowStartX := windowStartX w;
     windowStartY := windowStartY w |}.
Definition set_physicsInterval (v : option positive) (w : WindowPhysics) : WindowPhysics :=
  {| isDetached := isDetached w; isDragging := isDragging w;
     isStretching := isStretching w; stretchStartY := stretchStartY w;
     stretchAmount := stretchAmount w; maxStretch := maxStretch w;
     snapThreshold := snapThreshold w; dragOffset := dragOffset w;
     lastMouseX := lastMouseX w; lastMouseY := lastMouseY w;
     originalTransform := originalTransform w; velocity := velocity w;
     acceleration := acceleration w; gravityEnabled := gravityEnabled w;
     friction := friction w; bounce := bounce w; physicsInterval := v;
     lastPositions := lastPositions w; shakeThreshold := shakeThreshold w;
     shakeCount := shakeCount w;
     slamVelocityThreshold := slamVelocityThreshold w;
     taskbarHeight := taskbarHeight w; taskbarOffset := taskbarOffset w;
     dragStartTime := dragStartTime w; initialWindowX := initialWindowX w;
     initialWindowY := initialWindowY w; dragStartX := dragStartX w;
     dragStartY := dragStartY w; windowStartX := windowStartX w;
     windowStartY := windowStartY w |}.
Definition set_lastPositions (v : list Sample) (w : WindowPhysics) : WindowPhysics :=
  {| isDetached := isDetached w; isDragging := isDragging w;
     isStretching := isStretching w; stretchStartY := stretchStartY w;
     stretchAmount := stretchAmount w; maxStretch := maxStretch w;
     snapThreshold := snapThreshold w; dragOffset := dragOffset w;
     lastMouseX := lastMouseX w; lastMouseY := lastMouseY w;
     originalTransform := originalTransform w; velocity := velocity w;
     acceleration := acceleration w; gravityEnabled := gravityEnabled w;
     friction := friction w; bounce := bounce w;
     physicsInterval := physicsInterval w; lastPositions := v;
     shakeThreshold := shakeThreshold w; shakeCount := shakeCount w;
     slamVelocityThreshold := slamVelocityThreshold w;
     taskbarHeight := taskbarHeight w; taskbarOffset := taskbarOffset w;
     dragStartTime := dragStartTime w; initialWindowX := initialWindowX w;
     initialWindowY := initialWindowY w; dragStartX := dragStartX w;
     dragStartY := dragStartY w; windowStartX := windowStartX w;
     windowStartY := windowStartY w |}.
Definition set_shakeCount (v : Q) (w : WindowPhysics) : WindowPhysics :=
  {| isDetached := isDetached w; isDragging := isDragging w;
     isStretching := isStretching w; stretchStartY := stretchStartY w;
     stretchAmount := stretchAmount w; maxStretch := maxStretch w;
     snapThreshold := snapThreshold w; dragOffset := dragOffset w;
     lastMouseX := lastMouseX w; lastMouseY := lastMouseY w;
     originalTransform := originalTransform w; velocity := velocity w;
     acceleration := acceleration w; gravityEnabled := gravityEnabled w;
     friction := friction w; bounce := bounce w;
     physicsInterval := physicsInterval w; lastPositions := lastPositions w;
     shakeThreshold := shakeThreshold w; shakeCount := v;
     slamVelocityThreshold := slamVelocityThreshold w;
     taskbarHeight := taskbarHeight w; taskbarOffset := taskbarOffset w;
     dragStartTime := dragStartTime w; initialWindowX := initialWindowX w;
     initialWindowY := initialWindowY w; dragStartX := dragStartX w;
     dragStartY := dragStartY w; windowStartX := windowStartX w;
     windowStartY := windowStartY w |}.
Definition set_dragStartTime (v : Q) (w : WindowPhysics) : WindowPhysics :=
  {| isDetached := isDetached w; isDragging := isDragging w;
     isStretching := isStretching w; stretchStartY := stretchStartY w;
     stretchAmount := stretchAmount w; maxStretch := maxStretch w;
     snapThreshold := snapThreshold w; dragOffset := dragOffset w;
     lastMouseX := lastMouseX w; lastMouseY := lastMouseY w;
     originalTransform := originalTransform w; velocity := velocity w;
     acceleration := acceleration w; gravityEnabled := gravityEnabled w;
     friction := friction w; bounce := bounce w;
     physicsInterval := physicsInterval w; lastPositions := lastPositions w;
     shakeThreshold := shakeThreshold w; shakeCount := shakeCount w;
     slamVelocityThreshold := slamVelocityThreshold w;
     taskbarHeight := taskbarHeight w; taskbarOffset := taskbarOffset w;
     dragStartTime := v; initialWindowX := initialWindowX w;
     initialWindowY := initialWindowY w; dragStartX := dragStartX w;
     dragStartY := dragStartY w; windowStartX := windowStartX w;
     windowStartY := windowStartY w |}.
Definition set_initialWindowX (v : Q) (w : WindowPhysics) : WindowPhysics :=
  {| isDetached := isDetached w; isDragging := isDragging w;
     isStretching := isStretching w; stretchStartY := stretchStartY w;
     stretchAmount := stretchAmount w; maxStretch := maxStretch w;
     snapThreshold := snapThreshold w; dragOffset := dragOffset w;
     lastMouseX := lastMouseX w; lastMouseY := lastMouseY w;
     originalTransform := originalTransform w; velocity := velocity w;
     acceleration := acceleration w; gravityEnabled := gravityEnabled w;
     friction := friction w; bounce := bounce w;
     physicsInterval := physicsInterval w; lastPositions := lastPositions w;
     shakeThreshold := shakeThreshold w; shakeCount := shakeCount w;
     slamVelocityThreshold := slamVelocityThreshold w;
     taskbarHeight := taskbarHeight w; taskbarOffset := taskbarOffset w;
     dragStartTime := dragStartTime w; initialWindowX := v;
     initialWindowY := initialWindowY w; dragStartX := dragStartX w;
     dragStartY := dragStartY w; windowStartX := windowStartX w;
     windowStartY := windowStartY w |}.
Definition set_initialWindowY (v : Q) (w : WindowPhysics) : WindowPhysics :=
  {| isDetached := isDetached w; isDragging := isDragging w;
     isStretching := isStretching w; stretchStartY := stretchStartY w;
     stretchAmount := stretchAmount w; maxStretch := maxStretch w;
     snapThreshold := snapThreshold w; dragOffset := dragOffset w;
     lastMouseX := lastMouseX w; lastMouseY := lastMouseY w;
     originalTransform := originalTransform w; velocity := velocity w;
     acceleration := acceleration w; gravityEnabled := gravityEnabled w;
     friction := friction w; bounce := bounce w;
     physicsInterval := physicsInterval w; lastPositions := lastPositions w;
     shakeThreshold := shakeThreshold w; shakeCount := shakeCount w;
     slamVelocityThreshold := slamVelocityThreshold w;
     taskbarHeight := taskbarHeight w; taskbarOffset := taskbarOffset w;
     dragStartTime := dragStartTime w; initialWindowX := initialWindowX w;
     initialWindowY := v; dragStartX := dragStartX w;
     dragStartY := dragStartY w; windowStartX := windowStartX w;
     windowStartY := windowStartY w |}.
Definition set_dragStartX (v : Q) (w : WindowPhysics) : WindowPhysics :=
  {| isDetached := isDetached w; isDragging := isDragging w;
     isStretching := isStretching w; stretchStartY := stretchStartY w;
     stretchAmount := stretchAmount w; maxStretch := maxStretch w;
     snapThreshold := snapThreshold w; dragOffset := dragOffset w;
     lastMouseX := lastMouseX w; lastMouseY := lastMouseY w;
     originalTransform := originalTransform w; velocity := velocity w;
     acceleration := acceleration w; gravityEnabled := gravityEnabled w;
     friction := friction w; bounce := bounce w;
     physicsInterval := physicsInterval w; lastPositions := lastPositions w;
     shakeThreshold := shakeThreshold w; shakeCount := shakeCount w;
     slamVelocityThreshold := slamVelocityThreshold w;
     taskbarHeight := taskbarHeight w; taskbarOffset := taskbarOffset w;
     dragStartTime := dragStartTime w; initialWindowX := initialWindowX w;
     initialWindowY := initialWindowY w; dragStartX := v;
     dragStartY := dragStartY w; windowStartX := windowStartX w;
     windowStartY := windowStartY w |}.
Definition set_dragStartY (v : Q) (w : WindowPhysics) : WindowPhysics :=
  {| isDetached := isDetached w; isDragging := isDragging w;
     isStretching := isStretching w; stretchStartY := stretchStartY w;
     stretchAmount := stretchAmount w; maxStretch := maxStretch w;
     snapThreshold := snapThreshold w; dragOffset := dragOffset w;
     lastMouseX := lastMouseX w; lastMouseY := lastMouseY w;
     originalTransform := originalTransform w; velocity := velocity w;
     acceleration := acceleration w; gravityEnabled := gravityEnabled w;
     friction := friction w; bounce := bounce w;
     physicsInterval := physicsInterval w; lastPositions := lastPositions w;
     shakeThreshold := shakeThreshold w; shakeCount := shakeCount w;
     slamVelocityThreshold := slamVelocityThreshold w;
     taskbarHeight := taskbarHeight w; taskbarOffset := taskbarOffset w;
     dragStartTime := dragStartTime w; initialWindowX := initialWindowX w;
     initialWindowY := initialWindowY w; dragStartX := dragStartX w;
     dragStartY := v; windowStartX := windowStartX w;
     windowStartY := windowStartY w |}.
Definition set_windowStartX (v : Q) (w : WindowPhysics) : WindowPhysics :=
  {| isDetached := isDetached w; isDragging := isDragging w;
     isStretching := isStretching w; stretchStartY := stretchStartY w;
     stretchAmount := stretchAmount w; maxStretch := maxStretch w;
     snapThreshold := snapThreshold w; dragOffset := dragOffset w;
     lastMouseX := lastMouseX w; lastMouseY := lastMouseY w;
     originalTransform := originalTransform w; velocity := velocity w;
     acceleration := acceleration w; gravityEnabled := gravityEnabled w;
     friction := friction w; bounce := bounce w;
     physicsInterval := physicsInterval w; lastPositions := lastPositions w;
     shakeThreshold := shakeThreshold w; shakeCount := shakeCount w;
     slamVelocityThreshold := slamVelocityThreshold w;
     taskbarHeight := taskbarHeight w; taskbarOffset := taskbarOffset w;
     dragStartTime := dragStartTime w; initialWindowX := initialWindowX w;
     initialWindowY := initialWindowY w; dragStartX := dragStartX w;
     dragStartY := dragStartY w; windowStartX := v;
     windowStartY := windowStartY w |}.
Definition set_windowStartY (v : Q) (w : WindowPhysics) : WindowPhysics :=
  {| isDetached := isDetached w; isDragging := isDragging w;
     isStretching := isStretching w; stretchStartY := stretchStartY w;
     stretchAmount := stretchAmount w; maxStretch := maxStretch w;
     snapThreshold := snapThreshold w; dragOffset := dragOffset w;
     lastMouseX := lastMouseX w; lastMouseY := lastMouseY w;
     originalTransform := originalTransform w; velocity := velocity w;
     acceleration := acceleration w; gravityEnabled := gravityEnabled w;
     friction := friction w; bounce := bounce w;
     physicsInterval := physicsInterval w; lastPositions := lastPositions w;
     shakeThreshold := shakeThreshold w; shakeCount := shakeCount w;
     slamVelocityThreshold := slamVelocityThreshold w;
     taskbarHeight := taskbarHeight w; taskbarOffset := taskbarOffset w;
     dragStartTime := dragStartTime w; initialWindowX := initialWindowX w;
     initialWindowY := initialWindowY w; dragStartX := dragStartX w;
     dragStartY := dragStartY w; windowStartX := windowStartX w;
     windowStartY := v |}.

Definition set_classList (v : gset string) (e : Element) : Element :=
  {| el_id := el_id e; hasTitleBar := hasTitleBar e; classList := v;
     style := style e; offsetWidth := offsetWidth e;
     offsetHeight := offsetHeight e; flowLeft := flowLeft e;
     flowTop := flowTop e |}.
Definition set_style (v : gmap string Text) (e : Element) : Element :=
  {| el_id := el_id e; hasTitleBar := hasTitleBar e;
     classList := classList e; style := v; offsetWidth := offsetWidth e;
     offsetHeight := offsetHeight e; flowLeft := flowLeft e;
     flowTop := flowTop e |}.

Definition set_raised (v : nat) (b : Browser) : Browser :=
  {| innerWidth := innerWidth b; innerHeight := innerHeight b;
     hasBringToFront := hasBringToFront b; raised := v;
     dispatched := dispatched b; notifications := notifications b;
     localStorage := localStorage b; timeouts := timeouts b;
     intervals := intervals b; nextHandle := nextHandle b; now := now b |}.
Definition set_dispatched (v : list DomEvent) (b : Browser) : Browser :=
  {| innerWidth := innerWidth b; innerHeight := innerHeight b;
     hasBringToFront := hasBringToFront b; raised := raised b;
     dispatched := v; notifications := notifications b;
     localStorage := localStorage b; timeouts := timeouts b;
     intervals := intervals b; nextHandle := nextHandle b; now := now b |}.
Definition set_notifications (v : list string) (b : Browser) : Browser :=
  {| innerWidth := innerWidth b; innerHeight := innerHeight b;
     hasBringToFront := hasBringToFront b; raised := raised b;
     dispatched := dispatched b; notifications := v;
     localStorage := localStorage b; timeouts := timeouts b;
     intervals := intervals b; nextHandle := nextHandle b; now := now b |}.
Definition set_localStorage (v : gmap string Text) (b : Browser) : Browser :=
  {| innerWidth := innerWidth b; innerHeight := innerHeight b;
     hasBringToFront := hasBringToFront b; raised := raised b;
     dispatched := dispatched b; notifications := notifications b;
     localStorage := v; timeouts := timeouts b; intervals := intervals b;
     nextHandle := nextHandle b; now := now b |}.
Definition set_timeouts (v : list (positive * Q * Callback)) (b : Browser) : Browser :=
  {| innerWidth := innerWidth b; innerHeight := innerHeight b;
     hasBringToFront := hasBringToFront b; raised := raised b;
     dispatched := dispatched b; notifications := notifications b;
     localStorage := localStorage b; timeouts := v; intervals := intervals b;
     nextHandle := nextHandle b; now := now b |}.
Definition set_intervals (v : list positive) (b : Browser) : Browser :=
  {| innerWidth := innerWidth b; innerHeight := innerHeight b;
     hasBringToFront := hasBringToFront b; raised := raised b;
     dispatched := dispatched b; notifications := notifications b;
     localStorage := localStorage b; timeouts := timeouts b; intervals := v;
     nextHandle := nextHandle b; now := now b |}.
Definition set_nextHandle (v : positive) (b : Browser) : Browser :=
  {| innerWidth := innerWidth b; innerHeight := innerHeight b;
     hasBringToFront := hasBringToFront b; raised := raised b;
     dispatched := dispatched b; notifications := notifications b;
     localStorage := localStorage b; timeouts := timeouts b;
     intervals := intervals b; nextHandle := v; now := now b |}.
Definition set_now (v : Q) (b : Browser) : Browser :=
  {| innerWidth := innerWidth b; innerHeight := innerHeight b;
     hasBringToFront := hasBringToFront b; raised := raised b;
     dispatched := dispatched b; notifications := notifications b;
     localStorage := localStorage b; timeouts := timeouts b;
     intervals := intervals b; nextHandle := nextHandle b; now := v |}.
Definition on_this (f : WindowPhysics -> WindowPhysics) (s : State) : State :=
  {| this := f (this s); elem := elem s; browser := browser s |}.
Definition on_elem (f : Element -> Element) (s : State) : State :=
  {| this := this s; elem := f (elem s); browser := browser s |}.
Definition on_browser (f : Browser -> Browser) (s : State) : State :=
  {| this := this s; elem := elem s; browser := f (browser s) |}.

(** ** Operations on the DOM and the globals *)

Record MouseEvent : Type := { clientX : Q; clientY : Q; shiftKey : bool }.

Record DOMRect : Type := {
  rect_left : Q; rect_top : Q; rect_right : Q; rect_bottom : Q
}.

(** Reading [style.p]. *)
Definition style_get (p : string) (s : State) : Text :=
  default [] (style (elem s) !! p).

(** [style.p = v]; the empty string removes the declaration. *)
Definition style_set (p : string) (v : Text) : State -> State :=
  on_elem (fun e =>
    set_style (match v with
               | [] => delete p (style e)
               | _ => <[p := v]> (style e)
               end) e).

Definition classList_add (c : string) : State -> State :=
  on_elem (fun e => set_classList ({[c]} ∪ classList e) e).

Definition classList_remove (c : string) : State -> State :=
  on_elem (fun e => set_classList (classList e ∖ {[c]}) e).

(** Layout of the element, which is positioned against the viewport: an
    inline [left] or [top] in pixels is the coordinate itself, and with
    [top] not a length an inline [bottom] in pixels puts the lower edge that
    far above the bottom of the viewport.  A CSS transform, which the
    rectangle a browser reports includes, is not modelled: the box is that
    of the element without its transform. *)
Definition layout_left (s : State) : Q :=
  match style (elem s) !! "left" with
  | Some [Num q; Lit "px"] => q
  | _ => flowLeft (elem s)
  end.

Definition layout_top (s : State) : Q :=
  match style (elem s) !! "top" with
  | Some [Num q; Lit "px"] => q
  | _ =>
      match style (elem s) !! "bottom" with
      | Some [Num b; Lit "px"] =>
          innerHeight (browser s) - b - offsetHeight (elem s)
      | _ => flowTop (elem s)
      end
  end.

Definition getBoundingClientRect (s : State) : DOMRect :=
  {| rect_left := layout_left s;
     rect_top := layout_top s;
     rect_right := layout_left s + offsetWidth (elem s);
     rect_bottom := layout_top s + offsetHeight (elem s) |}.

(** [this.window.dispatchEvent(new CustomEvent(...))] *)
Definition dispatchEvent (ev : DomEvent) : State -> State :=
  on_browser (fun b => set_dispatched (dispatched b ++ [ev]) b).

(** [showNotification(message)]: the toast is an element of its own, added
    to the body and faded out by timers of its own, which touch nothing
    else; of all that the message shown is kept. *)
Definition showNotification (message : string) : State -> State :=
  on_browser (fun b => set_notifications (notifications b ++ [message]) b).

(** [if (window.bringToFront) window.bringToFront(this.window)] *)
Definition bringToFront (s : State) : State :=
  if hasBringToFront (browser s)
  then on_browser (fun b => set_raised (S (raised b)) b) s
  else s.

(** [setTimeout(cb, delay)]: the closure waits under a fresh handle. *)
Definition setTimeout (cb : Callback) (delay : Q) : State -> State :=
  on_browser (fun b =>
    set_nextHandle (Pos.succ (nextHandle b))
      (set_timeouts (timeouts b ++ [(nextHandle b, delay, cb)]) b)).

(** [setInterval(() => this.updatePhysics(), delay)]: every interval of the
    controller runs [updatePhysics]; the handle is returned. *)
Definition setInterval (delay : Q) (s : State) : positive * State :=
  (nextHandle (browser s),
   on_browser (fun b =>
     set_nextHandle (Pos.succ (nextHandle b))
       (set_intervals (intervals b ++ [nextHandle b]) b)) s).

(** [clearInterval(h)] *)
Definition clearInterval (h : positive) : State -> State :=
  on_browser (fun b =>
    set_intervals (List.filter (fun h' => negb (Pos.eqb h' h)) (intervals b)) b).

(** [localStorage.setItem(key, v)]; a boolean is stored as its name. *)
Definition setItem (key : string) (v : Text) : State -> State :=
  on_browser (fun b => set_localStorage (<[key := v]> (localStorage b)) b).

Definition string_of_bool (b : bool) : Text :=
  lit (if b then "true" else "false").

(** The body of a [setTimeout] closure. *)
Definition run_callback (cb : Callback) (s : State) : State :=
  match cb with
  | RemoveClass c => classList_remove c s
  | RestoreTransform t =>
      style_set "transition" (lit "none") (style_set "transform" t s)
  | TransitionNone => style_set "transition" (lit "none") s
  | FinishSnapBack =>
      on_this (set_stretchAmount 0)
        (on_this (set_isStretching false)
           (style_set "transition" (lit "none") s))
  end.

(** A timer handle or [null] in a condition. *)
Definition truthy (h : option positive) : bool :=
  match h with Some _ => true | None => false end.

(** ** Code shared by the versions *)

(** [stopPhysics], the same text in the four versions that have physics. *)
Definition stopPhysics (s : State) : State :=
  let s :=
    match physicsInterval (this s) with
    | Some h => on_this (set_physicsInterval None) (clearInterval h s)
    | None => s
    end in
  on_this (set_velocity {| X := 0; Y := 0 |}) s.

(** One axis of the boundary block of [updatePhysics]:
    [if (p <= 0) { p = 0; v = -v * bounce }
     else if (p >= max) { p = max; v = -v * bounce }]. *)
Definition bounce_axis (p v max b : Q) : Q * Q :=
  if p <=? 0 then (0, - v * b)
  else if p >=? max then (max, - v * b)
  else (p, v).

(** [Math.sqrt(v.x * v.x + v.y * v.y)] *)
Definition speed (v : Vec) : Q := Math_sqrt (X v * X v + Y v * Y v).

(** The square of the speed; speeds are ordered as their squares are. *)
Definition speed2 (v : Vec) : Q := X v * X v + Y v * Y v.

(** ** The shake gesture

    The loop of [detectShake] walks the consecutive pairs of [lastPositions]
    and keeps six counters. *)

Record ShakeStats : Type := {
  verticalMovements : nat;
  upwardMovement : nat;
  totalVerticalDistance : Q;
  maxUpwardDelta : Q;
  consecutiveUpward : nat;
  maxConsecutiveUpward : nat
}.

Definition shake_zero : ShakeStats :=
  {| verticalMovements := 0; upwardMovement := 0; totalVerticalDistance := 0;
     maxUpwardDelta := 0; consecutiveUpward := 0; maxConsecutiveUpward := 0 |}.

(** The body of the loop of the strict version for one [deltaY]. *)
Definition shake_body (threshold deltaY : Q) (a : ShakeStats) : ShakeStats :=
  let absDeltaY := Math_abs deltaY in
  if absDeltaY >? threshold then
    if deltaY <? 0 then
      {| verticalMovements := S (verticalMovements a);
         upwardMovement := S (upwardMovement a);
         totalVerticalDistance := totalVerticalDistance a + absDeltaY;
         maxUpwardDelta := Math_max (maxUpwardDelta a) absDeltaY;
         consecutiveUpward := S (consecutiveUpward a);
         maxConsecutiveUpward :=
           Nat.max (maxConsecutiveUpward a) (S (consecutiveUpward a)) |}
    else
      {| verticalMovements := S (verticalMovements a);
         upwardMovement := upwardMovement a;
         totalVerticalDistance := totalVerticalDistance a + absDeltaY;
         maxUpwardDelta := maxUpwardDelta a;
         consecutiveUpward := 0;
         maxConsecutiveUpward := maxConsecutiveUpward a |}
  else a.

(** [for (let i = 1; i < lastPositions.length; i++)], [prev] being
    [lastPositions[i-1]]. *)
Fixpoint shake_loop (threshold : Q) (prev : Sample) (rest : list Sample)
    (a : ShakeStats) : ShakeStats :=
  match rest with
  | [] => a
  | cur :: rest' =>
      shake_loop threshold cur rest'
        (shake_body threshold (pos_y cur - pos_y prev) a)
  end.

Definition shake_scan (threshold : Q) (l : list Sample) : ShakeStats :=
  match l with
  | [] => shake_zero
  | p :: rest => shake_loop threshold p rest shake_zero
  end.

(** [recordPosition(x, y)]: push, then drop the oldest beyond ten. *)
Definition recordPosition (x y : Q) (s : State) : State :=
  let l := lastPositions (this s)
             ++ [{| pos_x := x; pos_y := y; time := now (browser s) |}] in
  let l := if (10 <? length l)%nat then tail l else l in
  on_this (set_lastPositions l) s.

(** [lastPositions.slice(-3)] *)
Definition slice_last3 {A : Type} (l : list A) : list A :=
  skipn (length l - 3) l.

(** The loop of [calculateVelocity]: total distance and total time. *)
Fixpoint velocity_loop (prev : Sample) (rest : list Sample)
    (totalDistance totalTime : Q) : Q * Q :=
  match rest with
  | [] => (totalDistance, totalTime)
  | cur :: rest' =>
      let dx := pos_x cur - pos_x prev in
      let dy := pos_y cur - pos_y prev in
      let distance := Math_sqrt (dx * dx + dy * dy) in
      let dt := time cur - time prev in
      velocity_loop cur rest' (totalDistance + distance) (totalTime + dt)
  end.

(** [calculateVelocity()], in pixels per second. *)
Definition calculateVelocity (s : State) : Q :=
  if (length (lastPositions (this s)) <? 2)%nat then 0
  else
    match slice_last3 (lastPositions (this s)) with
    | [] => 0
    | p :: rest =>
        let '(totalDistance, totalTime) := velocity_loop p rest 0 0 in
        totalDistance / or_else totalTime 1 * 1000
    end.

(** [saveWindowPosition()] of the two shake versions. *)
Definition saveWindowPosition (s : State) : State :=
  if String.eqb (el_id (elem s)) "" then s
  else
    let id := el_id (elem s) in
    let s := setItem (id +:+ "Left") (strip_px (style_get "left" s)) s in
    let s := setItem (id +:+ "Top") (strip_px (style_get "top" s)) s in
    setItem (id +:+ "Detached") (string_of_bool (isDetached (this s))) s.

(** [loadWindowPosition()] of the two shake versions.  The style only
    takes a declaration that parses: a number followed by [px]. *)
Definition loadWindowPosition (s : State) : State :=
  if String.eqb (el_id (elem s)) "" then s
  else
    let id := el_id (elem s) in
    let left_ := localStorage (browser s) !! (id +:+ "Left") in
    let top_ := localStorage (browser s) !! (id +:+ "Top") in
    let detached :=
      match localStorage (browser s) !! (id +:+ "Detached") with
      | Some [Lit "true"] => true
      | _ => false
      end in
    match left_, top_ with
    | Some left_, Some top_ =>
        let assign p (v : Text) s :=
          match v with
          | [Num q] => style_set p (px q) s
          | _ => s
          end in
        let s := assign "left" left_ s in
        let s := assign "top" top_ s in
        if detached then
          let s := on_this (set_isDetached true) s in
          let s := classList_add "detached" s in
          style_set "zIndex" (lit "9999") s
        else s
    | _, _ => s
    end.

(** * Version 1: strict shake gesture with physics
    (js/window-physics.js, lines 1-572) *)

Module ShakePhysics.

Definition constructor : WindowPhysics :=
  {| isDetached := false; isDragging := false; isStretching := false;
     stretchStartY := 0; stretchAmount := 0; maxStretch := 0;
     snapThreshold := 0; dragOffset := {| X := 0; Y := 0 |};
     lastMouseX := 0; lastMouseY := 0; originalTransform := [];
     velocity := {| X := 0; Y := 0 |}; acceleration := {| X := 0; Y := 0 |};
     gravityEnabled := false; friction := 0.95; bounce := 0.3;
     physicsInterval := None; lastPositions := []; shakeThreshold := 25;
     shakeCount := 0; slamVelocityThreshold := 500; taskbarHeight := 50;
     taskbarOffset := 2; dragStartTime := 0; initialWindowX := 0;
     initialWindowY := 0; dragStartX := 0; dragStartY := 0;
     windowStartX := 0; windowStartY := 0 |}.

(** [init()]: the listeners it registers are the cases of [handle] below;
    the cursor it sets belongs to the title bar, another element. *)
Definition init (s : State) : State := classList_add "physics-enabled" s.

Definition startDrag (e : MouseEvent) (s : State) : State :=
  let s := on_this (set_isDragging true) s in
  let s := on_this (set_lastPositions []) s in
  let s := on_this (set_shakeCount 0) s in
  let s := on_this (set_dragStartTime (now (browser s))) s in
  let rect := getBoundingClientRect s in
  let s := on_this (set_initialWindowX (rect_left rect)) s in
  let s := on_this (set_initialWindowY (rect_top rect)) s in
  let s := on_this (set_dragOffset {| X := clientX e - rect_left rect;
                                      Y := clientY e - rect_top rect |}) s in
  let s := on_this (set_lastMouseX (clientX e)) s in
  let s := on_this (set_lastMouseY (clientY e)) s in
  let s := recordPosition (clientX e) (clientY e) s in
  let s := style_set "cursor" (lit "grabbing") s in
  let s := classList_add "moving" s in
  bringToFront s.

Definition moveWindowFreely (x y : Q) (s : State) : State :=
  let maxX := innerWidth (browser s) - offsetWidth (elem s) in
  let maxY := innerHeight (browser s) - offsetHeight (elem s) in
  let x := Math_max 0 (Math_min maxX x) in
  let y := Math_max 0 (Math_min maxY y) in
  let s := style_set "left" (px x) s in
  let s := style_set "top" (px y) s in
  let s := style_set "bottom" (lit "auto") s in
  style_set "position" (lit "fixed") s.

Definition moveOnTaskbarRail (x y : Q) (s : State) : State :=
  let maxX := innerWidth (browser s) - offsetWidth (elem s) in
  let x := Math_max 0 (Math_min maxX x) in
  let s := style_set "left" (px x) s in
  let s := style_set "bottom"
             (px (taskbarHeight (this s) + taskbarOffset (this s))) s in
  let s := style_set "top" (lit "auto") s in
  style_set "position" (lit "fixed") s.

Definition snapToTaskbar (s : State) : State :=
  let s := style_set "bottom"
             (px (taskbarHeight (this s) + taskbarOffset (this s))) s in
  let s := style_set "top" (lit "auto") s in
  style_set "position" (lit "fixed") s.

Definition detachWindow (s : State) : State :=
  if isDetached (this s) then s
  else
    let s := on_this (set_isDetached true) s in
    let s := classList_add "detached" s in
    let s := style_set "zIndex" (lit "9999") s in
    let rect := getBoundingClientRect s in
    let s := style_set "left" (px (rect_left rect)) s in
    let s := style_set "top" (px (rect_top rect)) s in
    let s := style_set "bottom" (lit "auto") s in
    let s := classList_add "shaking" s in
    let s := setTimeout (RemoveClass "shaking") 150 s in
    let s := dispatchEvent (windowDetached (el_id (elem s))) s in
    showNotification "Window detached! Now has physics - try throwing it!" s.

Definition reattachWindow (s : State) : State :=
  if negb (isDetached (this s)) then s
  else
    let s := stopPhysics s in
    let s := on_this (set_isDetached false) s in
    let s := classList_remove "detached" s in
    let s := style_set "zIndex" [] s in
    let s := snapToTaskbar s in
    let s := classList_add "reattaching" s in
    let s := setTimeout (RemoveClass "reattaching") 300 s in
    let s := dispatchEvent (windowReattached (el_id (elem s))) s in
    showNotification "Window reattached to taskbar!" s.

Definition detectShake (s : State) : State :=
  if (length (lastPositions (this s)) <? 8)%nat then s
  else
    let a := shake_scan (shakeThreshold (this s)) (lastPositions (this s)) in
    let hasStrongShake := (5 <=? verticalMovements a)%nat in
    let hasUpwardForce := (3 <=? upwardMovement a)%nat in
    let hasDistance := totalVerticalDistance a >? 100 in
    let hasIntensity := maxUpwardDelta a >? 35 in
    let hasConsistency := (2 <=? maxConsecutiveUpward a)%nat in
    if hasStrongShake && hasUpwardForce && hasDistance && hasIntensity
       && hasConsistency
    then detachWindow s
    else s.

Definition checkForSlamReattach (e : MouseEvent) (s : State) : State :=
  let windowRect := getBoundingClientRect s in
  let taskbarTop := innerHeight (browser s) - taskbarHeight (this s) in
  if Math_abs (rect_bottom windowRect - taskbarTop) <? 100 then
    let velocity := calculateVelocity s in
    if velocity >? slamVelocityThreshold (this s) then reattachWindow s
    else s
  else s.

Definition startPhysics (s : State) : State :=
  let s := stopPhysics s in
  let '(h, s) := setInterval 16 s in
  on_this (set_physicsInterval (Some h)) s.

Definition updatePhysics (s : State) : State :=
  if negb (isDetached (this s)) || isDragging (this s) then stopPhysics s
  else
    let rect := getBoundingClientRect s in
    let newX := rect_left rect + X (velocity (this s)) in
    let newY := rect_top rect + Y (velocity (this s)) in
    let maxX := innerWidth (browser s) - offsetWidth (elem s) in
    let maxY := innerHeight (browser s) - offsetHeight (elem s) in
    let '(newX, vx) :=
      bounce_axis newX (X (velocity (this s))) maxX (bounce (this s)) in
    let '(newY, vy) :=
      bounce_axis newY (Y (velocity (this s))) maxY (bounce (this s)) in
    let s := on_this (set_velocity {| X := vx * friction (this s);
                                      Y := vy * friction (this s) |}) s in
    if (Math_abs (X (velocity (this s))) <? 0.1)
       && (Math_abs (Y (velocity (this s))) <? 0.1)
    then stopPhysics s
    else
      let s := style_set "left" (px newX) s in
      style_set "top" (px newY) s.

Definition drag (e : MouseEvent) (s : State) : State :=
  if negb (isDragging (this s)) then s
  else
    let s := recordPosition (clientX e) (clientY e) s in
    let deltaX := clientX e - lastMouseX (this s) in
    let deltaY := clientY e - lastMouseY (this s) in
    let s :=
      if isDetached (this s)
      then on_this (set_velocity {| X := deltaX * 0.8; Y := deltaY * 0.8 |}) s
      else s in
    let s := on_this (set_lastMouseX (clientX e)) s in
    let s := on_this (set_lastMouseY (clientY e)) s in
    let currentRect := getBoundingClientRect s in
    let newX := rect_left currentRect + deltaX in
    let newY := rect_top currentRect + deltaY in
    if isDetached (this s) then moveWindowFreely newX newY s
    else detectShake (moveOnTaskbarRail newX newY s).

Definition endDrag (e : MouseEvent) (s : State) : State :=
  if negb (isDragging (this s)) then s
  else
    let s := on_this (set_isDragging false) s in
    let s := style_set "cursor" [] s in
    let s := classList_remove "moving" s in
    let s :=
      if isDetached (this s)
      then startPhysics (checkForSlamReattach e s)
      else stopPhysics s in
    saveWindowPosition s.

(** The [dblclick] listener of [init]. *)
Definition dblclick (e : MouseEvent) (s : State) : State :=
  if shiftKey e then
    if negb (isDetached (this s)) then detachWindow s else reattachWindow s
  else s.

End ShakePhysics.

(** * Version 2: stretch gesture, physics with optional gravity
    (js/window-physics.js, lines 574-1193) *)

Module StretchGravity.

Definition constructor : WindowPhysics :=
  {| isDetached := false; isDragging := false; isStretching := false;
     stretchStartY := 0; stretchAmount := 0; maxStretch := 80;
     snapThreshold := 60; dragOffset := {| X := 0; Y := 0 |};
     lastMouseX := 0; lastMouseY := 0; originalTransform := [];
     velocity := {| X := 0; Y := 0 |}; acceleration := {| X := 0; Y := 0 |};
     gravityEnabled := false; friction := 0.98; bounce := 0.6;
     physicsInterval := None; lastPositions := []; shakeThreshold := 0;
     shakeCount := 0; slamVelocityThreshold := 0; taskbarHeight := 0;
     taskbarOffset := 0; dragStartTime := 0; initialWindowX := 0;
     initialWindowY := 0; dragStartX := 0; dragStartY := 0;
     windowStartX := 0; windowStartY := 0 |}.

Definition init (s : State) : State :=
  let s :=
    if hasTitleBar (elem s)
    then on_this (set_originalTransform (style_get "transform" s)) s
    else s in
  classList_add "physics-enabled" s.

Definition startDrag (e : MouseEvent) (s : State) : State :=
  let s := on_this (set_isDragging true) s in
  let s := on_this (set_isStretching false) s in
  let s := on_this (set_stretchAmount 0) s in
  let rect := getBoundingClientRect s in
  let s := on_this (set_dragOffset {| X := clientX e - rect_left rect;
                                      Y := clientY e - rect_top rect |}) s in
  let s := on_this (set_stretchStartY (clientY e)) s in
  let s := on_this (set_lastMouseX (clientX e)) s in
  let s := on_this (set_lastMouseY (clientY e)) s in
  let s := style_set "cursor" (lit "grabbing") s in
  let s := classList_add "moving" s in
  let s := style_set "transition" (lit "none") s in
  bringToFront s.

Definition resetStretchEffect (s : State) : State :=
  let s := style_set "transform" [] s in
  let s := style_set "transformOrigin" [] s in
  let s := style_set "filter" [] s in
  let s := style_set "transition" [] s in
  classList_remove "stretching" (classList_remove "ready-to-detach" s).

Section Effect.

(** [Math.sin] only feeds the pulsing scale of the stretch effect; it is
    left to the host. *)
Variable Math_sin : Q -> Q.

Definition applyStretchEffect (s : State) : State :=
  let stretchPercent := stretchAmount (this s) / maxStretch (this s) in
  let scaleY := 1 + stretchPercent * 3 in
  let scaleX := 1 - stretchPercent * 0.4 in
  let skewX := stretchPercent * -8 in
  let translateY := - stretchAmount (this s) * 1.2 in
  let intensity := Math_min stretchPercent 1 in
  let hue := 120 - intensity * 120 in
  let pulse := Math_sin (now (browser s) * 0.03) * 0.2 + 1 in
  let finalScaleY := scaleY * pulse in
  let s := style_set "transformOrigin" (lit "center bottom") s in
  let s := style_set "transition" (lit "none !important") s in
  let transformString :=
    [Lit "translateY("; Num translateY; Lit "px) scaleY("; Num finalScaleY;
     Lit ") scaleX("; Num scaleX; Lit ") skewX("; Num skewX; Lit "deg)"] in
  let s := style_set "transform" transformString s in
  let s := style_set "filter"
    [Lit "hue-rotate("; Num (120 - hue); Lit "deg) brightness(";
     Num (1 + intensity * 1.2); Lit ") saturate("; Num (1 + intensity * 3);
     Lit ") drop-shadow(0 0 "; Num (intensity * 30); Lit "px rgba(255, ";
     Num (100 * intensity); Lit ", 0, 0.9))"] s in
  if stretchAmount (this s) >=? snapThreshold (this s) * 0.7
  then classList_add "ready-to-detach" s
  else classList_remove "ready-to-detach" s.

End Effect.

Definition snapBack (s : State) : State :=
  let s := classList_remove "stretching" s in
  let s := style_set "transition"
    (lit "transform 0.5s cubic-bezier(0.68, -0.55, 0.265, 1.55), filter 0.3s ease") s in
  let s := resetStretchEffect s in
  setTimeout FinishSnapBack 500 s.

Definition detachWindow (e : MouseEvent) (s : State) : State :=
  if isDetached (this s) then s
  else
    let s := on_this (set_isDetached true) s in
    let s := on_this (set_isStretching false) s in
    let s := classList_add "detached" s in
    let s := style_set "zIndex" (lit "9999") s in
    let rect := getBoundingClientRect s in
    let s := style_set "left" (px (rect_left rect)) s in
    let s := style_set "top" (px (rect_top rect)) s in
    let s := style_set "bottom" (lit "auto") s in
    let s := style_set "position" (lit "fixed") s in
    let s := style_set "transition"
      (lit "transform 0.3s cubic-bezier(0.175, 0.885, 0.32, 1.275)") s in
    let s := style_set "transform" (lit "scale(1.1) rotate(2deg)") s in
    let s := setTimeout (RestoreTransform []) 300 s in
    let s := resetStretchEffect s in
    let s := showNotification
      "Window detached! Now has physics - try throwing it!" s in
    dispatchEvent (windowDetached (el_id (elem s))) s.

Definition moveOnTaskbarRail (x : Q) (s : State) : State :=
  let maxX := innerWidth (browser s) - offsetWidth (elem s) in
  let x := Math_max 0 (Math_min maxX x) in
  let s := style_set "left" (px x) s in
  let s := style_set "bottom" (px 52) s in
  let s := style_set "top" (lit "auto") s in
  style_set "position" (lit "fixed") s.

Definition moveWindowFreely (x y : Q) (s : State) : State :=
  let maxX := innerWidth (browser s) - offsetWidth (elem s) in
  let maxY := innerHeight (browser s) - offsetHeight (elem s) in
  let x := Math_max 0 (Math_min maxX x) in
  let y := Math_max 0 (Math_min maxY y) in
  let s := style_set "left" (px x) s in
  let s := style_set "top" (px y) s in
  let s := style_set "bottom" (lit "auto") s in
  style_set "position" (lit "fixed") s.

Definition startPhysics (s : State) : State :=
  let s := stopPhysics s in
  let '(h, s) := setInterval 16 s in
  on_this (set_physicsInterval (Some h)) s.

Definition reattachWindow (s : State) : State :=
  if negb (isDetached (this s)) then s
  else
    let s := stopPhysics s in
    let s := on_this (set_isDetached false) s in
    let s := on_this (set_gravityEnabled false) s in
    let s := on_this (fun w =>
      set_acceleration {| X := X (acceleration w); Y := 0 |} w) s in
    let s := classList_remove "ready-to-detach"
               (classList_remove "detached" s) in
    let s := style_set "zIndex" [] s in
    let s := style_set "boxShadow" [] s in
    let s := style_set "transition"
      (lit "transform 0.2s ease, bottom 0.4s cubic-bezier(0.25, 0.46, 0.45, 0.94)") s in
    let s := style_set "bottom" (px 52) s in
    let s := style_set "top" (lit "auto") s in
    let s := style_set "transform" (lit "scale(0.9)") s in
    let s := setTimeout (RestoreTransform []) 400 s in
    let s := resetStretchEffect s in
    let s := showNotification "Window reattached to taskbar!" s in
    dispatchEvent (windowReattached (el_id (elem s))) s.

Definition checkForAutoReattach (s : State) : State :=
  let windowRect := getBoundingClientRect s in
  let taskbarZone := innerHeight (browser s) - 100 in
  if rect_bottom windowRect >=? taskbarZone then
    if speed (velocity (this s)) <? 2 then reattachWindow s else s
  else s.

Definition checkForSlamReattach (e : MouseEvent) (s : State) : State :=
  let windowRect := getBoundingClientRect s in
  let taskbarZone := innerHeight (browser s) - 120 in
  let speed := speed (velocity (this s)) in
  let isNearTaskbar := rect_bottom windowRect >=? taskbarZone in
  let isMovingDown := Y (velocity (this s)) >? 0 in
  if isNearTaskbar && ((speed >? 3) || isMovingDown) then reattachWindow s
  else s.

Definition updatePhysics (s : State) : State :=
  if negb (isDetached (this s)) || isDragging (this s) then stopPhysics s
  else
    let rect := getBoundingClientRect s in
    let s :=
      if gravityEnabled (this s)
      then on_this (fun w =>
             set_velocity {| X := X (velocity w) + X (acceleration w);
                             Y := Y (velocity w) + Y (acceleration w) |} w) s
      else s in
    let newX := rect_left rect + X (velocity (this s)) in
    let newY := rect_top rect + Y (velocity (this s)) in
    let maxX := innerWidth (browser s) - offsetWidth (elem s) in
    let maxY := innerHeight (browser s) - offsetHeight (elem s) in
    let '(newX, vx) :=
      bounce_axis newX (X (velocity (this s))) maxX (bounce (this s)) in
    let '(newY, vy) :=
      bounce_axis newY (Y (velocity (this s))) maxY (bounce (this s)) in
    let s := on_this (set_velocity {| X := vx * friction (this s);
                                      Y := vy * friction (this s) |}) s in
    if (Math_abs (X (velocity (this s))) <? 0.1)
       && (Math_abs (Y (velocity (this s))) <? 0.1)
    then stopPhysics s
    else checkForAutoReattach (moveWindowFreely newX newY s).

Definition toggleGravity (e : MouseEvent) (s : State) : State :=
  if negb (isDetached (this s)) then s
  else
    let s := on_this (fun w =>
      set_gravityEnabled (negb (gravityEnabled w)) w) s in
    let s := on_this (fun w =>
      set_acceleration {| X := X (acceleration w);
                          Y := if gravityEnabled w then 0.4 else 0 |} w) s in
    let s :=
      if gravityEnabled (this s) then
        style_set "boxShadow" (lit "0 0 20px rgba(255, 165, 0, 0.8)")
          (showNotification "Gravity ON! Window will fall down" s)
      else
        style_set "boxShadow" []
          (showNotification "Gravity OFF! Window floats freely" s) in
    if gravityEnabled (this s) && negb (truthy (physicsInterval (this s)))
    then startPhysics s
    else s.

Section Handlers.

Variable Math_sin : Q -> Q.

Definition drag (e : MouseEvent) (s : State) : State :=
  if negb (isDragging (this s)) then s
  else
    let deltaX := clientX e - lastMouseX (this s) in
    let deltaY := clientY e - lastMouseY (this s) in
    let s :=
      if isDetached (this s)
      then on_this (set_velocity {| X := deltaX * 1.2; Y := deltaY * 1.2 |}) s
      else s in
    let s := on_this (set_lastMouseX (clientX e)) s in
    let s := on_this (set_lastMouseY (clientY e)) s in
    if isDetached (this s) then
      let rect := getBoundingClientRect s in
      moveWindowFreely (rect_left rect + deltaX) (rect_top rect + deltaY) s
    else
      let upwardDistance := stretchStartY (this s) - clientY e in
      if upwardDistance >? 10 then
        let s := on_this (set_isStretching true) s in
        let s := on_this (set_stretchAmount
                   (Math_min upwardDistance (maxStretch (this s)))) s in
        let s := classList_add "stretching" s in
        let s := applyStretchEffect Math_sin s in
        if stretchAmount (this s) >=? snapThreshold (this s)
        then detachWindow e s
        else s
      else
        let s := on_this (set_isStretching false) s in
        let s := on_this (set_stretchAmount 0) s in
        let s := classList_remove "stretching" s in
        let s := resetStretchEffect s in
        let rect := getBoundingClientRect s in
        moveOnTaskbarRail (rect_left rect + deltaX) s.

End Handlers.

Definition endDrag (e : MouseEvent) (s : State) : State :=
  if negb (isDragging (this s)) then s
  else
    let s := on_this (set_isDragging false) s in
    let s := style_set "cursor" [] s in
    let s := classList_remove "moving" s in
    if isStretching (this s) && negb (isDetached (this s)) then snapBack s
    else if isDetached (this s)
    then checkForSlamReattach e (startPhysics s)
    else s.

End StretchGravity.

(** * Version 3: basic shake gesture, no physics
    (js/window-physics.js, lines 1195-1539) *)

Module ShakeBasic.

Definition constructor : WindowPhysics :=
  {| isDetached := false; isDragging := false; isStretching := false;
     stretchStartY := 0; stretchAmount := 0; maxStretch := 0;
     snapThreshold := 0; dragOffset := {| X := 0; Y := 0 |};
     lastMouseX := 0; lastMouseY := 0; originalTransform := [];
     velocity := {| X := 0; Y := 0 |}; acceleration := {| X := 0; Y := 0 |};
     gravityEnabled := false; friction := 0; bounce := 0;
     physicsInterval := None; lastPositions := []; shakeThreshold := 15;
     shakeCount := 0; slamVelocityThreshold := 500; taskbarHeight := 60;
     taskbarOffset := 0; dragStartTime := 0; initialWindowX := 0;
     initialWindowY := 0; dragStartX := 0; dragStartY := 0;
     windowStartX := 0; windowStartY := 0 |}.

(** [init()]: [overrideDragHandlers] swaps the title bar for a clone of
    itself, which changes nothing of the state kept here. *)
Definition init (s : State) : State := classList_add "physics-enabled" s.

Definition startDrag (e : MouseEvent) (s : State) : State :=
  let s := on_this (set_isDragging true) s in
  let s := on_this (set_lastPositions []) s in
  let s := on_this (set_shakeCount 0) s in
  let s := on_this (set_dragStartTime (now (browser s))) s in
  let rect := getBoundingClientRect s in
  let s := on_this (set_dragOffset {| X := clientX e - rect_left rect;
                                      Y := clientY e - rect_top rect |}) s in
  let s := recordPosition (clientX e) (clientY e) s in
  let s := style_set "cursor" (lit "grabbing") s in
  let s := classList_add "moving" s in
  bringToFront s.

Definition moveWindowFreely (x y : Q) (s : State) : State :=
  let maxX := innerWidth (browser s) - offsetWidth (elem s) in
  let maxY := innerHeight (browser s) - offsetHeight (elem s) in
  let x := Math_max 0 (Math_min maxX x) in
  let y := Math_max 0 (Math_min maxY y) in
  let s := style_set "left" (px x) s in
  let s := style_set "top" (px y) s in
  style_set "position" (lit "fixed") s.

Definition moveOnTaskbarRail (x y : Q) (s : State) : State :=
  let taskbarY := innerHeight (browser s) - taskbarHeight (this s)
                  - offsetHeight (elem s) in
  let maxX := innerWidth (browser s) - offsetWidth (elem s) in
  let x := Math_max 0 (Math_min maxX x) in
  let s := style_set "left" (px x) s in
  let s := style_set "top" (px taskbarY) s in
  style_set "position" (lit "fixed") s.

Definition snapToTaskbar (s : State) : State :=
  let taskbarY := innerHeight (browser s) - taskbarHeight (this s)
                  - offsetHeight (elem s) in
  let s := style_set "top" (px taskbarY) s in
  style_set "position" (lit "fixed") s.

Definition detachWindow (s : State) : State :=
  if isDetached (this s) then s
  else
    let s := on_this (set_isDetached true) s in
    let s := classList_add "detached" s in
    let s := style_set "zIndex" (lit "9999") s in
    let s := classList_add "shaking" s in
    let s := setTimeout (RemoveClass "shaking") 150 s in
    let s := dispatchEvent (windowDetached (el_id (elem s))) s in
    showNotification "Window detached! Drag freely anywhere." s.

Definition reattachWindow (s : State) : State :=
  if negb (isDetached (this s)) then s
  else
    let s := on_this (set_isDetached false) s in
    let s := classList_remove "detached" s in
    let s := style_set "zIndex" [] s in
    let s := snapToTaskbar s in
    let s := classList_add "reattaching" s in
    let s := setTimeout (RemoveClass "reattaching") 300 s in
    let s := dispatchEvent (windowReattached (el_id (elem s))) s in
    showNotification "Window reattached to taskbar!" s.

(** The body of the loop of the basic version for one [deltaY]; only the
    first two counters are kept. *)
Definition shake_body (threshold deltaY : Q) (a : nat * nat) : nat * nat :=
  let '(verticalMovements, upwardMovement) := a in
  if Math_abs deltaY >? threshold then
    (S verticalMovements,
     if deltaY <? 0 then S upwardMovement else upwardMovement)
  else a.

Fixpoint shake_loop (threshold : Q) (prev : Sample) (rest : list Sample)
    (a : nat * nat) : nat * nat :=
  match rest with
  | [] => a
  | cur :: rest' =>
      shake_loop threshold cur rest'
        (shake_body threshold (pos_y cur - pos_y prev) a)
  end.

Definition detectShake (s : State) : State :=
  if (length (lastPositions (this s)) <? 5)%nat then s
  else
    let '(verticalMovements, upwardMovement) :=
      match lastPositions (this s) with
      | [] => (0, 0)%nat
      | p :: rest => shake_loop (shakeThreshold (this s)) p rest (0, 0)%nat
      end in
    if (3 <=? verticalMovements)%nat && (2 <=? upwardMovement)%nat
    then detachWindow s
    else s.

Definition checkForSlamReattach (e : MouseEvent) (s : State) : State :=
  let windowRect := getBoundingClientRect s in
  let taskbarTop := innerHeight (browser s) - taskbarHeight (this s) in
  if Math_abs (rect_bottom windowRect - taskbarTop) <? 100 then
    let velocity := calculateVelocity s in
    if velocity >? slamVelocityThreshold (this s) then reattachWindow s
    else s
  else s.

Definition drag (e : MouseEvent) (s : State) : State :=
  if negb (isDragging (this s)) then s
  else
    let s := recordPosition (clientX e) (clientY e) s in
    if isDetached (this s) then
      moveWindowFreely (clientX e - X (dragOffset (this s)))
                       (clientY e - Y (dragOffset (this s))) s
    else
      detectShake
        (moveOnTaskbarRail (clientX e - X (dragOffset (this s)))
                           (clientY e - Y (dragOffset (this s))) s).

Definition endDrag (e : MouseEvent) (s : State) : State :=
  if negb (isDragging (this s)) then s
  else
    let s := on_this (set_isDragging false) s in
    let s := style_set "cursor" [] s in
    let s := classList_remove "moving" s in
    let s := if isDetached (this s) then checkForSlamReattach e s else s in
    saveWindowPosition s.

End ShakeBasic.

(** * Version 4: stretch gesture, physics without gravity
    (the stretch version with [maxStretch = 80], [friction = 0.95]) *)

Module Stretch.

Definition constructor : WindowPhysics :=
  {| isDetached := false; isDragging := false; isStretching := false;
     stretchStartY := 0; stretchAmount := 0; maxStretch := 80;
     snapThreshold := 60; dragOffset := {| X := 0; Y := 0 |};
     lastMouseX := 0; lastMouseY := 0; originalTransform := [];
     velocity := {| X := 0; Y := 0 |}; acceleration := {| X := 0; Y := 0 |};
     gravityEnabled := false; friction := 0.95; bounce := 0.3;
     physicsInterval := None; lastPositions := []; shakeThreshold := 0;
     shakeCount := 0; slamVelocityThreshold := 0; taskbarHeight := 0;
     taskbarOffset := 0; dragStartTime := 0; initialWindowX := 0;
     initialWindowY := 0; dragStartX := 0; dragStartY := 0;
     windowStartX := 0; windowStartY := 0 |}.

Definition init (s : State) : State :=
  let s :=
    if hasTitleBar (elem s)
    then on_this (set_originalTransform (style_get "transform" s)) s
    else s in
  classList_add "physics-enabled" s.

Definition startDrag (e : MouseEvent) (s : State) : State :=
  let s := on_this (set_isDragging true) s in
  let s := on_this (set_isStretching false) s in
  let s := on_this (set_stretchAmount 0) s in
  let rect := getBoundingClientRect s in
  let s := on_this (set_dragOffset {| X := clientX e - rect_left rect;
                                      Y := clientY e - rect_top rect |}) s in
  let s := on_this (set_stretchStartY (clientY e)) s in
  let s := on_this (set_lastMouseX (clientX e)) s in
  let s := on_this (set_lastMouseY (clientY e)) s in
  let s := style_set "cursor" (lit "grabbing") s in
  let s := classList_add "moving" s in
  let s := style_set "transition" (lit "none") s in
  bringToFront s.

Definition applyStretchEffect (s : State) : State :=
  let stretchPercent := stretchAmount (this s) / maxStretch (this s) in
  let scaleY := 1 + stretchPercent * 0.4 in
  let skewX := stretchPercent * -4 in
  let translateY := - stretchAmount (this s) * 0.6 in
  let intensity := Math_min stretchPercent 1 in
  let hue := 120 - intensity * 90 in
  let s := style_set "transform"
    (originalTransform (this s) ++
     [Lit " translateY("; Num translateY; Lit "px) scaleY("; Num scaleY;
      Lit ") skewX("; Num skewX; Lit "deg)"]) s in
  let s := style_set "filter"
    [Lit "hue-rotate("; Num (120 - hue); Lit "deg) brightness(";
     Num (1 + intensity * 0.5); Lit ") saturate("; Num (1 + intensity);
     Lit ")"] s in
  if stretchAmount (this s) >=? snapThreshold (this s) * 0.8
  then classList_add "ready-to-detach" s
  else classList_remove "ready-to-detach" s.

Definition resetStretchEffect (s : State) : State :=
  let s := style_set "transform" (originalTransform (this s)) s in
  let s := style_set "filter" [] s in
  classList_remove "ready-to-detach" s.

Definition snapBack (s : State) : State :=
  let s := style_set "transition"
    (lit "transform 0.5s cubic-bezier(0.68, -0.55, 0.265, 1.55), filter 0.3s ease") s in
  let s := resetStretchEffect s in
  setTimeout FinishSnapBack 500 s.

Definition detachWindow (e : MouseEvent) (s : State) : State :=
  if isDetached (this s) then s
  else
    let s := on_this (set_isDetached true) s in
    let s := on_this (set_isStretching false) s in
    let s := classList_add "detached" s in
    let s := style_set "zIndex" (lit "9999") s in
    let rect := getBoundingClientRect s in
    let s := style_set "left" (px (rect_left rect)) s in
    let s := style_set "top" (px (rect_top rect)) s in
    let s := style_set "bottom" (lit "auto") s in
    let s := style_set "position" (lit "fixed") s in
    let s := style_set "transition"
      (lit "transform 0.3s cubic-bezier(0.175, 0.885, 0.32, 1.275)") s in
    let s := style_set "transform"
      (originalTransform (this s) ++ lit " scale(1.1) rotate(2deg)") s in
    let s := setTimeout (RestoreTransform (originalTransform (this s))) 300 s in
    let s := resetStretchEffect s in
    let s := showNotification
      "Window detached! Now has physics - try throwing it!" s in
    dispatchEvent (windowDetached (el_id (elem s))) s.

Definition moveOnTaskbarRail (x : Q) (s : State) : State :=
  let maxX := innerWidth (browser s) - offsetWidth (elem s) in
  let x := Math_max 0 (Math_min maxX x) in
  let s := style_set "left" (px x) s in
  let s := style_set "bottom" (px 52) s in
  let s := style_set "top" (lit "auto") s in
  style_set "position" (lit "fixed") s.

Definition moveWindowFreely (x y : Q) (s : State) : State :=
  let maxX := innerWidth (browser s) - offsetWidth (elem s) in
  let maxY := innerHeight (browser s) - offsetHeight (elem s) in
  let x := Math_max 0 (Math_min maxX x) in
  let y := Math_max 0 (Math_min maxY y) in
  let s := style_set "left" (px x) s in
  let s := style_set "top" (px y) s in
  let s := style_set "bottom" (lit "auto") s in
  style_set "position" (lit "fixed") s.

Definition startPhysics (s : State) : State :=
  let s := stopPhysics s in
  let '(h, s) := setInterval 16 s in
  on_this (set_physicsInterval (Some h)) s.

Definition updatePhysics (s : State) : State :=
  if negb (isDetached (this s)) || isDragging (this s) then stopPhysics s
  else
    let rect := getBoundingClientRect s in
    let newX := rect_left rect + X (velocity (this s)) in
    let newY := rect_top rect + Y (velocity (this s)) in
    let maxX := innerWidth (browser s) - offsetWidth (elem s) in
    let maxY := innerHeight (browser s) - offsetHeight (elem s) in
    let '(newX, vx) :=
      bounce_axis newX (X (velocity (this s))) maxX (bounce (this s)) in
    let '(newY, vy) :=
      bounce_axis newY (Y (velocity (this s))) maxY (bounce (this s)) in
    let s := on_this (set_velocity {| X := vx * friction (this s);
                                      Y := vy * friction (this s) |}) s in
    if (Math_abs (X (velocity (this s))) <? 0.1)
       && (Math_abs (Y (velocity (this s))) <? 0.1)
    then stopPhysics s
    else moveWindowFreely newX newY s.

Definition reattachWindow (s : State) : State :=
  if negb (isDetached (this s)) then s
  else
    let s := stopPhysics s in
    let s := on_this (set_isDetached false) s in
    let s := classList_remove "ready-to-detach"
               (classList_remove "detached" s) in
    let s := style_set "zIndex" [] s in
    let s := style_set "transition"
      (lit "transform 0.2s ease, bottom 0.4s cubic-bezier(0.25, 0.46, 0.45, 0.94)") s in
    let s := style_set "bottom" (px 52) s in
    let s := style_set "top" (lit "auto") s in
    let s := style_set "transform"
      (originalTransform (this s) ++ lit " scale(0.9)") s in
    let s := setTimeout (RestoreTransform (originalTransform (this s))) 400 s in
    let s := resetStretchEffect s in
    let s := showNotification "Window reattached to taskbar!" s in
    dispatchEvent (windowReattached (el_id (elem s))) s.

Definition checkForSlamReattach (e : MouseEvent) (s : State) : State :=
  let windowRect := getBoundingClientRect s in
  let speed := speed (velocity (this s)) in
  if (Math_abs (rect_bottom windowRect - innerHeight (browser s)) <? 80)
     && (speed >? 8)
  then reattachWindow s
  else s.

Definition drag (e : MouseEvent) (s : State) : State :=
  if negb (isDragging (this s)) then s
  else
    let deltaX := clientX e - lastMouseX (this s) in
    let deltaY := clientY e - lastMouseY (this s) in
    let s :=
      if isDetached (this s)
      then on_this (set_velocity {| X := deltaX * 0.8; Y := deltaY * 0.8 |}) s
      else s in
    let s := on_this (set_lastMouseX (clientX e)) s in
    let s := on_this (set_lastMouseY (clientY e)) s in
    if isDetached (this s) then
      let rect := getBoundingClientRect s in
      moveWindowFreely (rect_left rect + deltaX) (rect_top rect + deltaY) s
    else
      let upwardDistance := stretchStartY (this s) - clientY e in
      if upwardDistance >? 10 then
        let s := on_this (set_isStretching true) s in
        let s := on_this (set_stretchAmount
                   (Math_min upwardDistance (maxStretch (this s)))) s in
        let s := applyStretchEffect s in
        if stretchAmount (this s) >=? snapThreshold (this s)
        then detachWindow e s
        else s
      else
        let s := on_this (set_isStretching false) s in
        let s := on_this (set_stretchAmount 0) s in
        let s := resetStretchEffect s in
        let rect := getBoundingClientRect s in
        moveOnTaskbarRail (rect_left rect + deltaX) s.

Definition endDrag (e : MouseEvent) (s : State) : State :=
  if negb (isDragging (this s)) then s
  else
    let s := on_this (set_isDragging false) s in
    let s := style_set "cursor" [] s in
    let s := classList_remove "moving" s in
    if isStretching (this s) && negb (isDetached (this s)) then snapBack s
    else if isDetached (this s)
    then checkForSlamReattach e (startPhysics s)
    else s.

End Stretch.

(** * Version 5: the clean stretch version
    ([maxStretch = 60], [snapThreshold = 40], gravity on double click) *)

Module StretchClean.

Definition constructor : WindowPhysics :=
  {| isDetached := false; isDragging := false; isStretching := false;
     stretchStartY := 0; stretchAmount := 0; maxStretch := 60;
     snapThreshold := 40; dragOffset := {| X := 0; Y := 0 |};
     lastMouseX := 0; lastMouseY := 0; originalTransform := [];
     velocity := {| X := 0; Y := 0 |}; acceleration := {| X := 0; Y := 0 |};
     gravityEnabled := false; friction := 0.98; bounce := 0.6;
     physicsInterval := None; lastPositions := []; shakeThreshold := 0;
     shakeCount := 0; slamVelocityThreshold := 0; taskbarHeight := 0;
     taskbarOffset := 0; dragStartTime := 0; initialWindowX := 0;
     initialWindowY := 0; dragStartX := 0; dragStartY := 0;
     windowStartX := 0; windowStartY := 0 |}.

Definition init (s : State) : State := classList_add "physics-enabled" s.

(** [this.dragStartY = e.clientX] is what the source says. *)
Definition startDrag (e : MouseEvent) (s : State) : State :=
  let s := on_this (set_isDragging true) s in
  let s := on_this (set_isStretching false) s in
  let s := on_this (set_stretchAmount 0) s in
  let rect := getBoundingClientRect s in
  let s := on_this (set_dragStartX (clientX e)) s in
  let s := on_this (set_dragStartY (clientX e)) s in
  let s := on_this (set_windowStartX (rect_left rect)) s in
  let s := on_this (set_windowStartY (rect_top rect)) s in
  let s := on_this (set_stretchStartY (clientY e)) s in
  let s := style_set "cursor" (lit "grabbing") s in
  let s := classList_add "moving" s in
  let s := style_set "transition" (lit "none") s in
  bringToFront s.

Definition applyStretchEffect (s : State) : State :=
  let stretchPercent := stretchAmount (this s) / maxStretch (this s) in
  let scaleY := 1 + stretchPercent * 0.8 in
  let scaleX := 1 - stretchPercent * 0.2 in
  let skewX := stretchPercent * -3 in
  let translateY := - stretchAmount (this s) * 0.5 in
  let intensity := Math_min stretchPercent 1 in
  let hue := 60 * intensity in
  let s := style_set "transformOrigin" (lit "center bottom") s in
  let s := style_set "transition" (lit "none") s in
  let s := style_set "transform"
    [Lit "translateY("; Num translateY; Lit "px) scaleY("; Num scaleY;
     Lit ") scaleX("; Num scaleX; Lit ") skewX("; Num skewX; Lit "deg)"] s in
  let s := style_set "filter"
    [Lit "hue-rotate("; Num hue; Lit "deg) brightness(";
     Num (1 + intensity * 0.3); Lit ") saturate("; Num (1 + intensity * 0.5);
     Lit ")"] s in
  if stretchAmount (this s) >=? snapThreshold (this s) * 0.8
  then classList_add "ready-to-detach" s
  else classList_remove "ready-to-detach" s.

Definition resetStretchEffect (s : State) : State :=
  let s := style_set "transform" [] s in
  let s := style_set "transformOrigin" [] s in
  let s := style_set "filter" [] s in
  let s := style_set "transition" [] s in
  classList_remove "stretching" (classList_remove "ready-to-detach" s).

Definition snapBack (s : State) : State :=
  let s := classList_remove "stretching" s in
  let s := style_set "transition"
    (lit "transform 0.3s cubic-bezier(0.68, -0.55, 0.265, 1.55)") s in
  let s := resetStretchEffect s in
  setTimeout FinishSnapBack 300 s.

Definition detachWindow (e : MouseEvent) (s : State) : State :=
  if isDetached (this s) then s
  else
    let s := on_this (set_isDetached true) s in
    let s := on_this (set_isStretching false) s in
    let s := classList_add "detached" s in
    let s := style_set "zIndex" (lit "9999") s in
    let rect := getBoundingClientRect s in
    let s := style_set "position" (lit "fixed") s in
    let s := style_set "left" (px (rect_left rect)) s in
    let s := style_set "top" (px (rect_top rect)) s in
    let s := style_set "bottom" (lit "auto") s in
    let s := style_set "transition" (lit "transform 0.2s ease") s in
    let s := style_set "transform" (lit "scale(1.05)") s in
    let s := setTimeout (RestoreTransform []) 200 s in
    let s := resetStretchEffect s in
    let s := on_this (set_windowStartX (rect_left rect)) s in
    let s := on_this (set_windowStartY (rect_top rect)) s in
    showNotification
      "Window detached! Drag freely or double-click for gravity" s.

Definition moveOnTaskbarRail (x : Q) (s : State) : State :=
  let maxX := innerWidth (browser s) - offsetWidth (elem s) in
  let x := Math_max 0 (Math_min maxX x) in
  let s := style_set "position" (lit "fixed") s in
  let s := style_set "left" (px x) s in
  let s := style_set "bottom" (px 52) s in
  style_set "top" (lit "auto") s.

Definition moveWindowFreely (x y : Q) (s : State) : State :=
  let maxX := innerWidth (browser s) - offsetWidth (elem s) in
  let maxY := innerHeight (browser s) - offsetHeight (elem s) in
  let x := Math_max 0 (Math_min maxX x) in
  let y := Math_max 0 (Math_min maxY y) in
  let s := style_set "position" (lit "fixed") s in
  let s := style_set "left" (px x) s in
  let s := style_set "top" (px y) s in
  style_set "bottom" (lit "auto") s.

Definition startPhysics (s : State) : State :=
  if truthy (physicsInterval (this s)) then s
  else
    let '(h, s) := setInterval 16 s in
    on_this (set_physicsInterval (Some h)) s.

Definition toggleGravity (e : MouseEvent) (s : State) : State :=
  if negb (isDetached (this s)) then s
  else
    let s := on_this (fun w =>
      set_gravityEnabled (negb (gravityEnabled w)) w) s in
    if gravityEnabled (this s) then
      let s := showNotification "Gravity ON! Window will fall" s in
      let s := style_set "boxShadow" (lit "0 0 15px rgba(255, 165, 0, 0.6)") s in
      startPhysics s
    else
      let s := showNotification "Gravity OFF! Window floats freely" s in
      style_set "boxShadow" [] s.

Definition reattachWindow (s : State) : State :=
  if negb (isDetached (this s)) then s
  else
    let s := stopPhysics s in
    let s := on_this (set_isDetached false) s in
    let s := on_this (set_gravityEnabled false) s in
    let s := classList_remove "ready-to-detach"
               (classList_remove "detached" s) in
    let s := style_set "zIndex" [] s in
    let s := style_set "boxShadow" [] s in
    let s := style_set "transition" (lit "bottom 0.3s ease") s in
    let s := style_set "bottom" (px 52) s in
    let s := style_set "top" (lit "auto") s in
    let s := setTimeout TransitionNone 300 s in
    let s := resetStretchEffect s in
    let s := showNotification "Window reattached! Gravity reset" s in
    dispatchEvent (windowReattached (el_id (elem s))) s.

Definition checkForSlamReattach (s : State) : State :=
  let windowRect := getBoundingClientRect s in
  let taskbarZone := innerHeight (browser s) - 100 in
  if rect_bottom windowRect >=? taskbarZone then reattachWindow s else s.

Definition checkForAutoReattach (s : State) : State :=
  let windowRect := getBoundingClientRect s in
  let taskbarZone := innerHeight (browser s) - 80 in
  if rect_bottom windowRect >=? taskbarZone then
    if speed (velocity (this s)) <? 2 then reattachWindow s else s
  else s.

Definition updatePhysics (s : State) : State :=
  if negb (isDetached (this s)) || isDragging (this s) then stopPhysics s
  else
    let rect := getBoundingClientRect s in
    let s :=
      if gravityEnabled (this s)
      then on_this (fun w =>
             set_velocity {| X := X (velocity w);
                             Y := Y (velocity w) + 0.3 |} w) s
      else s in
    let newX := rect_left rect + X (velocity (this s)) in
    let newY := rect_top rect + Y (velocity (this s)) in
    let maxX := innerWidth (browser s) - offsetWidth (elem s) in
    let maxY := innerHeight (browser s) - offsetHeight (elem s) in
    let '(newX, vx) :=
      bounce_axis newX (X (velocity (this s))) maxX (bounce (this s)) in
    let '(newY, vy) :=
      bounce_axis newY (Y (velocity (this s))) maxY (bounce (this s)) in
    let s := on_this (set_velocity {| X := vx * friction (this s);
                                      Y := vy * friction (this s) |}) s in
    if (Math_abs (X (velocity (this s))) <? 0.1)
       && (Math_abs (Y (velocity (this s))) <? 0.1)
    then stopPhysics s
    else checkForAutoReattach (moveWindowFreely newX newY s).

Definition drag (e : MouseEvent) (s : State) : State :=
  if negb (isDragging (this s)) then s
  else
    let deltaX := clientX e - dragStartX (this s) in
    let deltaY := clientY e - dragStartY (this s) in
    if isDetached (this s) then
      let newX := windowStartX (this s) + deltaX in
      let newY := windowStartY (this s) + deltaY in
      let s := moveWindowFreely newX newY s in
      on_this (set_velocity {| X := deltaX * 0.3; Y := deltaY * 0.3 |}) s
    else
      let upwardDistance := stretchStartY (this s) - clientY e in
      if upwardDistance >? 10 then
        let s := on_this (set_isStretching true) s in
        let s := on_this (set_stretchAmount
                   (Math_min upwardDistance (maxStretch (this s)))) s in
        let s := classList_add "stretching" s in
        let s := applyStretchEffect s in
        if stretchAmount (this s) >=? snapThreshold (this s)
        then detachWindow e s
        else s
      else
        let s := on_this (set_isStretching false) s in
        let s := on_this (set_stretchAmount 0) s in
        let s := classList_remove "stretching" s in
        let s := resetStretchEffect s in
        let newX := windowStartX (this s) + deltaX in
        moveOnTaskbarRail newX s.

Definition endDrag (e : MouseEvent) (s : State) : State :=
  if negb (isDragging (this s)) then s
  else
    let s := on_this (set_isDragging false) s in
    let s := style_set "cursor" [] s in
    let s := classList_remove "moving" s in
    if isStretching (this s) && negb (isDetached (this s)) then snapBack s
    else if isDetached (this s)
    then checkForSlamReattach (startPhysics s)
    else s.

End StretchClean.

(** * The event loop

    What reaches a controller: the mouse events its listeners are registered
    for, the ticks of its interval, its pending timeouts, and the passing of
    time. *)

Inductive Input : Type :=
  | MouseDown (e : MouseEvent)
  | DblClick (e : MouseEvent)
  | MouseMove (e : MouseEvent)
  | MouseUp (e : MouseEvent)
  | Tick (h : positive)
  | Expire (h : positive)
  | Clock (t : Q).

(** The timeout with handle [h] fires: it leaves the pending list and its
    closure runs. *)
Definition fire_timeout (h : positive) (s : State) : State :=
  match List.find (fun t => Pos.eqb (fst (fst t)) h) (timeouts (browser s)) with
  | Some (_, _, cb) =>
      run_callback cb
        (on_browser (fun b =>
           set_timeouts
             (List.filter (fun t => negb (Pos.eqb (fst (fst t)) h)) (timeouts b))
             b) s)
  | None => s
  end.

(** The interval with handle [h] fires if it is still running. *)
Definition fire_interval (updatePhysics : State -> State) (h : positive)
    (s : State) : State :=
  if existsb (Pos.eqb h) (intervals (browser s)) then updatePhysics s else s.

Definition set_clock (t : Q) : State -> State :=
  on_browser (set_now t).

(** One frame of the physics loop: the interval of the controller, if it
    has one, fires. *)
Definition frame (updatePhysics : State -> State) (s : State) : State :=
  if truthy (physicsInterval (this s)) then updatePhysics s else s.

Fixpoint frames (updatePhysics : State -> State) (n : nat) (s : State) : State :=
  match n with
  | O => s
  | S n' => frames updatePhysics n' (frame updatePhysics s)
  end.

Module ShakePhysicsLoop.
Import ShakePhysics.

(** [new WindowPhysics(window)] followed by [loadWindowPosition()], as
    [initializeWindowPhysics] does. *)
Definition create (el : Element) (b : Browser) : State :=
  loadWindowPosition (init {| this := constructor; elem := el; browser := b |}).

Definition handle (i : Input) (s : State) : State :=
  match i with
  | MouseDown e => if hasTitleBar (elem s) then startDrag e s else s
  | DblClick e => if hasTitleBar (elem s) then dblclick e s else s
  | MouseMove e => drag e s
  | MouseUp e => endDrag e s
  | Tick h => fire_interval updatePhysics h s
  | Expire h => fire_timeout h s
  | Clock t => set_clock t s
  end.

Definition run (inputs : list Input) (s : State) : State :=
  fold_left (fun s i => handle i s) inputs s.

End ShakePhysicsLoop.

Module StretchGravityLoop.
Import StretchGravity.

Definition create (el : Element) (b : Browser) : State :=
  init {| this := constructor; elem := el; browser := b |}.

Definition handle (Math_sin : Q -> Q) (i : Input) (s : State) : State :=
  match i with
  | MouseDown e => if hasTitleBar (elem s) then startDrag e s else s
  | DblClick e => if hasTitleBar (elem s) then toggleGravity e s else s
  | MouseMove e => drag Math_sin e s
  | MouseUp e => endDrag e s
  | Tick h => fire_interval updatePhysics h s
  | Expire h => fire_timeout h s
  | Clock t => set_clock t s
  end.

Definition run (Math_sin : Q -> Q) (inputs : list Input) (s : State) : State :=
  fold_left (fun s i => handle Math_sin i s) inputs s.

End StretchGravityLoop.

Module StretchLoop.
Import Stretch.

Definition create (el : Element) (b : Browser) : State :=
  init {| this := constructor; elem := el; browser := b |}.

(** This version registers no [dblclick] listener. *)
Definition handle (i : Input) (s : State) : State :=
  match i with
  | MouseDown e => if hasTitleBar (elem s) then startDrag e s else s
  | DblClick e => s
  | MouseMove e => drag e s
  | MouseUp e => endDrag e s
  | Tick h => fire_interval updatePhysics h s
  | Expire h => fire_timeout h s
  | Clock t => set_clock t s
  end.

Definition run (inputs : list Input) (s : State) : State :=
  fold_left (fun s i => handle i s) inputs s.

End StretchLoop.

Module StretchCleanLoop.
Import StretchClean.

Definition create (el : Element) (b : Browser) : State :=
  init {| this := constructor; elem := el; browser := b |}.

Definition handle (i : Input) (s : State) : State :=
  match i with
  | MouseDown e => if hasTitleBar (elem s) then startDrag e s else s
  | DblClick e => if hasTitleBar (elem s) then toggleGravity e s else s
  | MouseMove e => drag e s
  | MouseUp e => endDrag e s
  | Tick h => fire_interval updatePhysics h s
  | Expire h => fire_timeout h s
  | Clock t => set_clock t s
  end.

Definition run (inputs : list Input) (s : State) : State :=
  fold_left (fun s i => handle i s) inputs s.

End StretchCleanLoop.

(** * Definitions the statements use *)

(** ** The stretch gesture *)

(** The stretch formula as the specification writes it:
    [min(max(0, stretchStartY - pointerY), maxStretch)]. *)
Definition stretch_formula (stretchStartY pointerY maxStretch : Q) : Q :=
  Qmin (Qmax 0 (stretchStartY - pointerY)) maxStretch.

(** What the three stretch versions store in [stretchAmount] on a move
    while attached: the two branches of [if (upwardDistance > 10)]. *)
Definition stretch_amount (upwardDistance maxStretch : Q) : Q :=
  if upwardDistance >? 10 then Math_min upwardDistance maxStretch else 0.

(** The move handlers of the three stretch versions. *)
Definition stretch_drags (Math_sin : Q -> Q)
  : list (MouseEvent -> State -> State) :=
  [Stretch.drag; StretchGravity.drag Math_sin; StretchClean.drag].

(** A sequence of pointer moves. *)
Definition moves (drag : MouseEvent -> State -> State)
    (es : list MouseEvent) (s : State) : State :=
  fold_left (fun s e => drag e s) es s.

(** What a move leaves alone among the fields the gesture reads. *)
Record gesture_frame (s s' : State) : Prop := {
  gf_dragging : isDragging (this s') = isDragging (this s);
  gf_startY : stretchStartY (this s') = stretchStartY (this s);
  gf_max : maxStretch (this s') = maxStretch (this s);
  gf_snap : snapThreshold (this s') = snapThreshold (this s)
}.

(** Whether a move with this pointer position detaches: the two nested
    tests of [drag]. *)
Definition crosses (s : State) (e : MouseEvent) : bool :=
  let u := stretchStartY (this s) - clientY e in
  (u >? 10) && (Math_min u (maxStretch (this s)) >=? snapThreshold (this s)).

(** The facts about a move handler that the stretch theorems rest on. *)
Record stretch_move (drag : MouseEvent -> State -> State) : Prop := {
  sm_frame : forall e s, gesture_frame s (drag e s);
  sm_detached : forall e s,
    isDetached (this s) = true -> isDetached (this (drag e s)) = true;
  sm_amount : forall e s,
    isDragging (this s) = true -> isDetached (this s) = false ->
    stretchAmount (this (drag e s)) =
    stretch_amount (stretchStartY (this s) - clientY e) (maxStretch (this s));
  sm_detach : forall e s,
    isDragging (this s) = true -> isDetached (this s) = false ->
    isDetached (this (drag e s)) = crosses s e
}.

(** ** The physics loop *)

(** The integrators of the four versions that have physics. *)
Definition integrators : list (State -> State) :=
  [ShakePhysics.updatePhysics; Stretch.updatePhysics;
   StretchGravity.updatePhysics; StretchClean.updatePhysics].

(** The loop has stopped and the window is at rest. *)
Definition at_rest (s : State) : Prop :=
  physicsInterval (this s) = None /\ velocity (this s) = {| X := 0; Y := 0 |}.

(** The stopping condition of [updatePhysics]. *)
Definition slow (v : Vec) : Prop := Qabs (X v) < 0.1 /\ Qabs (Y v) < 0.1.

(** Friction and bounce are proper fractions and gravity is off. *)
Definition dissipative (s : State) : Prop :=
  0 < friction (this s) < 1 /\ 0 < bounce (this s) < 1
  /\ gravityEnabled (this s) = false.

(** A step that leaves the loop running: it keeps the timer and the
    constants, scales each velocity component by at most [friction] and ends
    above the stopping condition. *)
Definition damped_step (s s' : State) : Prop :=
  physicsInterval (this s') = physicsInterval (this s)
  /\ friction (this s') = friction (this s)
  /\ bounce (this s') = bounce (this s)
  /\ gravityEnabled (this s') = gravityEnabled (this s)
  /\ Qabs (X (velocity (this s')))
     <= friction (this s) * Qabs (X (velocity (this s)))
  /\ Qabs (Y (velocity (this s')))
     <= friction (this s) * Qabs (Y (velocity (this s)))
  /\ ~ slow (velocity (this s')).

(** The power [f^n]. *)
Fixpoint Qpow (f : Q) (n : nat) : Q :=
  match n with
  | O => 1
  | S n' => f * Qpow f n'
  end.

(** ** The shake gesture *)

(** The vertical deltas between consecutive samples, oldest first. *)
Fixpoint deltas (prev : Sample) (rest : list Sample) : list Q :=
  match rest with
  | [] => []
  | cur :: rest' => (pos_y cur - pos_y prev) :: deltas cur rest'
  end.

Definition vertical_deltas (l : list Sample) : list Q :=
  match l with
  | [] => []
  | p :: rest => deltas p rest
  end.

(** The deltas that exceed the shake distance, and the upward ones (the
    y axis points down). *)
Definition large (threshold : Q) (ds : list Q) : list Q :=
  List.filter (fun d => Qabs d >? threshold) ds.

Definition upward (ds : list Q) : list Q :=
  List.filter (fun d => d <? 0) ds.

Fixpoint Qsum (ds : list Q) : Q :=
  match ds with
  | [] => 0
  | d :: ds' => d + Qsum ds'
  end.

(** Two upward deltas next to each other. *)
Definition adjacent_upward (ds : list Q) : Prop :=
  exists l1 d1 d2 l2, ds = l1 ++ d1 :: d2 :: l2 /\ d1 < 0 /\ d2 < 0.

(** The first delta of a list is upward. *)
Definition first_upward (ds : list Q) : Prop :=
  match ds with
  | d :: _ => d < 0
  | [] => False
  end.

(** The five conditions of the specification, on the large deltas. *)
Definition shake_conditions (threshold : Q) (l : list Sample) : Prop :=
  let big := large threshold (vertical_deltas l) in
  (5 <= length big)%nat
  /\ (3 <= length (upward big))%nat
  /\ 100 < Qsum (List.map Qabs big)
  /\ (exists d, In d big /\ d < 0 /\ 35 < Qabs d)
  /\ adjacent_upward big.

(** The five tests at the end of [detectShake] of the strict version. *)
Definition shake_tests (a : ShakeStats) : bool :=
  (5 <=? verticalMovements a)%nat
  && (3 <=? upwardMovement a)%nat
  && (totalVerticalDistance a >? 100)
  && (maxUpwardDelta a >? 35)
  && (2 <=? maxConsecutiveUpward a)%nat.

(** The two updates of the counters in the loop of [detectShake]. *)
Definition shake_up (deltaY : Q) (a : ShakeStats) : ShakeStats :=
  {| verticalMovements := S (verticalMovements a);
     upwardMovement := S (upwardMovement a);
     totalVerticalDistance := totalVerticalDistance a + Math_abs deltaY;
     maxUpwardDelta := Math_max (maxUpwardDelta a) (Math_abs deltaY);
     consecutiveUpward := S (consecutiveUpward a);
     maxConsecutiveUpward :=
       Nat.max (maxConsecutiveUpward a) (S (consecutiveUpward a)) |}.

Definition shake_down (deltaY : Q) (a : ShakeStats) : ShakeStats :=
  {| verticalMovements := S (verticalMovements a);
     upwardMovement := upwardMovement a;
     totalVerticalDistance := totalVerticalDistance a + Math_abs deltaY;
     maxUpwardDelta := maxUpwardDelta a;
     consecutiveUpward := 0;
     maxConsecutiveUpward := maxConsecutiveUpward a |}.

(** ** Timers *)

(** The controller has at most one interval, the one it remembers. *)
Definition one_timer (s : State) : Prop :=
  intervals (browser s) =
  match physicsInterval (this s) with
  | Some h => [h]
  | None => []
  end.

(** The states the four controllers with physics are in after the same
    inputs, each created on the same page. *)
Definition reachable (Math_sin : Q -> Q) (el : Element) (b : Browser)
    (inputs : list Input) : list State :=
  [ShakePhysicsLoop.run inputs (ShakePhysicsLoop.create el b);
   StretchGravityLoop.run Math_sin inputs (StretchGravityLoop.create el b);
   StretchLoop.run inputs (StretchLoop.create el b);
   StretchCleanLoop.run inputs (StretchCleanLoop.create el b)].

(** ** The horizontal half of a step, on doubles

    JavaScript computes with IEEE 754 doubles, the embedding with exact
    rationals.  The statements of [updatePhysics] that act on the horizontal
    coordinate are repeated here on doubles, to tell what the rounding does
    to a value the embedding gives. *)

Module Double.

(** [if (p <= 0) { p = 0; v = -v * bounce }
     else if (p >= max) { p = max; v = -v * bounce }] *)
Definition bounce_axis (p v max b : float) : float * float :=
  if (p <=? 0)%float then (0%float, (- v * b)%float)
  else if (max <=? p)%float then (max, (- v * b)%float)
  else (p, v).


End Double.

(** ** The continuous reattachment check *)

(** The velocity a step of the two gravity versions integrates: with
    gravity on, the pull is added before anything else. *)
Definition StretchGravity_pull (s : State) : Vec :=
  if gravityEnabled (this s)
  then {| X := X (velocity (this s)) + X (acceleration (this s));
          Y := Y (velocity (this s)) + Y (acceleration (this s)) |}
  else velocity (this s).

Definition StretchClean_pull (s : State) : Vec :=
  if gravityEnabled (this s)
  then {| X := X (velocity (this s)); Y := Y (velocity (this s)) + 0.3 |}
  else velocity (this s).

(** The step meets no wall: the place the velocity [v] leads to is strictly
    inside the viewport. *)
Definition free_flight (s : State) (v : Vec) : Prop :=
  let r := getBoundingClientRect s in
  0 < rect_left r + X v < innerWidth (browser s) - offsetWidth (elem s)
  /\ 0 < rect_top r + Y v < innerHeight (browser s) - offsetHeight (elem s).

(** The velocity [v] after the friction of the step. *)
Definition after_friction (s : State) (v : Vec) : Vec :=
  {| X := X v * friction (this s); Y := Y v * friction (this s) |}.

(** What a step in free flight does about reattaching, for a dock zone
    that starts [zone] pixels above the bottom of the viewport: a step that
    ends below the stopping condition stops the loop and leaves the window
    detached; any other step runs the continuous check, which reattaches
    exactly when the moved window reaches into the zone and is slower
    than 2. *)
Definition continuous_check (upd : State -> State) (pull : State -> Vec)
    (zone : Q) (s : State) : Prop :=
  let v := after_friction s (pull s) in
  (slow v -> isDetached (this (upd s)) = true /\ at_rest (upd s))
  /\ (~ slow v ->
      (isDetached (this (upd s)) = false
       <-> innerHeight (browser s) - zone
           <= rect_bottom (getBoundingClientRect s) + Y (pull s)
           /\ speed v < 2)).


(** ** Release in the versions built with bounce 0.3 *)

(** A window that is not being dragged, or is attached, has no velocity. *)
Definition released_at_rest (s : State) : Prop :=
  isDragging (this s) = false \/ isDetached (this s) = false ->
  velocity (this s) = {| X := 0; Y := 0 |}.

(** ** A page to run the code on

    A 300 by 200 window docked on the taskbar of an 800 by 600 viewport. *)

Definition chat_window : Element :=
  {| el_id := "chat-window"; hasTitleBar := true; classList := ∅;
     style := ∅; offsetWidth := 300; offsetHeight := 200;
     flowLeft := 100; flowTop := 348 |}.

Definition desktop : Browser :=
  {| innerWidth := 800; innerHeight := 600; hasBringToFront := true;
     raised := 0; dispatched := []; notifications := []; localStorage := ∅;
     timeouts := []; intervals := []; nextHandle := 1; now := 0 |}.

Definition mouse (x y : Q) : MouseEvent :=
  {| clientX := x; clientY := y; shiftKey := false |}.

(** *** Event sequences *)

(** The title bar is grabbed near its right end and pulled 70 pixels up (the
    window detaches in the three stretch versions), the timeout of the
    detach animation fires, and the pointer sweeps to the bottom right
    corner of the viewport and then to the top left one.  The sweeps clamp
    the window against the walls: it ends at (0, 0) wherever the stretched
    box was when it detached.  In the clean version, which places the window
    by the pointer's distance from the grab and measures the vertical one
    from the [clientX] of the grab, the last move alone does that. *)
Definition to_corner : list Input :=
  [MouseDown (mouse 390 360); MouseMove (mouse 390 290); Clock 300; Expire 1;
   MouseMove (mouse 799 599); MouseMove (mouse 0 0)].

(** From the corner the pointer goes down to the bottom of the viewport,
    which puts the window on the floor, bottom edge on the bottom edge of
    the viewport; a second move event at the same place leaves the window
    still. *)
Definition rest_on_floor : list Input :=
  to_corner ++ [MouseMove (mouse 0 599); MouseMove (mouse 0 599)].




(** A throw against the right wall in the clean version, whose release
    keeps the velocity: the window detaches 70 pixels up, the pointer sweeps
    to the top right corner of the viewport, which clamps the window into
    that corner, and the button is released there. *)
Definition thrown_right : list Input :=
  [MouseDown (mouse 390 360); MouseMove (mouse 390 290); Clock 300; Expire 1;
   MouseMove (mouse 799 0); MouseUp (mouse 799 0)].

(** A double click on the title bar, as the browser delivers it. *)
Definition double_click (x y : Q) : list Input :=
  [MouseDown (mouse x y); MouseUp (mouse x y);
   MouseDown (mouse x y); MouseUp (mouse x y); DblClick (mouse x y)].

(** From the corner the window is dragged to (100, 350), bottom edge 50
    pixels above the bottom of the viewport, and released; then gravity is
    switched on by a double click. *)
Definition released_in_zone : list Input :=
  to_corner ++ [MouseMove (mouse 100 350); MouseUp (mouse 100 350)].

Definition falling_in_zone : list Input :=
  released_in_zone ++ double_click 150 355.

(** The same with the window released at (100, 100), far above the
    taskbar. *)
Definition released_high : list Input :=
  to_corner ++ [MouseMove (mouse 100 100); MouseUp (mouse 100 100)].

Definition falling_high : list Input :=
  released_high ++ double_click 150 105.

(** In the clean version: the title bar is grabbed near its left end, the
    window detaches 70 pixels up, and the pointer goes down to the bottom of
    the viewport, 489 pixels below the 110 its vertical move is measured
    from, which puts the window on the floor. *)
Definition to_floor : list Input :=
  [MouseDown (mouse 110 360); MouseMove (mouse 110 290); Clock 300; Expire 1;
   MouseMove (mouse 110 599)].

(** A throw in version 2: detach by a stretch, drag up and to the right
    (the last move leaves the velocity (24, -456)). *)
Definition thrown : State :=
  StretchGravityLoop.run (fun _ => 0)
    [MouseDown (mouse 150 500); MouseMove (mouse 150 430);
     MouseMove (mouse 170 50)]
    (StretchGravityLoop.create chat_window desktop).

(** Strong upward moves in a row in version 1, 40 pixels each: five
    samples in the buffer, and seven. *)
Definition four_jerks : list Input :=
  [MouseDown (mouse 150 500); MouseMove (mouse 150 460);
   MouseMove (mouse 150 420); MouseMove (mouse 150 380);
   MouseMove (mouse 150 340)].

Definition six_jerks : list Input :=
  four_jerks ++ [MouseMove (mouse 150 300); MouseMove (mouse 150 260)].

Arguments Math_min : simpl never.
Arguments Math_max : simpl never.
Arguments Math_abs : simpl never.
Arguments Math_sqrt : simpl never.
Arguments Qltb : simpl never.
Arguments Qgtb : simpl never.
Arguments Qgeb : simpl never.
Arguments Qle_bool : simpl never.
Arguments stopPhysics : simpl never.

(** * Proofs *)

(** ** Comparisons *)

Lemma Qle_bool_false (a b : Q) : (a <=? b) = false <-> b < a.
Proof.
  split.
  - intros H. apply Qnot_le_lt. intros Hle.
    apply Qle_bool_iff in Hle. congruence.
  - intros H. destruct (a <=? b) eqn:E; [|reflexivity].
    apply Qle_bool_iff in E. lra.
Qed.

Lemma Qltb_true (a b : Q) : (a <? b) = true <-> a < b.
Proof. unfold Qltb. rewrite negb_true_iff. apply Qle_bool_false. Qed.

Lemma Qltb_false (a b : Q) : (a <? b) = false <-> b <= a.
Proof. unfold Qltb. rewrite negb_false_iff. apply Qle_bool_iff. Qed.

(** Turns the boolean comparisons of the context into propositions. *)
Ltac qprop :=
  unfold Qgtb, Qgeb in *;
  repeat match goal with
  | H : (_ <? _) = true |- _ => apply Qltb_true in H
  | H : (_ <? _) = false |- _ => apply Qltb_false in H
  | H : (_ <=? _) = true |- _ => apply Qle_bool_iff in H
  | H : (_ <=? _) = false |- _ => apply Qle_bool_false in H
  end.

(** Splits on the next comparison the goal branches on. *)
Ltac qcase :=
  unfold Qgtb, Qgeb in *;
  match goal with
  | |- context [?a <? ?b] => destruct (a <? b) eqn:?
  | |- context [?a <=? ?b] => destruct (a <=? b) eqn:?
  end; qprop.

(** Case analysis on whatever the goal branches on. *)
Ltac branch :=
  match goal with
  | |- context [if ?c then _ else _] => destruct c eqn:?
  | |- context [match ?c with _ => _ end] => destruct c eqn:?
  end.

Lemma Math_abs_Qabs (a : Q) : Math_abs a == Qabs a.
Proof.
  unfold Math_abs. qcase.
  - rewrite Qabs_neg; lra.
  - rewrite Qabs_pos; lra.
Qed.

Lemma Math_sqrt_0 (a : Q) : a == 0 -> Math_sqrt a == 0.
Proof.
  intros H. unfold Math_sqrt.
  assert (Hn : Qnum a = 0%Z).
  { unfold Qeq in H. simpl in H. lia. }
  rewrite Hn. simpl. reflexivity.
Qed.

(** ** Detaching and reattaching twice *)

Lemma ShakePhysics_detach_sets s :
  isDetached (this (ShakePhysics.detachWindow s)) = true.
Proof.
  unfold ShakePhysics.detachWindow.
  destruct (isDetached (this s)) eqn:E; [exact E | reflexivity].
Qed.

Lemma ShakePhysics_detach_event s :
  isDetached (this s) = false ->
  dispatched (browser (ShakePhysics.detachWindow s)) =
  dispatched (browser s) ++ [windowDetached (el_id (elem s))].
Proof.
  intros H. unfold ShakePhysics.detachWindow. rewrite H. reflexivity.
Qed.

Lemma Stretch_detach_sets e s :
  isDetached (this (Stretch.detachWindow e s)) = true.
Proof.
  unfold Stretch.detachWindow.
  destruct (isDetached (this s)) eqn:E; [exact E | reflexivity].
Qed.

Lemma Stretch_detach_event e s :
  isDetached (this s) = false ->
  dispatched (browser (Stretch.detachWindow e s)) =
  dispatched (browser s) ++ [windowDetached (el_id (elem s))].
Proof.
  intros H. unfold Stretch.detachWindow. rewrite H. reflexivity.
Qed.

Lemma StretchClean_detach_sets e s :
  isDetached (this (StretchClean.detachWindow e s)) = true.
Proof.
  unfold StretchClean.detachWindow.
  destruct (isDetached (this s)) eqn:E; [exact E | reflexivity].
Qed.

(** C8. Detaching is idempotent: on a window that is already detached,
    [detachWindow] of every version returns the state it was given, so the
    flag, the position, the velocity, the classes and the inline style stay
    as they were and no further [windowDetached] event is dispatched. *)
Theorem detachWindow_already_detached (e : MouseEvent) (s : State) :
  isDetached (this s) = true ->
  ShakePhysics.detachWindow s = s
  /\ Stretch.detachWindow e s = s
  /\ StretchClean.detachWindow e s = s
  /\ StretchGravity.detachWindow e s = s
  /\ ShakeBasic.detachWindow s = s.
Proof.
  intros H.
  unfold ShakePhysics.detachWindow, Stretch.detachWindow,
    StretchClean.detachWindow, StretchGravity.detachWindow,
    ShakeBasic.detachWindow.
  rewrite H. repeat split.
Qed.

Lemma detachWindow_already_detached_witness :
  let s := ShakePhysics.detachWindow (ShakePhysicsLoop.create chat_window desktop) in
  isDetached (this s) = true
  /\ ShakePhysics.detachWindow s = s
  /\ Stretch.detachWindow (mouse 0 0) s = s.
Proof.
  intros s.
  assert (H : isDetached (this s) = true) by reflexivity.
  split; [exact H|].
  destruct (detachWindow_already_detached (mouse 0 0) s H) as (H1 & H2 & _).
  split; assumption.
Defined.

(** A second call right after a first one changes nothing, whatever the
    state the first one started from. *)
Lemma detachWindow_twice (e : MouseEvent) (s : State) :
  ShakePhysics.detachWindow (ShakePhysics.detachWindow s)
    = ShakePhysics.detachWindow s
  /\ Stretch.detachWindow e (Stretch.detachWindow e s)
    = Stretch.detachWindow e s
  /\ StretchClean.detachWindow e (StretchClean.detachWindow e s)
    = StretchClean.detachWindow e s.
Proof.
  repeat split.
  - generalize (ShakePhysics_detach_sets s).
    generalize (ShakePhysics.detachWindow s). intros s' H.
    unfold ShakePhysics.detachWindow. rewrite H. reflexivity.
  - generalize (Stretch_detach_sets e s).
    generalize (Stretch.detachWindow e s). intros s' H.
    unfold Stretch.detachWindow. rewrite H. reflexivity.
  - generalize (StretchClean_detach_sets e s).
    generalize (StretchClean.detachWindow e s). intros s' H.
    unfold StretchClean.detachWindow. rewrite H. reflexivity.
Qed.

(** C10. Reattaching is idempotent: on a window that is attached,
    [reattachWindow] of every version returns the state it was given: flag,
    position, velocity, gravity flag and physics timer stay as they were and
    no [windowReattached] event is dispatched. *)
Theorem reattachWindow_already_attached (s : State) :
  isDetached (this s) = false ->
  ShakePhysics.reattachWindow s = s
  /\ Stretch.reattachWindow s = s
  /\ StretchClean.reattachWindow s = s
  /\ StretchGravity.reattachWindow s = s
  /\ ShakeBasic.reattachWindow s = s.
Proof.
  intros H.
  unfold ShakePhysics.reattachWindow, Stretch.reattachWindow,
    StretchClean.reattachWindow, StretchGravity.reattachWindow,
    ShakeBasic.reattachWindow.
  rewrite H. repeat split.
Qed.

Lemma reattachWindow_already_attached_witness :
  let s := StretchCleanLoop.create chat_window desktop in
  isDetached (this s) = false
  /\ ShakePhysics.reattachWindow s = s
  /\ StretchClean.reattachWindow s = s.
Proof.
  intros s.
  assert (H : isDetached (this s) = false) by reflexivity.
  split; [exact H|].
  destruct (reattachWindow_already_attached s H) as (H1 & _ & H3 & _).
  split; assumption.
Defined.

(** On a detached window [reattachWindow] does its work: the flag falls,
    the loop is stopped and one event goes out. *)
Lemma ShakePhysics_reattach_detached s :
  isDetached (this s) = true ->
  let s' := ShakePhysics.reattachWindow s in
  isDetached (this s') = false
  /\ physicsInterval (this s') = None
  /\ velocity (this s') = {| X := 0; Y := 0 |}
  /\ dispatched (browser s') =
     dispatched (browser s) ++ [windowReattached (el_id (elem s))].
Proof.
  intros H. cbv zeta. unfold ShakePhysics.reattachWindow. rewrite H. simpl.
  unfold stopPhysics.
  destruct (physicsInterval (this s)) eqn:E; simpl; rewrite ?E; repeat split.
Qed.

(** ** The stretch gesture *)

Lemma Stretch_this_applyStretchEffect s :
  this (Stretch.applyStretchEffect s) = this s.
Proof.
  unfold Stretch.applyStretchEffect. simpl.
  destruct (stretchAmount (this s) >=? snapThreshold (this s) * 0.8);
    reflexivity.
Qed.

Lemma Stretch_this_detachWindow e s :
  isDetached (this s) = false ->
  this (Stretch.detachWindow e s)
  = set_isStretching false (set_isDetached true (this s)).
Proof. intros H. unfold Stretch.detachWindow. rewrite H. reflexivity. Qed.

Arguments Stretch.applyStretchEffect : simpl never.
Arguments Stretch.detachWindow : simpl never.

Lemma Stretch_stretch_move : stretch_move Stretch.drag.
Proof.
  assert (Hstep : forall e s',
    isDetached (this s') = false ->
    this (Stretch.detachWindow e (Stretch.applyStretchEffect s'))
    = set_isStretching false (set_isDetached true (this s'))).
  { intros e s' Ha. rewrite Stretch_this_detachWindow
      by (rewrite Stretch_this_applyStretchEffect; exact Ha).
    rewrite Stretch_this_applyStretchEffect. reflexivity. }
  split.
  - intros e s. unfold Stretch.drag, Stretch.moveWindowFreely, Stretch.moveOnTaskbarRail,
      Stretch.resetStretchEffect.
    destruct (isDragging (this s)) eqn:Hd; simpl; [|split; reflexivity].
    destruct (isDetached (this s)) eqn:Ha; simpl; rewrite ?Ha; simpl;
      [split; reflexivity|].
    destruct (_ - _ >? 10); simpl; [|split; reflexivity].
    rewrite Stretch_this_applyStretchEffect. simpl.
    destruct (Math_min _ _ >=? _); split;
      rewrite ?Hstep, ?Stretch_this_applyStretchEffect by (simpl; exact Ha);
      simpl; rewrite ?Hd; reflexivity.
  - intros e s Ha. unfold Stretch.drag, Stretch.moveWindowFreely, Stretch.moveOnTaskbarRail,
      Stretch.resetStretchEffect.
    destruct (isDragging (this s)); simpl; [|exact Ha].
    repeat (progress (simpl; rewrite ?Ha)). reflexivity.
  - intros e s Hd Ha. unfold Stretch.drag, Stretch.moveWindowFreely, Stretch.moveOnTaskbarRail,
      Stretch.resetStretchEffect, stretch_amount.
    rewrite Hd, Ha. simpl. rewrite ?Ha.
    destruct (_ - _ >? 10); simpl; [|reflexivity].
    rewrite Stretch_this_applyStretchEffect. simpl.
    destruct (Math_min _ _ >=? _);
      rewrite ?Hstep, ?Stretch_this_applyStretchEffect by (simpl; exact Ha);
      reflexivity.
  - intros e s Hd Ha. unfold Stretch.drag, Stretch.moveWindowFreely, Stretch.moveOnTaskbarRail,
      Stretch.resetStretchEffect, crosses.
    rewrite Hd, Ha. simpl. rewrite ?Ha.
    destruct (_ - _ >? 10); simpl; [|exact Ha].
    rewrite Stretch_this_applyStretchEffect. simpl.
    destruct (Math_min _ _ >=? _);
      rewrite ?Hstep, ?Stretch_this_applyStretchEffect by (simpl; exact Ha);
      simpl; rewrite ?Ha; reflexivity.
Qed.

Lemma StretchGravity_this_applyStretchEffect sin s :
  this (StretchGravity.applyStretchEffect sin s) = this s.
Proof.
  unfold StretchGravity.applyStretchEffect. simpl.
  destruct (stretchAmount (this s) >=? snapThreshold (this s) * 0.7);
    reflexivity.
Qed.

Lemma StretchGravity_this_detachWindow e s :
  isDetached (this s) = false ->
  this (StretchGravity.detachWindow e s)
  = set_isStretching false (set_isDetached true (this s)).
Proof. intros H. unfold StretchGravity.detachWindow. rewrite H. reflexivity. Qed.

Arguments StretchGravity.applyStretchEffect : simpl never.
Arguments StretchGravity.detachWindow : simpl never.

Lemma StretchGravity_stretch_move sin :
  stretch_move (StretchGravity.drag sin).
Proof.
  assert (Hstep : forall e s',
    isDetached (this s') = false ->
    this (StretchGravity.detachWindow e (StretchGravity.applyStretchEffect sin s'))
    = set_isStretching false (set_isDetached true (this s'))).
  { intros e s' Ha. rewrite StretchGravity_this_detachWindow
      by (rewrite StretchGravity_this_applyStretchEffect; exact Ha).
    rewrite StretchGravity_this_applyStretchEffect. reflexivity. }
  split.
  - intros e s. unfold StretchGravity.drag, StretchGravity.moveWindowFreely, StretchGravity.moveOnTaskbarRail,
      StretchGravity.resetStretchEffect.
    destruct (isDragging (this s)) eqn:Hd; simpl; [|split; reflexivity].
    destruct (isDetached (this s)) eqn:Ha; simpl; rewrite ?Ha; simpl;
      [split; reflexivity|].
    destruct (_ - _ >? 10); simpl; [|split; reflexivity].
    rewrite StretchGravity_this_applyStretchEffect. simpl.
    destruct (Math_min _ _ >=? _); split;
      rewrite ?Hstep, ?StretchGravity_this_applyStretchEffect by (simpl; exact Ha);
      simpl; rewrite ?Hd; reflexivity.
  - intros e s Ha. unfold StretchGravity.drag, StretchGravity.moveWindowFreely, StretchGravity.moveOnTaskbarRail,
      StretchGravity.resetStretchEffect.
    destruct (isDragging (this s)); simpl; [|exact Ha].
    repeat (progress (simpl; rewrite ?Ha)). reflexivity.
  - intros e s Hd Ha. unfold StretchGravity.drag, StretchGravity.moveWindowFreely, StretchGravity.moveOnTaskbarRail,
      StretchGravity.resetStretchEffect, stretch_amount.
    rewrite Hd, Ha. simpl. rewrite ?Ha.
    destruct (_ - _ >? 10); simpl; [|reflexivity].
    rewrite StretchGravity_this_applyStretchEffect. simpl.
    destruct (Math_min _ _ >=? _);
      rewrite ?Hstep, ?StretchGravity_this_applyStretchEffect by (simpl; exact Ha);
      reflexivity.
  - intros e s Hd Ha. unfold StretchGravity.drag, StretchGravity.moveWindowFreely, StretchGravity.moveOnTaskbarRail,
      StretchGravity.resetStretchEffect, crosses.
    rewrite Hd, Ha. simpl. rewrite ?Ha.
    destruct (_ - _ >? 10); simpl; [|exact Ha].
    rewrite StretchGravity_this_applyStretchEffect. simpl.
    destruct (Math_min _ _ >=? _);
      rewrite ?Hstep, ?StretchGravity_this_applyStretchEffect by (simpl; exact Ha);
      simpl; rewrite ?Ha; reflexivity.
Qed.

Lemma StretchClean_this_applyStretchEffect s :
  this (StretchClean.applyStretchEffect s) = this s.
Proof.
  unfold StretchClean.applyStretchEffect. simpl.
  destruct (stretchAmount (this s) >=? snapThreshold (this s) * 0.8);
    reflexivity.
Qed.

Lemma StretchClean_detach_frame e s :
  gesture_frame s (StretchClean.detachWindow e s)
  /\ stretchAmount (this (StretchClean.detachWindow e s))
     = stretchAmount (this s).
Proof.
  unfold StretchClean.detachWindow.
  destruct (isDetached (this s)); simpl; repeat split.
Qed.

Arguments StretchClean.applyStretchEffect : simpl never.
Arguments StretchClean.detachWindow : simpl never.

Lemma StretchClean_stretch_move : stretch_move StretchClean.drag.
Proof.
  split.
  - intros e s. unfold StretchClean.drag, StretchClean.moveWindowFreely,
      StretchClean.moveOnTaskbarRail, StretchClean.resetStretchEffect.
    destruct (isDragging (this s)) eqn:Hd; simpl; [|split; reflexivity].
    destruct (isDetached (this s)) eqn:Ha; simpl; [split; reflexivity|].
    destruct (_ - _ >? 10); simpl; [|split; reflexivity].
    rewrite StretchClean_this_applyStretchEffect. simpl.
    destruct (Math_min _ _ >=? _).
    + destruct (StretchClean_detach_frame e
        (StretchClean.applyStretchEffect
           (classList_add "stretching"
              (on_this (set_stretchAmount
                 (Math_min (stretchStartY (this s) - clientY e)
                    (maxStretch (this s))))
                 (on_this (set_isStretching true) s))))) as [[H1 H2 H3 H4] _].
      rewrite StretchClean_this_applyStretchEffect in H1, H2, H3, H4.
      simpl in H1, H2, H3, H4. split; assumption.
    + split; rewrite StretchClean_this_applyStretchEffect; reflexivity.
  - intros e s Ha. unfold StretchClean.drag, StretchClean.moveWindowFreely.
    destruct (isDragging (this s)); simpl; [|exact Ha].
    rewrite Ha. simpl. exact Ha.
  - intros e s Hd Ha. unfold StretchClean.drag, stretch_amount,
      StretchClean.moveOnTaskbarRail, StretchClean.resetStretchEffect.
    rewrite Hd, Ha. simpl.
    destruct (_ - _ >? 10); simpl; [|reflexivity].
    rewrite StretchClean_this_applyStretchEffect. simpl.
    destruct (Math_min _ _ >=? _).
    + destruct (StretchClean_detach_frame e
        (StretchClean.applyStretchEffect
           (classList_add "stretching"
              (on_this (set_stretchAmount
                 (Math_min (stretchStartY (this s) - clientY e)
                    (maxStretch (this s))))
                 (on_this (set_isStretching true) s))))) as [_ H].
      rewrite H, StretchClean_this_applyStretchEffect. reflexivity.
    + rewrite StretchClean_this_applyStretchEffect. reflexivity.
  - intros e s Hd Ha. unfold StretchClean.drag, crosses,
      StretchClean.moveOnTaskbarRail, StretchClean.resetStretchEffect.
    rewrite Hd, Ha. simpl.
    destruct (_ - _ >? 10); simpl; [|exact Ha].
    rewrite StretchClean_this_applyStretchEffect. simpl.
    destruct (Math_min _ _ >=? _).
    + apply StretchClean_detach_sets.
    + rewrite StretchClean_this_applyStretchEffect. exact Ha.
Qed.

Lemma stretch_drags_move sin drag :
  In drag (stretch_drags sin) -> stretch_move drag.
Proof.
  intros [<- | [<- | [<- | []]]].
  - apply Stretch_stretch_move.
  - apply StretchGravity_stretch_move.
  - apply StretchClean_stretch_move.
Qed.

Lemma stretch_amount_above (u M : Q) :
  10 < u -> stretch_amount u M == Qmin (Qmax 0 u) M.
Proof.
  intros Hu. unfold stretch_amount, Math_min.
  destruct (Q.max_spec 0 u) as [[_ Hmax] | [? _]]; [|lra].
  destruct (Q.min_spec (Qmax 0 u) M) as [[Hlt Hmin] | [Hle Hmin]];
    rewrite Hmin; repeat qcase; lra.
Qed.

Lemma stretch_amount_dead_zone (u M : Q) : u <= 10 -> stretch_amount u M == 0.
Proof. intros Hu. unfold stretch_amount. qcase; lra. Qed.

Lemma stretch_amount_bounds (u M : Q) :
  0 <= M -> 0 <= stretch_amount u M <= M.
Proof. intros HM. unfold stretch_amount, Math_min. repeat qcase; lra. Qed.

Lemma stretch_amount_monotone (u u' M : Q) :
  0 <= M -> u <= u' -> stretch_amount u M <= stretch_amount u' M.
Proof. intros HM Hu. unfold stretch_amount, Math_min. repeat qcase; lra. Qed.

(** C2, as the code has it.  On a move while dragging an attached window,
    each of the three stretch versions stores
    [min(max(0, stretchStartY - pointerY), maxStretch)] when the pointer is
    more than 10 pixels above the start, and 0 when it is not (the first 10
    pixels are a dead zone); the amount lies between 0 and [maxStretch] and
    does not decrease when the upward displacement grows. *)
Theorem stretch_amount_of_move (Math_sin : Q -> Q)
    (drag : MouseEvent -> State -> State) (e : MouseEvent) (s : State) :
  In drag (stretch_drags Math_sin) ->
  isDragging (this s) = true ->
  isDetached (this s) = false ->
  0 <= maxStretch (this s) ->
  let upward e := stretchStartY (this s) - clientY e in
  let amount e := stretchAmount (this (drag e s)) in
  (10 < upward e ->
   amount e == stretch_formula (stretchStartY (this s)) (clientY e)
                 (maxStretch (this s)))
  /\ (upward e <= 10 -> amount e == 0)
  /\ 0 <= amount e <= maxStretch (this s)
  /\ (forall e', upward e <= upward e' -> amount e <= amount e').
Proof.
  intros Hin Hd Ha HM upward amount. subst upward amount. cbv beta.
  pose proof (stretch_drags_move _ _ Hin) as Hmove.
  rewrite (sm_amount _ Hmove e s Hd Ha).
  split; [|split; [|split]].
  - intros Hu. unfold stretch_formula. apply stretch_amount_above, Hu.
  - apply stretch_amount_dead_zone.
  - apply stretch_amount_bounds, HM.
  - intros e' Hu. rewrite (sm_amount _ Hmove e' s Hd Ha).
    apply stretch_amount_monotone; assumption.
Qed.

Lemma stretch_amount_of_move_witness :
  let s := Stretch.startDrag (mouse 150 500)
             (StretchLoop.create chat_window desktop) in
  stretchAmount (this (Stretch.drag (mouse 150 495) s)) == 0
  /\ stretchAmount (this (Stretch.drag (mouse 150 470) s)) == 30
  /\ stretchAmount (this (Stretch.drag (mouse 150 400) s)) == 80.
Proof.
  intros s.
  assert (Hin : In Stretch.drag (stretch_drags (fun _ => 0)))
    by (left; reflexivity).
  assert (Hd : isDragging (this s) = true) by reflexivity.
  assert (Ha : isDetached (this s) = false) by reflexivity.
  assert (HM : 0 <= maxStretch (this s)) by (vm_compute; discriminate).
  split; [|split].
  - apply (stretch_amount_of_move _ _ (mouse 150 495) s Hin Hd Ha HM).
    vm_compute. discriminate.
  - rewrite (proj1 (stretch_amount_of_move _ _ (mouse 150 470) s Hin Hd Ha HM)).
    + vm_compute. reflexivity.
    + vm_compute. reflexivity.
  - rewrite (proj1 (stretch_amount_of_move _ _ (mouse 150 400) s Hin Hd Ha HM)).
    + vm_compute. reflexivity.
    + vm_compute. reflexivity.
Defined.

(** The formula of the specification fails in the dead zone: 5 pixels up,
    the code stores 0 where the formula gives 5. *)
Lemma stretch_formula_fails_below_10px :
  let s := Stretch.startDrag (mouse 150 500)
             (StretchLoop.create chat_window desktop) in
  let e := mouse 150 495 in
  isDragging (this s) = true
  /\ isDetached (this s) = false
  /\ stretchAmount (this (Stretch.drag e s)) == 0
  /\ stretch_formula (stretchStartY (this s)) (clientY e)
       (maxStretch (this s)) == 5
  /\ ~ stretchAmount (this (Stretch.drag e s))
       == stretch_formula (stretchStartY (this s)) (clientY e)
            (maxStretch (this s)).
Proof.
  vm_compute. repeat split; discriminate.
Qed.

(** ** Detaching at the threshold *)

Lemma existsb_pointwise {A : Type} (f g : A -> bool) (l : list A) :
  (forall a, f a = g a) -> existsb f l = existsb g l.
Proof.
  intros H. induction l as [|a l IH]; simpl; [reflexivity|].
  rewrite H, IH. reflexivity.
Qed.

Lemma moves_detached drag es s :
  stretch_move drag ->
  isDetached (this s) = true -> isDetached (this (moves drag es s)) = true.
Proof.
  intros Hmove. revert s. induction es as [|e es IH]; intros s Ha; simpl.
  - exact Ha.
  - apply IH. apply (sm_detached _ Hmove), Ha.
Qed.

Lemma moves_detach drag es s :
  stretch_move drag ->
  isDragging (this s) = true -> isDetached (this s) = false ->
  isDetached (this (moves drag es s)) = existsb (crosses s) es.
Proof.
  intros Hmove. revert s. induction es as [|e es IH]; intros s Hd Ha; simpl.
  - exact Ha.
  - destruct (crosses s e) eqn:Hc; simpl.
    + apply moves_detached; [exact Hmove|].
      rewrite (sm_detach _ Hmove) by assumption. exact Hc.
    + destruct (sm_frame _ Hmove e s) as [F1 F2 F3 F4].
      rewrite IH.
      * apply existsb_pointwise. intros e'. unfold crosses.
        rewrite F2, F3, F4. reflexivity.
      * rewrite F1. exact Hd.
      * rewrite (sm_detach _ Hmove) by assumption. exact Hc.
Qed.

Lemma crosses_80_60 s e :
  maxStretch (this s) == 80 -> snapThreshold (this s) == 60 ->
  crosses s e = (60 <=? stretchStartY (this s) - clientY e).
Proof.
  intros HM HT. unfold crosses, Math_min, Qgtb, Qgeb.
  set (u := stretchStartY (this s) - clientY e) in *.
  destruct (u <=? maxStretch (this s)) eqn:E1;
    destruct (10 <? u) eqn:E2; destruct (60 <=? u) eqn:E3; simpl;
    try match goal with |- ?b = _ => destruct b eqn:E4 end;
    qprop; try reflexivity; exfalso; lra.
Qed.

(** C5. With [maxStretch = 80] and [snapThreshold = 60], after any
    sequence of moves of a drag that started attached, the window is
    detached exactly when one of the moves was 60 pixels or more above the
    start.  So on a way up to 70 pixels it is still attached before the
    first move that reaches 60 pixels, detached right after that move, and
    stays detached for the rest of the gesture. *)
Theorem detach_at_first_crossing (Math_sin : Q -> Q)
    (drag : MouseEvent -> State -> State) (s : State) :
  In drag [Stretch.drag; StretchGravity.drag Math_sin] ->
  isDragging (this s) = true ->
  isDetached (this s) = false ->
  maxStretch (this s) == 80 ->
  snapThreshold (this s) == 60 ->
  let reaches e := 60 <=? stretchStartY (this s) - clientY e in
  (forall es, isDetached (this (moves drag es s)) = existsb reaches es)
  /\ (forall es1 e es2,
        forallb (fun e' => negb (reaches e')) es1 = true ->
        reaches e = true ->
        isDetached (this (moves drag es1 s)) = false
        /\ isDetached (this (moves drag (es1 ++ [e]) s)) = true
        /\ isDetached (this (moves drag (es1 ++ e :: es2) s)) = true).
Proof.
  intros Hin Hd Ha HM HT reaches.
  assert (Hmove : stretch_move drag).
  { apply (stretch_drags_move Math_sin). unfold stretch_drags.
    destruct Hin as [<- | [<- | []]]; simpl; auto. }
  assert (Hall : forall es,
             isDetached (this (moves drag es s)) = existsb reaches es).
  { intros es. rewrite (moves_detach _ _ _ Hmove Hd Ha).
    apply existsb_pointwise. intros e. apply crosses_80_60; assumption. }
  split; [exact Hall|].
  intros es1 e es2 Hbefore He.
  assert (Hnone : existsb reaches es1 = false).
  { clear -Hbefore. induction es1 as [|a l IH]; simpl in *; [reflexivity|].
    apply andb_true_iff in Hbefore as [Ha Hl].
    apply negb_true_iff in Ha. rewrite Ha. simpl. apply IH, Hl. }
  rewrite !Hall, !existsb_app, Hnone. simpl. rewrite He. simpl.
  repeat split.
Qed.

(** The scenario of the specification: up by 70 pixels in steps of 10. *)
Lemma detach_at_first_crossing_witness :
  let s := Stretch.startDrag (mouse 150 500)
             (StretchLoop.create chat_window desktop) in
  let up (d : Q) := mouse 150 (500 - d) in
  isDetached (this (moves Stretch.drag [up 10; up 20; up 30; up 40; up 50] s))
    = false
  /\ isDetached
       (this (moves Stretch.drag [up 10; up 20; up 30; up 40; up 50; up 60] s))
     = true
  /\ isDetached
       (this (moves Stretch.drag
                [up 10; up 20; up 30; up 40; up 50; up 60; up 70] s))
     = true.
Proof.
  intros s up.
  assert (Hin : In Stretch.drag
                  [Stretch.drag; StretchGravity.drag (fun _ => 0)])
    by (left; reflexivity).
  assert (Hd : isDragging (this s) = true) by reflexivity.
  assert (Ha : isDetached (this s) = false) by reflexivity.
  assert (HM : maxStretch (this s) == 80) by reflexivity.
  assert (HT : snapThreshold (this s) == 60) by reflexivity.
  apply (proj2 (detach_at_first_crossing _ _ s Hin Hd Ha HM HT)
           [up 10; up 20; up 30; up 40; up 50] (up 60) [up 70]);
    reflexivity.
Defined.

(** ** Geometric decay *)

Lemma Qpow_pos (f : Q) (n : nat) : 0 < f -> 0 < Qpow f n.
Proof.
  intros Hf. induction n as [|n IH]; cbn [Qpow]; [lra|].
  apply Qmult_lt_0_compat; assumption.
Qed.

Lemma Qpow_le_1 (f : Q) (n : nat) : 0 < f < 1 -> Qpow f n <= 1.
Proof.
  intros Hf. induction n as [|n IH]; cbn [Qpow]; [lra|].
  pose proof (Qpow_pos f n (proj1 Hf)) as Hpos.
  assert (f * Qpow f n <= 1 * Qpow f n)
    by (apply Qmult_le_compat_r; lra).
  lra.
Qed.

(** Bernoulli's inequality, read for [f = 1 / (1 + d)]. *)
Lemma Qpow_bernoulli (f d : Q) (n : nat) :
  0 < f < 1 -> f * d == 1 - f ->
  Qpow f n * (1 + inject_Z (Z.of_nat n) * d) <= 1.
Proof.
  intros Hf Hd. induction n as [|n IH].
  - change (inject_Z (Z.of_nat 0)) with 0. cbn [Qpow]. lra.
  - rewrite Nat2Z.inj_succ. unfold Z.succ. rewrite inject_Z_plus.
    cbn [Qpow].
    pose proof (Qpow_pos f n (proj1 Hf)) as Hpos.
    pose proof (Qpow_le_1 f n Hf) as Hle.
    set (P := Qpow f n) in *. set (k := inject_Z (Z.of_nat n)) in *.
    assert (E : f * P * (1 + (k + inject_Z 1) * d)
                == f * (P * (1 + k * d)) + P * (f * d)) by ring.
    rewrite E, Hd. nra.
Qed.

Lemma Q_archimedean (q : Q) : exists n : nat, q < inject_Z (Z.of_nat n).
Proof.
  exists (Z.to_nat (Z.max 0 (Qfloor q + 1))).
  rewrite Z2Nat.id by lia.
  apply Qlt_le_trans with (inject_Z (Qfloor q + 1)).
  - apply Qlt_floor.
  - rewrite <- Zle_Qle. lia.
Qed.

Lemma Qpow_small (f a eps : Q) :
  0 < f < 1 -> 0 <= a -> 0 < eps -> exists n, Qpow f (S n) * a < eps.
Proof.
  intros Hf Ha Heps.
  set (d := (1 - f) / f).
  assert (Hd : f * d == 1 - f) by (unfold d; field; lra).
  assert (Hdpos : 0 < d) by nra.
  destruct (Q_archimedean (a / (eps * d))) as [n Hn].
  exists n.
  assert (Hprod : 0 < eps * d) by (apply Qmult_lt_0_compat; assumption).
  assert (Hn' : a < inject_Z (Z.of_nat n) * (eps * d)).
  { assert (E : a == a / (eps * d) * (eps * d)) by (field; lra).
    rewrite E at 1. apply Qmult_lt_compat_r; assumption. }
  pose proof (Qpow_bernoulli f d (S n) Hf Hd) as HB.
  pose proof (Qpow_pos f (S n) (proj1 Hf)) as HP.
  rewrite Nat2Z.inj_succ in HB. unfold Z.succ in HB.
  rewrite inject_Z_plus in HB.
  set (P := Qpow f (S n)) in *. set (k := inject_Z (Z.of_nat n)) in *.
  assert (Hk : 0 <= k).
  { unfold k. rewrite <- (Zle_Qle 0). lia. }
  assert (H1 : P * a < P * (k * (eps * d) + eps * (1 + d))) by nra.
  assert (H2 : P * (k * (eps * d) + eps * (1 + d))
               == eps * (P * (1 + (k + inject_Z 1) * d))) by ring.
  rewrite H2 in H1. nra.
Qed.

(** ** One physics step *)

Lemma stopPhysics_at_rest s : at_rest (stopPhysics s).
Proof.
  unfold stopPhysics, at_rest.
  destruct (physicsInterval (this s)) eqn:E; simpl; rewrite ?E; split;
    reflexivity.
Qed.

Lemma bounce_axis_abs (p v m b p' v' : Q) :
  0 < b < 1 -> bounce_axis p v m b = (p', v') -> Qabs v' <= Qabs v.
Proof.
  intros Hb. unfold bounce_axis.
  assert (Hflip : Qabs (- v * b) <= Qabs v).
  { rewrite Qabs_Qmult, Qabs_opp, (Qabs_pos b) by lra.
    pose proof (Qabs_nonneg v). nra. }
  destruct (p <=? 0); [|destruct (p >=? m)]; intros [= <- <-];
    try exact Hflip; lra.
Qed.

Lemma not_slow (a b : Q) :
  (Math_abs a <? 0.1) && (Math_abs b <? 0.1) = false ->
  ~ slow {| X := a; Y := b |}.
Proof.
  intros H [Ha Hb]. simpl in Ha, Hb.
  rewrite <- Math_abs_Qabs in Ha, Hb.
  apply Qltb_true in Ha, Hb. rewrite Ha, Hb in H. discriminate.
Qed.

Lemma damped_abs (v v' f : Q) :
  0 < f < 1 -> Qabs v' <= Qabs v -> Qabs (v' * f) <= f * Qabs v.
Proof.
  intros Hf H. rewrite Qabs_Qmult, (Qabs_pos f) by lra.
  pose proof (Qabs_nonneg v'). nra.
Qed.

(** A step of the version without gravity either stops the loop or is a
    damped step. *)
Lemma ShakePhysics_step s :
  dissipative s ->
  at_rest (ShakePhysics.updatePhysics s)
  \/ damped_step s (ShakePhysics.updatePhysics s).
Proof.
  intros (Hf & Hb & Hg). unfold ShakePhysics.updatePhysics.
  destruct (negb (isDetached (this s)) || isDragging (this s));
    [left; apply stopPhysics_at_rest|].
  destruct (bounce_axis _ (X _) _ _) as [newX vx] eqn:EX.
  destruct (bounce_axis _ (Y _) _ _) as [newY vy] eqn:EY.
  simpl.
  destruct (_ && _) eqn:Hslow; [left; apply stopPhysics_at_rest|].
  right. unfold damped_step. simpl.
  repeat split; try reflexivity.
  - apply damped_abs; [exact Hf|]. eapply bounce_axis_abs; eauto.
  - apply damped_abs; [exact Hf|]. eapply bounce_axis_abs; eauto.
  - apply not_slow, Hslow.
Qed.

Lemma Stretch_step s :
  dissipative s ->
  at_rest (Stretch.updatePhysics s)
  \/ damped_step s (Stretch.updatePhysics s).
Proof.
  intros (Hf & Hb & Hg). unfold Stretch.updatePhysics.
  destruct (negb (isDetached (this s)) || isDragging (this s));
    [left; apply stopPhysics_at_rest|].
  destruct (bounce_axis _ (X _) _ _) as [newX vx] eqn:EX.
  destruct (bounce_axis _ (Y _) _ _) as [newY vy] eqn:EY.
  simpl.
  destruct (_ && _) eqn:Hslow; [left; apply stopPhysics_at_rest|].
  right. unfold damped_step, Stretch.moveWindowFreely. simpl.
  repeat split; try reflexivity.
  - apply damped_abs; [exact Hf|]. eapply bounce_axis_abs; eauto.
  - apply damped_abs; [exact Hf|]. eapply bounce_axis_abs; eauto.
  - apply not_slow, Hslow.
Qed.

Lemma StretchGravity_reattach_at_rest s :
  isDetached (this s) = true -> at_rest (StretchGravity.reattachWindow s).
Proof.
  intros H. unfold StretchGravity.reattachWindow. rewrite H. simpl.
  unfold StretchGravity.resetStretchEffect. simpl.
  apply stopPhysics_at_rest.
Qed.

Lemma StretchClean_reattach_at_rest s :
  isDetached (this s) = true -> at_rest (StretchClean.reattachWindow s).
Proof.
  intros H. unfold StretchClean.reattachWindow. rewrite H. simpl.
  unfold StretchClean.resetStretchEffect. simpl.
  apply stopPhysics_at_rest.
Qed.

Lemma StretchGravity_step s :
  dissipative s ->
  at_rest (StretchGravity.updatePhysics s)
  \/ damped_step s (StretchGravity.updatePhysics s).
Proof.
  intros (Hf & Hb & Hg). unfold StretchGravity.updatePhysics.
  destruct (isDetached (this s)) eqn:Ha; simpl;
    [|left; apply stopPhysics_at_rest].
  destruct (isDragging (this s)) eqn:Hd; simpl;
    [left; apply stopPhysics_at_rest|].
  rewrite Hg.
  destruct (bounce_axis _ (X _) _ _) as [newX vx] eqn:EX.
  destruct (bounce_axis _ (Y _) _ _) as [newY vy] eqn:EY.
  simpl.
  destruct (_ && _) eqn:Hslow; [left; apply stopPhysics_at_rest|].
  unfold StretchGravity.checkForAutoReattach.
  destruct (_ >=? _); [destruct (_ <? 2)|].
  - left. apply StretchGravity_reattach_at_rest. exact Ha.
  - right. unfold damped_step, StretchGravity.moveWindowFreely. simpl.
    repeat split; try reflexivity.
    + apply damped_abs; [exact Hf|]. eapply bounce_axis_abs; eauto.
    + apply damped_abs; [exact Hf|]. eapply bounce_axis_abs; eauto.
    + apply not_slow, Hslow.
  - right. unfold damped_step, StretchGravity.moveWindowFreely. simpl.
    repeat split; try reflexivity.
    + apply damped_abs; [exact Hf|]. eapply bounce_axis_abs; eauto.
    + apply damped_abs; [exact Hf|]. eapply bounce_axis_abs; eauto.
    + apply not_slow, Hslow.
Qed.

Lemma StretchClean_step s :
  dissipative s ->
  at_rest (StretchClean.updatePhysics s)
  \/ damped_step s (StretchClean.updatePhysics s).
Proof.
  intros (Hf & Hb & Hg). unfold StretchClean.updatePhysics.
  destruct (isDetached (this s)) eqn:Ha; simpl;
    [|left; apply stopPhysics_at_rest].
  destruct (isDragging (this s)) eqn:Hd; simpl;
    [left; apply stopPhysics_at_rest|].
  rewrite Hg.
  destruct (bounce_axis _ (X _) _ _) as [newX vx] eqn:EX.
  destruct (bounce_axis _ (Y _) _ _) as [newY vy] eqn:EY.
  simpl.
  destruct (_ && _) eqn:Hslow; [left; apply stopPhysics_at_rest|].
  unfold StretchClean.checkForAutoReattach.
  destruct (_ >=? _); [destruct (_ <? 2)|].
  - left. apply StretchClean_reattach_at_rest. exact Ha.
  - right. unfold damped_step, StretchClean.moveWindowFreely. simpl.
    repeat split; try reflexivity.
    + apply damped_abs; [exact Hf|]. eapply bounce_axis_abs; eauto.
    + apply damped_abs; [exact Hf|]. eapply bounce_axis_abs; eauto.
    + apply not_slow, Hslow.
  - right. unfold damped_step, StretchClean.moveWindowFreely. simpl.
    repeat split; try reflexivity.
    + apply damped_abs; [exact Hf|]. eapply bounce_axis_abs; eauto.
    + apply damped_abs; [exact Hf|]. eapply bounce_axis_abs; eauto.
    + apply not_slow, Hslow.
Qed.

Lemma integrators_step upd s :
  In upd integrators -> dissipative s ->
  at_rest (upd s) \/ damped_step s (upd s).
Proof.
  intros [<- | [<- | [<- | [<- | []]]]].
  - apply ShakePhysics_step.
  - apply Stretch_step.
  - apply StretchGravity_step.
  - apply StretchClean_step.
Qed.

(** ** The loop *)

Section Loop.

Variable upd : State -> State.
Hypothesis upd_step :
  forall s, dissipative s -> at_rest (upd s) \/ damped_step s (upd s).

Lemma frame_running s :
  truthy (physicsInterval (this s)) = true -> frame upd s = upd s.
Proof. unfold frame. intros ->. reflexivity. Qed.

Lemma damped_step_dissipative s s' :
  dissipative s -> damped_step s s' -> dissipative s'.
Proof.
  intros (Hf & Hb & Hg) (_ & Ef & Eb & Eg & _).
  unfold dissipative. rewrite Ef, Eb, Eg. auto.
Qed.

(** After [n + 1] frames the loop has stopped on the way, or each velocity
    component has shrunk by the factor [friction^(n+1)] and the state is
    still above the stopping condition. *)
Lemma frames_decay (n : nat) : forall s,
  dissipative s -> truthy (physicsInterval (this s)) = true ->
  (exists k, (k <= S n)%nat /\ at_rest (frames upd k s))
  \/ (let s' := frames upd (S n) s in
      Qabs (X (velocity (this s')))
      <= Qpow (friction (this s)) (S n) * Qabs (X (velocity (this s)))
      /\ Qabs (Y (velocity (this s')))
         <= Qpow (friction (this s)) (S n) * Qabs (Y (velocity (this s)))
      /\ ~ slow (velocity (this s'))).
Proof.
  induction n as [|n IH]; intros s Hs Hrun.
  - cbn [frames]. rewrite (frame_running s Hrun).
    destruct (upd_step s Hs) as [Hrest | Hstep].
    + left. exists 1%nat. split; [lia|].
      cbn [frames]. rewrite (frame_running s Hrun). exact Hrest.
    + right. destruct Hstep as (_ & _ & _ & _ & HX & HY & Hslow).
      cbn [Qpow]. repeat split; try assumption; lra.
  - destruct (upd_step s Hs) as [Hrest | Hstep].
    + left. exists 1%nat. split; [lia|].
      cbn [frames]. rewrite (frame_running s Hrun). exact Hrest.
    + assert (Hs' : dissipative (upd s))
        by (eapply damped_step_dissipative; eauto).
      destruct Hstep as (Ei & Ef & _ & _ & HX & HY & _).
      assert (Hrun' : truthy (physicsInterval (this (upd s))) = true).
      { rewrite Ei. exact Hrun. }
      destruct (IH (upd s) Hs' Hrun') as [(k & Hk & Hrest) | (BX & BY & Hslow)].
      * left. exists (S k). split; [lia|].
        cbn [frames]. rewrite (frame_running s Hrun). exact Hrest.
      * right. change (frames upd (S (S n)) s)
          with (frames upd (S n) (frame upd s)).
        rewrite (frame_running s Hrun). cbv zeta.
        rewrite Ef in BX, BY.
        destruct Hs as (Hf & _).
        pose proof (Qpow_pos (friction (this s)) (S n) (proj1 Hf)) as HP.
        change (Qpow (friction (this s)) (S (S n)))
          with (friction (this s) * Qpow (friction (this s)) (S n)).
        set (P := Qpow (friction (this s)) (S n)) in *.
        repeat split; try assumption; nra.
Qed.

(** From any velocity, the running loop comes to rest in finitely many
    frames. *)
Lemma frames_terminate s :
  dissipative s -> truthy (physicsInterval (this s)) = true -> exists n, at_rest (frames upd n s).
Proof.
  intros Hs Hrun.
  pose proof Hs as (Hf & _).
  set (a := Qabs (X (velocity (this s))) + Qabs (Y (velocity (this s)))).
  pose proof (Qabs_nonneg (X (velocity (this s)))) as HX0.
  pose proof (Qabs_nonneg (Y (velocity (this s)))) as HY0.
  destruct (Qpow_small (friction (this s)) a 0.1 Hf) as [n Hn];
    [unfold a; lra | lra |].
  destruct (frames_decay n s Hs Hrun) as [(k & _ & Hrest) | (BX & BY & Hslow)].
  - exists k. exact Hrest.
  - exfalso. apply Hslow.
    pose proof (Qpow_pos (friction (this s)) (S n) (proj1 Hf)) as HP.
    set (P := Qpow (friction (this s)) (S n)) in *.
    unfold a in Hn. split; nra.
Qed.

(** A step from a velocity that is not zero strictly lowers the speed. *)
Lemma step_slows_down s :
  dissipative s -> 0 < speed2 (velocity (this s)) ->
  speed2 (velocity (this (upd s))) < speed2 (velocity (this s)).
Proof.
  intros Hs Hv. destruct (upd_step s Hs) as [[_ Hrest] | Hstep].
  - rewrite Hrest. unfold speed2 at 1. simpl. lra.
  - destruct Hstep as (_ & _ & _ & _ & HX & HY & _).
    destruct Hs as (Hf & _).
    unfold speed2 in *.
    set (x := X (velocity (this s))) in *.
    set (y := Y (velocity (this s))) in *.
    set (x' := X (velocity (this (upd s)))) in *.
    set (y' := Y (velocity (this (upd s)))) in *.
    set (f := friction (this s)) in *.
    assert (Hsq : forall u u', Qabs u' <= f * Qabs u ->
                    u' * u' <= f * f * (u * u)).
    { intros u u' H.
      pose proof (Qabs_nonneg u'). pose proof (Qabs_nonneg u).
      assert (E' : u' * u' == Qabs u' * Qabs u').
      { rewrite <- Qabs_Qmult. symmetry. apply Qabs_pos. nra. }
      assert (E : u * u == Qabs u * Qabs u).
      { rewrite <- Qabs_Qmult. symmetry. apply Qabs_pos. nra. }
      rewrite E', E. nra. }
    pose proof (Hsq x x' HX). pose proof (Hsq y y' HY).
    assert (f * f < 1) by nra.
    assert (0 <= x * x) by nra. assert (0 <= y * y) by nra.
    nra.
Qed.

End Loop.

Lemma frames_at_rest upd s n : at_rest s -> frames upd n s = s.
Proof.
  intros [Hi _]. induction n as [|n IH]; cbn [frames]; [reflexivity|].
  unfold frame. rewrite Hi. exact IH.
Qed.

Lemma frames_plus upd n m s :
  frames upd (n + m) s = frames upd m (frames upd n s).
Proof.
  revert s. induction n as [|n IH]; intros s; cbn [frames Nat.add];
    [reflexivity | apply IH].
Qed.

(** C3, as the code has it.  With gravity off and bounce and friction
    strictly between 0 and 1, a physics step taken at a velocity that is not
    zero strictly lowers the speed (compared through its square); and from
    any velocity the running loop stops after finitely many frames: the
    interval is cleared, the velocity is exactly (0, 0), and further frames
    change nothing.  A step taken at velocity (0, 0) leaves the speed at 0,
    so "every step strictly decreases" holds only away from rest. *)
Theorem physics_dissipates (upd : State -> State) (s : State) :
  In upd integrators ->
  dissipative s ->
  (0 < speed2 (velocity (this s)) ->
   speed2 (velocity (this (upd s))) < speed2 (velocity (this s)))
  /\ (truthy (physicsInterval (this s)) = true ->
      exists n, at_rest (frames upd n s)
                /\ forall m, (n <= m)%nat -> frames upd m s = frames upd n s).
Proof.
  intros Hin Hs.
  assert (Hstep : forall s, dissipative s ->
                    at_rest (upd s) \/ damped_step s (upd s))
    by (intros s'; apply integrators_step, Hin).
  split.
  - apply step_slows_down; assumption.
  - intros Hrun.
    destruct (frames_terminate upd Hstep s Hs Hrun) as [n Hn].
    exists n. split; [exact Hn|].
    intros m Hm. replace m with (n + (m - n))%nat by lia.
    rewrite frames_plus. apply frames_at_rest, Hn.
Qed.

(** A throw in the clean version: detach by a stretch, drag up and to the
    right, release. *)
Lemma physics_dissipates_witness :
  let s := StretchCleanLoop.run
             [MouseDown (mouse 150 500); MouseMove (mouse 150 440);
              MouseMove (mouse 170 50); MouseUp (mouse 170 50)]
             (StretchCleanLoop.create chat_window desktop) in
  velocity (this s) = {| X := (170 - 150) * 0.3; Y := (50 - 150) * 0.3 |}
  /\ speed2 (velocity (this (StretchClean.updatePhysics s)))
     < speed2 (velocity (this s))
  /\ exists n, at_rest (frames StretchClean.updatePhysics n s).
Proof.
  intros s.
  assert (Hin : In StretchClean.updatePhysics integrators)
    by (right; right; right; left; reflexivity).
  assert (Hs : dissipative s)
    by (vm_compute; repeat split; reflexivity).
  destruct (physics_dissipates _ s Hin Hs) as [Hslower Hstops].
  split; [reflexivity|]. split.
  - apply Hslower. vm_compute. reflexivity.
  - destruct Hstops as (n & Hn & _); [reflexivity|].
    exists n. exact Hn.
Defined.

(** At rest a step cannot lower the speed: it is 0 before and after. *)
Lemma step_at_zero_velocity_keeps_speed :
  let s := ShakePhysics.startPhysics
             (ShakePhysics.detachWindow
                (ShakePhysicsLoop.create chat_window desktop)) in
  dissipative s
  /\ isDetached (this s) = true
  /\ isDragging (this s) = false
  /\ truthy (physicsInterval (this s)) = true
  /\ speed2 (velocity (this s)) == 0
  /\ speed2 (velocity (this (ShakePhysics.updatePhysics s))) == 0
  /\ ~ speed2 (velocity (this (ShakePhysics.updatePhysics s)))
       < speed2 (velocity (this s)).
Proof.
  vm_compute. repeat split; try reflexivity; discriminate.
Qed.

(** ** Layout after style assignments *)

Lemma style_of_style_set p v s :
  style (elem (style_set p v s))
  = match v with [] => delete p (style (elem s)) | _ => <[p := v]> (style (elem s)) end.
Proof. reflexivity. Qed.

Lemma layout_left_set_left q s : layout_left (style_set "left" (px q) s) = q.
Proof.
  unfold layout_left. rewrite style_of_style_set. unfold px.
  rewrite lookup_insert_eq. reflexivity.
Qed.

Lemma layout_left_set_other p v s :
  p <> "left" -> layout_left (style_set p v s) = layout_left s.
Proof.
  intros Hp. unfold layout_left. rewrite style_of_style_set.
  destruct v; [rewrite lookup_delete_ne | rewrite lookup_insert_ne];
    auto.
Qed.

Lemma layout_top_set_other p v s :
  p <> "top" -> p <> "bottom" -> layout_top (style_set p v s) = layout_top s.
Proof.
  intros Ht Hb. unfold layout_top. rewrite style_of_style_set.
  destruct v; [rewrite !lookup_delete_ne | rewrite !lookup_insert_ne];
    auto.
Qed.











(** The same lines on an input the code receives: in the clean version
    a window thrown against the right wall leaves the step on the wall with
    the reflected velocity damped by the friction, [-v * bounce * friction],
    and not with [-v * bounce]. *)
Lemma StretchClean_bounce_on_throw :
  let s := StretchCleanLoop.run thrown_right
             (StretchCleanLoop.create chat_window desktop) in
  let s' := StretchCleanLoop.handle (Tick 2) s in
  let v := X (velocity (this s)) in
  isDetached (this s) = true
  /\ isDragging (this s) = false
  /\ intervals (browser s) = [2%positive]
  /\ rect_left (getBoundingClientRect s)
     == innerWidth (browser s) - offsetWidth (elem s)
  /\ v == 122.7
  /\ rect_left (getBoundingClientRect s')
     == innerWidth (browser s) - offsetWidth (elem s)
  /\ X (velocity (this s')) == - v * bounce (this s) * friction (this s)
  /\ - v * bounce (this s) < X (velocity (this s')) < 0.
Proof.
  vm_compute. repeat split; try reflexivity; discriminate.
Qed.

(** ** The reattachment checks *)

Lemma speed_zero (v : Vec) : X v == 0 -> Y v == 0 -> speed v == 0.
Proof.
  intros Hx Hy. unfold speed. apply Math_sqrt_0. rewrite Hx, Hy. reflexivity.
Qed.

Lemma StretchGravity_reattach_flag s :
  isDetached (this (StretchGravity.reattachWindow s)) = false.
Proof.
  unfold StretchGravity.reattachWindow.
  destruct (isDetached (this s)) eqn:E; simpl; [reflexivity | exact E].
Qed.

Lemma StretchClean_reattach_flag s :
  isDetached (this (StretchClean.reattachWindow s)) = false.
Proof.
  unfold StretchClean.reattachWindow.
  destruct (isDetached (this s)) eqn:E; simpl; [reflexivity | exact E].
Qed.

Lemma bounce_axis_inside (p v m b : Q) :
  0 < p < m -> bounce_axis p v m b = (p, v).
Proof.
  intros [H0 Hm]. unfold bounce_axis, Qgeb.
  destruct (p <=? 0) eqn:E1; qprop; [lra|].
  destruct (m <=? p) eqn:E2; qprop; [lra | reflexivity].
Qed.

Lemma slow_test (v : Vec) :
  (Math_abs (X v) <? 0.1) && (Math_abs (Y v) <? 0.1) = true <-> slow v.
Proof.
  unfold slow. rewrite andb_true_iff, !Qltb_true, !Math_abs_Qabs. tauto.
Qed.

Lemma Math_clamp_bounds (m x : Q) :
  0 <= Math_max 0 (Math_min m x)
  /\ (0 <= m -> Math_max 0 (Math_min m x) <= m)
  /\ (0 <= x <= m -> Math_max 0 (Math_min m x) == x).
Proof.
  unfold Math_max, Math_min.
  destruct (m <=? x) eqn:E1; qprop.
  - destruct (0 <=? m) eqn:E2; qprop; repeat split; intros; lra.
  - destruct (0 <=? x) eqn:E2; qprop; repeat split; intros; lra.
Qed.

Lemma isDetached_stopPhysics s :
  isDetached (this (stopPhysics s)) = isDetached (this s).
Proof. unfold stopPhysics. destruct (physicsInterval (this s)); reflexivity. Qed.

Lemma layout_top_set_top q s : layout_top (style_set "top" (px q) s) = q.
Proof.
  unfold layout_top. rewrite style_of_style_set. unfold px.
  rewrite lookup_insert_eq. reflexivity.
Qed.

Lemma layout_top_set_bottom q v s :
  layout_top (style_set "bottom" v (style_set "top" (px q) s)) = q.
Proof.
  unfold layout_top. rewrite !style_of_style_set. unfold px.
  destruct v; [rewrite lookup_delete_ne by discriminate
              | rewrite lookup_insert_ne by discriminate];
    rewrite lookup_insert_eq; reflexivity.
Qed.

(** The continuous check of version 2 on a detached window. *)
Lemma StretchGravity_auto_iff s :
  isDetached (this s) = true ->
  isDetached (this (StretchGravity.checkForAutoReattach s)) = false
  <-> innerHeight (browser s) - 100 <= rect_bottom (getBoundingClientRect s)
      /\ speed (velocity (this s)) < 2.
Proof.
  intros Ha. unfold StretchGravity.checkForAutoReattach, Qgeb. cbv zeta.
  destruct (_ <=? _) eqn:Ez; [destruct (_ <? 2) eqn:Es|]; qprop.
  - rewrite StretchGravity_reattach_flag. tauto.
  - rewrite Ha. split; [discriminate | intros [_ H]; lra].
  - rewrite Ha. split; [discriminate | intros [H _]; lra].
Qed.

Lemma StretchClean_auto_iff s :
  isDetached (this s) = true ->
  isDetached (this (StretchClean.checkForAutoReattach s)) = false
  <-> innerHeight (browser s) - 80 <= rect_bottom (getBoundingClientRect s)
      /\ speed (velocity (this s)) < 2.
Proof.
  intros Ha. unfold StretchClean.checkForAutoReattach, Qgeb. cbv zeta.
  destruct (_ <=? _) eqn:Ez; [destruct (_ <? 2) eqn:Es|]; qprop.
  - rewrite StretchClean_reattach_flag. tauto.
  - rewrite Ha. split; [discriminate | intros [_ H]; lra].
  - rewrite Ha. split; [discriminate | intros [H _]; lra].
Qed.

(** The bottom edge after [moveWindowFreely] to a place inside the
    viewport. *)
Lemma StretchGravity_moved_bottom x y s :
  0 < y < innerHeight (browser s) - offsetHeight (elem s) ->
  rect_bottom (getBoundingClientRect (StretchGravity.moveWindowFreely x y s))
  == y + offsetHeight (elem s).
Proof.
  intros Hy. unfold getBoundingClientRect, StretchGravity.moveWindowFreely.
  cbn [rect_bottom]. cbv zeta.
  rewrite layout_top_set_other by discriminate.
  rewrite layout_top_set_bottom.
  destruct (Math_clamp_bounds
              (innerHeight (browser s) - offsetHeight (elem s)) y)
    as (_ & _ & H).
  assert (Hc := H (conj (Qlt_le_weak _ _ (proj1 Hy))
                         (Qlt_le_weak _ _ (proj2 Hy)))).
  apply Qplus_comp; [exact Hc | reflexivity].
Qed.

Lemma StretchClean_moved_bottom x y s :
  0 < y < innerHeight (browser s) - offsetHeight (elem s) ->
  rect_bottom (getBoundingClientRect (StretchClean.moveWindowFreely x y s))
  == y + offsetHeight (elem s).
Proof.
  intros Hy. unfold getBoundingClientRect, StretchClean.moveWindowFreely.
  cbn [rect_bottom]. cbv zeta.
  rewrite layout_top_set_bottom.
  destruct (Math_clamp_bounds
              (innerHeight (browser s) - offsetHeight (elem s)) y)
    as (_ & _ & H).
  assert (Hc := H (conj (Qlt_le_weak _ _ (proj1 Hy))
                         (Qlt_le_weak _ _ (proj2 Hy)))).
  apply Qplus_comp; [exact Hc | reflexivity].
Qed.

(** The end of a step of version 2, from the stopping test on. *)
Lemma StretchGravity_step_end (x y : Q) (s : State) :
  isDetached (this s) = true ->
  0 < y < innerHeight (browser s) - offsetHeight (elem s) ->
  let s' :=
    if (Math_abs (X (velocity (this s))) <? 0.1)
       && (Math_abs (Y (velocity (this s))) <? 0.1)
    then stopPhysics s
    else StretchGravity.checkForAutoReattach
           (StretchGravity.moveWindowFreely x y s) in
  (slow (velocity (this s)) -> isDetached (this s') = true /\ at_rest s')
  /\ (~ slow (velocity (this s)) ->
      (isDetached (this s') = false
       <-> innerHeight (browser s) - 100 <= y + offsetHeight (elem s)
           /\ speed (velocity (this s)) < 2)).
Proof.
  intros Ha Hy s'. subst s'.
  destruct (_ && _) eqn:Hslow.
  - apply slow_test in Hslow. split; [|tauto].
    intros _. rewrite isDetached_stopPhysics.
    split; [exact Ha | apply stopPhysics_at_rest].
  - assert (Hn : ~ slow (velocity (this s))).
    { intros H. apply slow_test in H. congruence. }
    split; [tauto|]. intros _.
    rewrite StretchGravity_auto_iff by exact Ha.
    rewrite StretchGravity_moved_bottom by exact Hy.
    reflexivity.
Qed.

Lemma StretchClean_step_end (x y : Q) (s : State) :
  isDetached (this s) = true ->
  0 < y < innerHeight (browser s) - offsetHeight (elem s) ->
  let s' :=
    if (Math_abs (X (velocity (this s))) <? 0.1)
       && (Math_abs (Y (velocity (this s))) <? 0.1)
    then stopPhysics s
    else StretchClean.checkForAutoReattach
           (StretchClean.moveWindowFreely x y s) in
  (slow (velocity (this s)) -> isDetached (this s') = true /\ at_rest s')
  /\ (~ slow (velocity (this s)) ->
      (isDetached (this s') = false
       <-> innerHeight (browser s) - 80 <= y + offsetHeight (elem s)
           /\ speed (velocity (this s)) < 2)).
Proof.
  intros Ha Hy s'. subst s'.
  destruct (_ && _) eqn:Hslow.
  - apply slow_test in Hslow. split; [|tauto].
    intros _. rewrite isDetached_stopPhysics.
    split; [exact Ha | apply stopPhysics_at_rest].
  - assert (Hn : ~ slow (velocity (this s))).
    { intros H. apply slow_test in H. congruence. }
    split; [tauto|]. intros _.
    rewrite StretchClean_auto_iff by exact Ha.
    rewrite StretchClean_moved_bottom by exact Hy.
    reflexivity.
Qed.

(** Finishes a free-flight step from the lemma on its end. *)
Ltac step_end lemma Ha Hy0 Hy1 :=
  match goal with
  | |- context [if _ then stopPhysics ?t else _ (_ ?x ?y ?t)] =>
      destruct (lemma x y t Ha (conj Hy0 Hy1)) as [T1 T2];
      split;
      [ exact T1
      | intros Hn; etransitivity; [exact (T2 Hn)|];
        cbn [getBoundingClientRect rect_bottom];
        split; intros [A B]; (split; [|exact B]);
        cbn [this elem browser on_this] in *; lra ]
  end.

Lemma StretchGravity_free_step s :
  isDetached (this s) = true ->
  isDragging (this s) = false ->
  free_flight s (StretchGravity_pull s) ->
  continuous_check StretchGravity.updatePhysics StretchGravity_pull 100 s.
Proof.
  intros Ha Hd [[Hx0 Hx1] [Hy0 Hy1]].
  unfold continuous_check, after_friction.
  unfold StretchGravity.updatePhysics. rewrite Ha, Hd. simpl.
  unfold StretchGravity_pull in *.
  destruct (gravityEnabled (this s)) eqn:Hg; simpl in *;
    rewrite !bounce_axis_inside by (split; assumption);
    cbv zeta.
  - step_end StretchGravity_step_end Ha Hy0 Hy1.
  - step_end StretchGravity_step_end Ha Hy0 Hy1.
Qed.

Lemma StretchClean_free_step s :
  isDetached (this s) = true ->
  isDragging (this s) = false ->
  free_flight s (StretchClean_pull s) ->
  continuous_check StretchClean.updatePhysics StretchClean_pull 80 s.
Proof.
  intros Ha Hd [[Hx0 Hx1] [Hy0 Hy1]].
  unfold continuous_check, after_friction.
  unfold StretchClean.updatePhysics. rewrite Ha, Hd. simpl.
  unfold StretchClean_pull in *.
  destruct (gravityEnabled (this s)) eqn:Hg; simpl in *;
    rewrite !bounce_axis_inside by (split; assumption);
    cbv zeta.
  - step_end StretchClean_step_end Ha Hy0 Hy1.
  - step_end StretchClean_step_end Ha Hy0 Hy1.
Qed.


Lemma bounce_axis_still (p v m b p' v' : Q) :
  v == 0 -> bounce_axis p v m b = (p', v') -> v' == 0.
Proof.
  intros Hv. unfold bounce_axis.
  destruct (p <=? 0); [|destruct (p >=? m)]; intros [= <- <-];
    rewrite ?Hv; try reflexivity; exact Hv.
Qed.

Lemma slow_still (vx vy f : Q) :
  vx == 0 -> vy == 0 ->
  (Math_abs (vx * f) <? 0.1) && (Math_abs (vy * f) <? 0.1) = true.
Proof.
  intros Hx Hy. apply andb_true_iff.
  split; apply Qltb_true; rewrite Math_abs_Qabs, ?Hx, ?Hy;
    vm_compute; reflexivity.
Qed.

(** A step on a window at rest, gravity off: the loop stops before the
    continuous check, wherever the window is. *)
Lemma StretchGravity_still_step s :
  isDetached (this s) = true -> isDragging (this s) = false ->
  gravityEnabled (this s) = false ->
  X (velocity (this s)) == 0 -> Y (velocity (this s)) == 0 ->
  isDetached (this (StretchGravity.updatePhysics s)) = true
  /\ at_rest (StretchGravity.updatePhysics s).
Proof.
  intros Ha Hd Hg Hx Hy.
  unfold StretchGravity.updatePhysics. rewrite Ha, Hd, Hg. simpl.
  destruct (bounce_axis _ (X _) _ _) as [newX vx] eqn:EX.
  destruct (bounce_axis _ (Y _) _ _) as [newY vy] eqn:EY.
  simpl.
  rewrite slow_still
    by (eapply bounce_axis_still; [|eassumption]; assumption).
  rewrite isDetached_stopPhysics.
  split; [exact Ha | apply stopPhysics_at_rest].
Qed.

Lemma StretchClean_still_step s :
  isDetached (this s) = true -> isDragging (this s) = false ->
  gravityEnabled (this s) = false ->
  X (velocity (this s)) == 0 -> Y (velocity (this s)) == 0 ->
  isDetached (this (StretchClean.updatePhysics s)) = true
  /\ at_rest (StretchClean.updatePhysics s).
Proof.
  intros Ha Hd Hg Hx Hy.
  unfold StretchClean.updatePhysics. rewrite Ha, Hd, Hg. simpl.
  destruct (bounce_axis _ (X _) _ _) as [newX vx] eqn:EX.
  destruct (bounce_axis _ (Y _) _ _) as [newY vy] eqn:EY.
  simpl.
  rewrite slow_still
    by (eapply bounce_axis_still; [|eassumption]; assumption).
  rewrite isDetached_stopPhysics.
  split; [exact Ha | apply stopPhysics_at_rest].
Qed.

(** The box is where it was once the drag has ended and the loop has been
    started. *)
Lemma StretchClean_rect_released s :
  let s' := StretchClean.startPhysics
              (classList_remove "moving"
                 (style_set "cursor" [] (on_this (set_isDragging false) s))) in
  getBoundingClientRect s' = getBoundingClientRect s
  /\ innerHeight (browser s') = innerHeight (browser s)
  /\ isDetached (this s') = isDetached (this s).
Proof.
  assert (Hl : layout_left (style_set "cursor" []
                              (on_this (set_isDragging false) s))
               = layout_left s)
    by (rewrite layout_left_set_other by discriminate; reflexivity).
  assert (Ht : layout_top (style_set "cursor" []
                             (on_this (set_isDragging false) s))
               = layout_top s)
    by (rewrite layout_top_set_other by discriminate; reflexivity).
  unfold StretchClean.startPhysics.
  destruct (truthy _); cbv zeta; unfold getBoundingClientRect;
    (split; [|split; reflexivity]).
  - change (layout_left (classList_remove ?c ?u)) with (layout_left u).
    change (layout_top (classList_remove ?c ?u)) with (layout_top u).
    rewrite Hl, Ht. reflexivity.
  - cbn [setInterval].
    change (layout_left (on_this ?f (on_browser ?g (classList_remove ?c ?u))))
      with (layout_left u).
    change (layout_top (on_this ?f (on_browser ?g (classList_remove ?c ?u))))
      with (layout_top u).
    rewrite Hl, Ht. reflexivity.
Qed.

(** The release of the clean version: its check looks at the place only. *)
Lemma StretchClean_release_iff e s :
  isDragging (this s) = true -> isDetached (this s) = true ->
  isDetached (this (StretchClean.endDrag e s)) = false
  <-> innerHeight (browser s) - 100 <= rect_bottom (getBoundingClientRect s).
Proof.
  intros Hd Ha. unfold StretchClean.endDrag. rewrite Hd. simpl.
  rewrite Ha, andb_false_r.
  destruct (StretchClean_rect_released s) as (Hr & Hh & Hdet).
  cbv zeta in Hr, Hh, Hdet.
  unfold StretchClean.checkForSlamReattach, Qgeb. cbv zeta.
  rewrite Hr, Hh.
  destruct (_ <=? _) eqn:Ez; qprop;
    cbn [getBoundingClientRect rect_bottom] in Ez |- *.
  - rewrite StretchClean_reattach_flag. tauto.
  - rewrite Hdet, Ha. split; [discriminate | intros H; exfalso; lra].
Qed.

(** *** The sweeps *)

Lemma Math_clamp_low (m x : Q) :
  0 <= m -> x <= 0 -> Math_max 0 (Math_min m x) == 0.
Proof.
  intros Hm Hx. unfold Math_max, Math_min.
  destruct (m <=? x) eqn:E1; qprop.
  - destruct (0 <=? m) eqn:E2; qprop; lra.
  - destruct (0 <=? x) eqn:E2; qprop; lra.
Qed.

Lemma Math_clamp_high (m x : Q) :
  0 <= m -> m <= x -> Math_max 0 (Math_min m x) == m.
Proof.
  intros Hm Hx. unfold Math_max, Math_min.
  destruct (m <=? x) eqn:E1; qprop.
  - destruct (0 <=? m) eqn:E2; qprop; lra.
  - destruct (0 <=? x) eqn:E2; qprop; lra.
Qed.

(** A move of a detached window in versions 2 and 4: the box goes where
    the pointer delta leads, clamped to the viewport. *)
Lemma Stretch_drag_detached e s :
  isDragging (this s) = true -> isDetached (this s) = true ->
  let s' := Stretch.drag e s in
  layout_left s'
  = Math_max 0 (Math_min (innerWidth (browser s) - offsetWidth (elem s))
                  (layout_left s + (clientX e - lastMouseX (this s))))
  /\ layout_top s'
     = Math_max 0 (Math_min (innerHeight (browser s) - offsetHeight (elem s))
                     (layout_top s + (clientY e - lastMouseY (this s))))
  /\ lastMouseX (this s') = clientX e /\ lastMouseY (this s') = clientY e
  /\ isDragging (this s') = true /\ isDetached (this s') = true
  /\ browser s' = browser s
  /\ offsetWidth (elem s') = offsetWidth (elem s)
  /\ offsetHeight (elem s') = offsetHeight (elem s).
Proof.
  intros Hd Ha s'. subst s'. unfold Stretch.drag. rewrite Hd. cbn [negb].
  cbv zeta. rewrite Ha.
  cbn [this on_this isDetached set_lastMouseX set_lastMouseY set_velocity].
  rewrite Ha. unfold Stretch.moveWindowFreely. cbv zeta.
  repeat split; try reflexivity; try assumption.
  - rewrite !layout_left_set_other by discriminate.
    rewrite layout_left_set_left. reflexivity.
  - rewrite layout_top_set_other by discriminate.
    rewrite layout_top_set_bottom. reflexivity.
Qed.

Lemma StretchGravity_drag_detached sin e s :
  isDragging (this s) = true -> isDetached (this s) = true ->
  let s' := StretchGravity.drag sin e s in
  layout_left s'
  = Math_max 0 (Math_min (innerWidth (browser s) - offsetWidth (elem s))
                  (layout_left s + (clientX e - lastMouseX (this s))))
  /\ layout_top s'
     = Math_max 0 (Math_min (innerHeight (browser s) - offsetHeight (elem s))
                     (layout_top s + (clientY e - lastMouseY (this s))))
  /\ lastMouseX (this s') = clientX e /\ lastMouseY (this s') = clientY e
  /\ isDragging (this s') = true /\ isDetached (this s') = true
  /\ browser s' = browser s
  /\ offsetWidth (elem s') = offsetWidth (elem s)
  /\ offsetHeight (elem s') = offsetHeight (elem s).
Proof.
  intros Hd Ha s'. subst s'. unfold StretchGravity.drag. rewrite Hd.
  cbn [negb]. cbv zeta. rewrite Ha.
  cbn [this on_this isDetached set_lastMouseX set_lastMouseY set_velocity].
  rewrite Ha. unfold StretchGravity.moveWindowFreely. cbv zeta.
  repeat split; try reflexivity; try assumption.
  - rewrite !layout_left_set_other by discriminate.
    rewrite layout_left_set_left. reflexivity.
  - rewrite layout_top_set_other by discriminate.
    rewrite layout_top_set_bottom. reflexivity.
Qed.

(** The two sweeps of [to_corner] leave a detached window of versions 2
    and 4 in the top left corner wherever it was before, and so whatever
    rectangle was read when it detached. *)
Lemma sweeps_reach_corner (Math_sin : Q -> Q)
    (drag : MouseEvent -> State -> State) (s : State) :
  In drag [Stretch.drag; StretchGravity.drag Math_sin] ->
  isDragging (this s) = true -> isDetached (this s) = true ->
  0 <= innerWidth (browser s) - offsetWidth (elem s) <= 799 ->
  0 <= innerHeight (browser s) - offsetHeight (elem s) <= 599 ->
  let s' := drag (mouse 0 0) (drag (mouse 799 599) s) in
  layout_left s' == 0 /\ layout_top s' == 0.
Proof.
  intros Hin Hd Ha Hx Hy.
  assert (Hstep : forall e t,
    isDragging (this t) = true -> isDetached (this t) = true ->
    let t' := drag e t in
    layout_left t'
    = Math_max 0 (Math_min (innerWidth (browser t) - offsetWidth (elem t))
                    (layout_left t + (clientX e - lastMouseX (this t))))
    /\ layout_top t'
       = Math_max 0 (Math_min (innerHeight (browser t) - offsetHeight (elem t))
                       (layout_top t + (clientY e - lastMouseY (this t))))
    /\ lastMouseX (this t') = clientX e /\ lastMouseY (this t') = clientY e
    /\ isDragging (this t') = true /\ isDetached (this t') = true
    /\ browser t' = browser t
    /\ offsetWidth (elem t') = offsetWidth (elem t)
    /\ offsetHeight (elem t') = offsetHeight (elem t)).
  { destruct Hin as [<- | [<- | []]].
    - apply Stretch_drag_detached.
    - apply StretchGravity_drag_detached. }
  destruct (Hstep (mouse 799 599) s Hd Ha)
    as (Hl1 & Ht1 & Hmx & Hmy & Hd1 & Ha1 & Hb1 & Hw1 & Hh1).
  destruct (Hstep (mouse 0 0) _ Hd1 Ha1) as (Hl2 & Ht2 & _).
  cbv zeta. rewrite Hl2, Ht2, Hl1, Ht1, Hmx, Hmy, Hb1, Hw1, Hh1.
  cbn [mouse clientX clientY].
  set (maxX := innerWidth (browser s) - offsetWidth (elem s)) in *.
  set (maxY := innerHeight (browser s) - offsetHeight (elem s)) in *.
  destruct (Math_clamp_bounds maxX (layout_left s + (799 - lastMouseX (this s))))
    as (_ & HX & _).
  destruct (Math_clamp_bounds maxY (layout_top s + (599 - lastMouseY (this s))))
    as (_ & HY & _).
  split; apply Math_clamp_low; lra.
Qed.

(** In the clean version the place follows the pointer from where the
    button went down: the move of [to_corner] puts the window in the top
    left corner and the move of [to_floor] on the floor, for any rectangle
    read when the window detached that starts left of and above the one
    and not far above the other. *)
Lemma StretchClean_drag_detached e s :
  isDragging (this s) = true -> isDetached (this s) = true ->
  let s' := StretchClean.drag e s in
  layout_left s'
  = Math_max 0 (Math_min (innerWidth (browser s) - offsetWidth (elem s))
                  (windowStartX (this s) + (clientX e - dragStartX (this s))))
  /\ layout_top s'
     = Math_max 0 (Math_min (innerHeight (browser s) - offsetHeight (elem s))
                     (windowStartY (this s)
                      + (clientY e - dragStartY (this s)))).
Proof.
  intros Hd Ha s'. subst s'. unfold StretchClean.drag. rewrite Hd.
  cbn [negb]. cbv zeta. rewrite Ha.
  unfold StretchClean.moveWindowFreely. cbv zeta.
  split.
  - change (layout_left (on_this ?f ?t)) with (layout_left t).
    rewrite !layout_left_set_other by discriminate.
    rewrite layout_left_set_left. reflexivity.
  - change (layout_top (on_this ?f ?t)) with (layout_top t).
    rewrite layout_top_set_bottom. reflexivity.
Qed.

Lemma StretchClean_moves_reach (s : State) :
  isDragging (this s) = true -> isDetached (this s) = true ->
  let maxX := innerWidth (browser s) - offsetWidth (elem s) in
  let maxY := innerHeight (browser s) - offsetHeight (elem s) in
  0 <= maxX -> 0 <= maxY ->
  (windowStartX (this s) <= dragStartX (this s) ->
   windowStartY (this s) <= dragStartY (this s) ->
   layout_left (StretchClean.drag (mouse 0 0) s) == 0
   /\ layout_top (StretchClean.drag (mouse 0 0) s) == 0)
  /\ (maxY <= windowStartY (this s) + (599 - dragStartY (this s)) ->
      layout_top (StretchClean.drag (mouse 110 599) s) == maxY).
Proof.
  intros Hd Ha maxX maxY Hx Hy.
  split.
  - intros Hl Ht.
    destruct (StretchClean_drag_detached (mouse 0 0) s Hd Ha) as [-> ->].
    cbn [mouse clientX clientY].
    split; apply Math_clamp_low; try assumption; lra.
  - intros Ht.
    destruct (StretchClean_drag_detached (mouse 110 599) s Hd Ha) as [_ ->].
    cbn [mouse clientX clientY].
    apply Math_clamp_high; assumption.
Qed.

(** C4, as the code has it.  On a detached window:
    - at release, the clean version reattaches exactly when the bottom
      edge is inside its dock zone, whatever the speed, while the slam
      checks of the other two stretch versions ask for speed and leave a
      window at speed 0 as it is, wherever it is;
    - during free physics, a step on a window at rest (gravity off) stops
      the loop before the continuous check and leaves the window detached,
      inside the dock zone too; a step in free flight that ends below the
      stopping condition does the same, and any other step in free flight
      reattaches exactly when the moved window reaches into the dock zone
      and is slower than 2;
    - with the bottom edge outside the dock zone of a check, that check
      changes nothing, whatever the speed. *)
Theorem reattach_checks (e : MouseEvent) (s : State) :
  isDetached (this s) = true ->
  let bottom := rect_bottom (getBoundingClientRect s) in
  let height := innerHeight (browser s) in
  let still := X (velocity (this s)) == 0 /\ Y (velocity (this s)) == 0 in
  (isDragging (this s) = true ->
   (isDetached (this (StretchClean.endDrag e s)) = false
    <-> height - 100 <= bottom))
  /\ (still ->
      StretchGravity.checkForSlamReattach e s = s
      /\ Stretch.checkForSlamReattach e s = s)
  /\ (isDragging (this s) = false -> gravityEnabled (this s) = false ->
      still ->
      (isDetached (this (StretchGravity.updatePhysics s)) = true
       /\ at_rest (StretchGravity.updatePhysics s))
      /\ (isDetached (this (StretchClean.updatePhysics s)) = true
          /\ at_rest (StretchClean.updatePhysics s)))
  /\ (isDragging (this s) = false ->
      free_flight s (StretchGravity_pull s) ->
      continuous_check StretchGravity.updatePhysics StretchGravity_pull 100 s)
  /\ (isDragging (this s) = false ->
      free_flight s (StretchClean_pull s) ->
      continuous_check StretchClean.updatePhysics StretchClean_pull 80 s)
  /\ (bottom < height - 100 -> StretchGravity.checkForAutoReattach s = s)
  /\ (bottom < height - 120 -> StretchGravity.checkForSlamReattach e s = s)
  /\ (80 <= Qabs (bottom - height) -> Stretch.checkForSlamReattach e s = s)
  /\ (bottom < height - 80 -> StretchClean.checkForAutoReattach s = s)
  /\ (bottom < height - 100 -> StretchClean.checkForSlamReattach s = s).
Proof.
  intros Ha bottom height still. subst bottom height still.
  repeat match goal with |- _ /\ _ => split end.
  - intros Hd. apply StretchClean_release_iff; assumption.
  - intros [Hx Hy].
    assert (H3 : (speed (velocity (this s)) >? 3) = false).
    { apply Qltb_false. rewrite (speed_zero _ Hx Hy). discriminate. }
    assert (H8 : (speed (velocity (this s)) >? 8) = false).
    { apply Qltb_false. rewrite (speed_zero _ Hx Hy). discriminate. }
    assert (Hdown : (Y (velocity (this s)) >? 0) = false).
    { apply Qltb_false. rewrite Hy. discriminate. }
    unfold StretchGravity.checkForSlamReattach, Stretch.checkForSlamReattach.
    rewrite H3, H8, Hdown, !andb_false_r. split; reflexivity.
  - intros Hd Hg [Hx Hy]. split.
    + apply StretchGravity_still_step; assumption.
    + apply StretchClean_still_step; assumption.
  - intros Hd Hf. apply StretchGravity_free_step; assumption.
  - intros Hd Hf. apply StretchClean_free_step; assumption.
  - intros Hout. unfold StretchGravity.checkForAutoReattach, Qgeb.
    apply Qle_bool_false in Hout. rewrite Hout. reflexivity.
  - intros Hout. unfold StretchGravity.checkForSlamReattach, Qgeb.
    apply Qle_bool_false in Hout. rewrite Hout. reflexivity.
  - intros Hout. unfold Stretch.checkForSlamReattach.
    assert (Hfar : (Math_abs (rect_bottom (getBoundingClientRect s)
                              - innerHeight (browser s)) <? 80) = false).
    { apply Qltb_false. rewrite Math_abs_Qabs. exact Hout. }
    rewrite Hfar. reflexivity.
  - intros Hout. unfold StretchClean.checkForAutoReattach, Qgeb.
    apply Qle_bool_false in Hout. rewrite Hout. reflexivity.
  - intros Hout. unfold StretchClean.checkForSlamReattach, Qgeb.
    apply Qle_bool_false in Hout. rewrite Hout. reflexivity.
Qed.

Lemma reattach_checks_witness :
  let page := StretchGravityLoop.create chat_window desktop in
  let run := StretchGravityLoop.run (fun _ => 0) in
  let rel := run released_in_zone page in
  let low := run falling_in_zone page in
  let high := run falling_high page in
  let clean := StretchCleanLoop.create chat_window desktop in
  let floor := StretchCleanLoop.run to_floor clean in
  let corner := StretchCleanLoop.run to_corner clean in
  (truthy (physicsInterval (this rel)) = true
   /\ isDetached (this (StretchGravity.updatePhysics rel)) = true)
  /\ (truthy (physicsInterval (this low)) = true
      /\ isDetached (this (StretchGravity.updatePhysics low)) = false)
  /\ (truthy (physicsInterval (this high)) = true
      /\ isDetached (this (StretchGravity.updatePhysics high)) = true)
  /\ (~ speed (velocity (this floor)) == 0
      /\ isDetached (this (StretchClean.endDrag (mouse 110 599) floor)) = false)
  /\ (~ speed (velocity (this corner)) == 0
      /\ isDetached (this (StretchClean.endDrag (mouse 0 0) corner)) = true).
Proof.
  intros page run rel low high clean floor corner.
  assert (Arel : isDetached (this rel) = true) by (vm_compute; reflexivity).
  assert (Alow : isDetached (this low) = true) by (vm_compute; reflexivity).
  assert (Ahigh : isDetached (this high) = true) by (vm_compute; reflexivity).
  assert (Afloor : isDetached (this floor) = true)
    by (vm_compute; reflexivity).
  assert (Acorner : isDetached (this corner) = true)
    by (vm_compute; reflexivity).
  pose proof (reattach_checks (mouse 0 0) rel Arel) as (_ & _ & Hrel & _).
  pose proof (reattach_checks (mouse 0 0) low Alow) as (_ & _ & _ & Hlow & _).
  pose proof (reattach_checks (mouse 0 0) high Ahigh)
    as (_ & _ & _ & Hhigh & _).
  pose proof (reattach_checks (mouse 110 599) floor Afloor) as (Hfloor & _).
  pose proof (reattach_checks (mouse 0 0) corner Acorner) as (Hcorner & _).
  split; [|split; [|split; [|split]]].
  - split; [vm_compute; reflexivity|].
    assert (Hd : isDragging (this rel) = false) by (vm_compute; reflexivity).
    assert (Hg : gravityEnabled (this rel) = false)
      by (vm_compute; reflexivity).
    assert (Hs : X (velocity (this rel)) == 0 /\ Y (velocity (this rel)) == 0)
      by (split; vm_compute; reflexivity).
    exact (proj1 (proj1 (Hrel Hd Hg Hs))).
  - split; [vm_compute; reflexivity|].
    assert (Hd : isDragging (this low) = false) by (vm_compute; reflexivity).
    assert (Hf : free_flight low (StretchGravity_pull low))
      by (split; split; vm_compute; reflexivity).
    destruct (Hlow Hd Hf) as [_ Hcheck].
    assert (Hn : ~ slow (after_friction low (StretchGravity_pull low))).
    { intros [_ H]. vm_compute in H. discriminate. }
    assert (Hz : innerHeight (browser low) - 100
                 <= rect_bottom (getBoundingClientRect low)
                    + Y (StretchGravity_pull low))
      by (vm_compute; discriminate).
    assert (Hv : speed (after_friction low (StretchGravity_pull low)) < 2)
      by (vm_compute; reflexivity).
    exact (proj2 (Hcheck Hn) (conj Hz Hv)).
  - split; [vm_compute; reflexivity|].
    assert (Hd : isDragging (this high) = false) by (vm_compute; reflexivity).
    assert (Hf : free_flight high (StretchGravity_pull high))
      by (split; split; vm_compute; reflexivity).
    destruct (Hhigh Hd Hf) as [_ Hcheck].
    assert (Hn : ~ slow (after_friction high (StretchGravity_pull high))).
    { intros [_ H]. vm_compute in H. discriminate. }
    apply not_false_iff_true. intros E.
    destruct (proj1 (Hcheck Hn) E) as [Hzone _].
    vm_compute in Hzone. apply Hzone. reflexivity.
  - split; [vm_compute; discriminate|].
    assert (Hd : isDragging (this floor) = true) by (vm_compute; reflexivity).
    assert (Hz : innerHeight (browser floor) - 100
                 <= rect_bottom (getBoundingClientRect floor))
      by (vm_compute; discriminate).
    exact (proj2 (Hfloor Hd) Hz).
  - split; [vm_compute; discriminate|].
    assert (Hd : isDragging (this corner) = true)
      by (vm_compute; reflexivity).
    apply not_false_iff_true. intros E.
    pose proof (proj1 (Hcorner Hd) E) as Hzone.
    vm_compute in Hzone. apply Hzone. reflexivity.
Defined.

(** A window at rest inside the dock zone is not reattached.  In version 4
    the window is put on the floor of the viewport, a second move event at
    the same place leaves it at speed 0, and the button is released: the
    release check runs with the bottom edge on the bottom of the viewport
    and leaves the window detached.  In version 2 the same release leaves
    the loop running, and its first frame stops before the continuous
    check. *)
Lemma still_window_stays_detached :
  let e := mouse 0 599 in
  let s := StretchLoop.run rest_on_floor
             (StretchLoop.create chat_window desktop) in
  let g := StretchGravity.endDrag e
             (StretchGravityLoop.run (fun _ => 0) rest_on_floor
                (StretchGravityLoop.create chat_window desktop)) in
  (isDragging (this s) = true
   /\ isDetached (this s) = true
   /\ rect_bottom (getBoundingClientRect s) == innerHeight (browser s)
   /\ speed (velocity (this s)) == 0
   /\ isDetached (this (Stretch.endDrag e s)) = true)
  /\ (isDetached (this g) = true
      /\ truthy (physicsInterval (this g)) = true
      /\ rect_bottom (getBoundingClientRect g) == innerHeight (browser g)
      /\ speed (velocity (this g)) == 0
      /\ isDetached (this (frame StretchGravity.updatePhysics g)) = true).
Proof.
  vm_compute. repeat split; reflexivity.
Qed.

(** ** Release of a detached window *)

Lemma StretchGravity_velocity_startPhysics s :
  velocity (this (StretchGravity.startPhysics s)) = {| X := 0; Y := 0 |}.
Proof.
  unfold StretchGravity.startPhysics. simpl. reflexivity.
Qed.

Lemma Stretch_velocity_startPhysics s :
  velocity (this (Stretch.startPhysics s)) = {| X := 0; Y := 0 |}.
Proof.
  unfold Stretch.startPhysics. simpl. reflexivity.
Qed.

Lemma StretchGravity_velocity_reattach s :
  velocity (this s) = {| X := 0; Y := 0 |} ->
  velocity (this (StretchGravity.reattachWindow s)) = {| X := 0; Y := 0 |}.
Proof.
  intros H. unfold StretchGravity.reattachWindow.
  destruct (isDetached (this s)); simpl; [reflexivity | exact H].
Qed.

Lemma Stretch_velocity_reattach s :
  velocity (this s) = {| X := 0; Y := 0 |} ->
  velocity (this (Stretch.reattachWindow s)) = {| X := 0; Y := 0 |}.
Proof.
  intros H. unfold Stretch.reattachWindow.
  destruct (isDetached (this s)); simpl; [reflexivity | exact H].
Qed.

(** C1 fails on the code.  In the versions whose [startPhysics] begins
    with [stopPhysics()], releasing a detached window hands the integrator
    the velocity (0, 0), whatever the pointer did: [stopPhysics] zeroes the
    velocity that the moves had accumulated. *)
Theorem release_zeroes_velocity (e : MouseEvent) (s : State) :
  isDragging (this s) = true ->
  isDetached (this s) = true ->
  velocity (this (StretchGravity.endDrag e s)) = {| X := 0; Y := 0 |}
  /\ velocity (this (Stretch.endDrag e s)) = {| X := 0; Y := 0 |}
  /\ velocity (this (ShakePhysics.endDrag e s)) = {| X := 0; Y := 0 |}.
Proof.
  intros Hd Ha. split; [|split].
  - unfold StretchGravity.endDrag. rewrite Hd. simpl. rewrite Ha.
    rewrite andb_false_r.
    unfold StretchGravity.checkForSlamReattach.
    destruct (_ && _).
    + apply StretchGravity_velocity_reattach,
        StretchGravity_velocity_startPhysics.
    + apply StretchGravity_velocity_startPhysics.
  - unfold Stretch.endDrag. rewrite Hd. simpl. rewrite Ha.
    rewrite andb_false_r.
    unfold Stretch.checkForSlamReattach.
    destruct (_ && _).
    + apply Stretch_velocity_reattach, Stretch_velocity_startPhysics.
    + apply Stretch_velocity_startPhysics.
  - unfold ShakePhysics.endDrag. rewrite Hd. simpl. rewrite Ha.
    unfold saveWindowPosition.
    destruct (String.eqb _ _); simpl; reflexivity.
Qed.

Lemma release_zeroes_velocity_witness :
  velocity (this thrown) = {| X := (170 - 150) * 1.2; Y := (50 - 430) * 1.2 |}
  /\ velocity (this (StretchGravity.endDrag (mouse 170 50) thrown))
     = {| X := 0; Y := 0 |}.
Proof.
  assert (Hd : isDragging (this thrown) = true) by (vm_compute; reflexivity).
  assert (Ha : isDetached (this thrown) = true) by (vm_compute; reflexivity).
  split; [vm_compute; reflexivity|].
  exact (proj1 (release_zeroes_velocity (mouse 170 50) thrown Hd Ha)).
Defined.

(** The loop that was just started stops at its first frame, the window
    still detached and far from the taskbar. *)
Lemma thrown_window_does_not_fly :
  let s := StretchGravity.endDrag (mouse 170 50) thrown in
  isDetached (this s) = true
  /\ truthy (physicsInterval (this s)) = true
  /\ rect_top (getBoundingClientRect s) == 0
  /\ at_rest (frame StretchGravity.updatePhysics s)
  /\ rect_top (getBoundingClientRect (frame StretchGravity.updatePhysics s))
     == 0.
Proof.
  vm_compute. repeat split; reflexivity.
Qed.

(** The clean version does what C1 says: its [startPhysics] leaves the
    velocity alone, and away from the dock zone the release check does too. *)
Lemma StretchClean_release_keeps_velocity (e : MouseEvent) (s : State) :
  isDragging (this s) = true ->
  isDetached (this s) = true ->
  rect_bottom (getBoundingClientRect s) < innerHeight (browser s) - 100 ->
  velocity (this (StretchClean.endDrag e s)) = velocity (this s)
  /\ truthy (physicsInterval (this (StretchClean.endDrag e s))) = true.
Proof.
  intros Hd Ha Hfar. unfold StretchClean.endDrag. rewrite Hd.
  cbn [negb]. cbv zeta.
  set (s1 := classList_remove "moving"
               (style_set "cursor" [] (on_this (set_isDragging false) s))).
  assert (H1 : this s1 = set_isDragging false (this s)) by reflexivity.
  assert (Hrect : rect_bottom (getBoundingClientRect s1)
                  = rect_bottom (getBoundingClientRect s)).
  { unfold getBoundingClientRect, s1. cbn [rect_bottom].
    change (layout_top (classList_remove "moving" ?x)) with (layout_top x).
    rewrite layout_top_set_other by discriminate. reflexivity. }
  assert (Hh : innerHeight (browser s1) = innerHeight (browser s))
    by reflexivity.
  rewrite H1. cbn [isStretching isDetached set_isDragging]. rewrite Ha.
  rewrite andb_false_r.
  unfold StretchClean.checkForSlamReattach, StretchClean.startPhysics.
  rewrite H1. cbn [physicsInterval set_isDragging].
  destruct (physicsInterval (this s)) eqn:Hi; cbn [truthy].
  - unfold Qgeb. rewrite Hrect, Hh.
    apply Qle_bool_false in Hfar. rewrite Hfar.
    rewrite H1. cbn [velocity physicsInterval set_isDragging]. rewrite Hi.
    split; reflexivity.
  - cbn [setInterval].
    set (s2 := on_this _ _).
    assert (Hrect2 : rect_bottom (getBoundingClientRect s2)
                     = rect_bottom (getBoundingClientRect s1)) by reflexivity.
    assert (Hh2 : innerHeight (browser s2) = innerHeight (browser s1))
      by reflexivity.
    unfold Qgeb. rewrite Hrect2, Hh2, Hrect, Hh.
    apply Qle_bool_false in Hfar. rewrite Hfar.
    split; reflexivity.
Qed.

(** ** No event throws a window in versions 1 and 4 *)

Lemma released_at_rest_mono s s' :
  velocity (this s') = velocity (this s) ->
  (isDragging (this s') = false -> isDragging (this s) = false) ->
  (isDetached (this s') = false -> isDetached (this s) = false) ->
  released_at_rest s -> released_at_rest s'.
Proof.
  unfold released_at_rest. intros -> Hd Ha H [F|F]; apply H; auto.
Qed.

Lemma released_at_rest_zero s :
  velocity (this s) = {| X := 0; Y := 0 |} -> released_at_rest s.
Proof. intros H _. exact H. Qed.

Lemma released_at_rest_stopPhysics s : released_at_rest (stopPhysics s).
Proof. intros _. apply (stopPhysics_at_rest s). Qed.

Lemma released_at_rest_held s :
  isDragging (this s) = true -> isDetached (this s) = true ->
  released_at_rest s.
Proof. intros Hd Ha [F|F]; congruence. Qed.

(** Closes [released_at_rest (f s)] for an [f] that leaves the velocity
    and the two flags alone, or sets a flag. *)
Ltac unmoved H :=
  apply (released_at_rest_mono _ _) with (4 := H);
  repeat (first [reflexivity | discriminate | assumption
                | progress simpl | branch | progress intros | congruence]).

Lemma released_at_rest_fire_timeout h s :
  released_at_rest s -> released_at_rest (fire_timeout h s).
Proof.
  intros H. unfold fire_timeout.
  destruct (List.find _ _) as [[[h' d] cb]|]; [|exact H].
  destruct cb; unmoved H.
Qed.

Lemma released_at_rest_bringToFront s :
  released_at_rest s -> released_at_rest (bringToFront s).
Proof. intros H. unfold bringToFront. unmoved H. Qed.

(** A step on a window without velocity stops the loop. *)
Lemma still_step_stops (upd : State -> State) (s : State) :
  In upd [ShakePhysics.updatePhysics; Stretch.updatePhysics] ->
  velocity (this s) = {| X := 0; Y := 0 |} ->
  velocity (this (upd s)) = {| X := 0; Y := 0 |}.
Proof.
  intros Hin Hv.
  destruct Hin as [<- | [<- | []]];
    [unfold ShakePhysics.updatePhysics | unfold Stretch.updatePhysics];
    (destruct (_ || _); [apply (stopPhysics_at_rest s)|]);
    rewrite Hv; cbn [X Y];
    destruct (bounce_axis _ 0 _ _) as [newX vx] eqn:EX;
    destruct (bounce_axis _ 0 _ _) as [newY vy] eqn:EY in |- *;
    cbv zeta; cbn [this on_this velocity set_velocity X Y friction];
    (rewrite slow_still
       by (eapply bounce_axis_still; [|eassumption]; reflexivity));
    apply stopPhysics_at_rest.
Qed.

Lemma Stretch_released_startDrag e s :
  released_at_rest s -> released_at_rest (Stretch.startDrag e s).
Proof.
  intros H. unfold Stretch.startDrag.
  apply released_at_rest_bringToFront. unmoved H.
Qed.

Lemma Stretch_released_drag e s :
  released_at_rest s -> released_at_rest (Stretch.drag e s).
Proof.
  intros H. unfold Stretch.drag.
  destruct (isDragging (this s)) eqn:Hd; [|exact H]. cbn [negb]. cbv zeta.
  destruct (isDetached (this s)) eqn:Ha.
  - cbn [this on_this isDetached set_lastMouseX set_lastMouseY set_velocity].
    rewrite Ha. apply released_at_rest_held; simpl; assumption.
  - cbn [this on_this isDetached set_lastMouseX set_lastMouseY].
    rewrite Ha.
    unfold Stretch.applyStretchEffect, Stretch.detachWindow,
      Stretch.moveOnTaskbarRail, Stretch.resetStretchEffect.
    unmoved H.
Qed.

Lemma Stretch_released_endDrag e s :
  released_at_rest s -> released_at_rest (Stretch.endDrag e s).
Proof.
  intros H. unfold Stretch.endDrag.
  destruct (negb _); [exact H|]. cbv zeta.
  cbn [this on_this classList_remove style_set on_elem isStretching
       isDetached set_isDragging].
  destruct (isDetached (this s)) eqn:Ha.
  - rewrite andb_false_r.
    apply released_at_rest_zero.
    unfold Stretch.checkForSlamReattach. cbv zeta.
    destruct ((Math_abs _ <? 80) && _).
    + apply Stretch_velocity_reattach, Stretch_velocity_startPhysics.
    + apply Stretch_velocity_startPhysics.
  - apply released_at_rest_zero.
    assert (Hv : velocity (this s) = {| X := 0; Y := 0 |})
      by (apply H; right; exact Ha).
    destruct (isStretching (this s)); exact Hv.
Qed.

Lemma Stretch_released_update s :
  released_at_rest s -> released_at_rest (Stretch.updatePhysics s).
Proof.
  intros H.
  destruct (isDetached (this s)) eqn:Ha;
    [destruct (isDragging (this s)) eqn:Hd|].
  - unfold Stretch.updatePhysics. rewrite Ha, Hd. simpl.
    apply released_at_rest_stopPhysics.
  - apply released_at_rest_zero, still_step_stops.
    + right; left; reflexivity.
    + apply H. left. exact Hd.
  - unfold Stretch.updatePhysics. rewrite Ha. simpl.
    apply released_at_rest_stopPhysics.
Qed.

Lemma Stretch_released_handle i s :
  released_at_rest s -> released_at_rest (StretchLoop.handle i s).
Proof.
  intros H. destruct i as [e|e|e|e|h|h|t]; cbn [StretchLoop.handle].
  - destruct (hasTitleBar _); [|exact H].
    apply Stretch_released_startDrag, H.
  - exact H.
  - apply Stretch_released_drag, H.
  - apply Stretch_released_endDrag, H.
  - unfold fire_interval. destruct (existsb _ _); [|exact H].
    apply Stretch_released_update, H.
  - apply released_at_rest_fire_timeout, H.
  - unmoved H.
Qed.


Lemma released_at_rest_saveWindowPosition s :
  released_at_rest s -> released_at_rest (saveWindowPosition s).
Proof. intros H. unfold saveWindowPosition. unmoved H. Qed.

Lemma ShakePhysics_released_detach s :
  released_at_rest s -> released_at_rest (ShakePhysics.detachWindow s).
Proof. intros H. unfold ShakePhysics.detachWindow. unmoved H. Qed.

Lemma ShakePhysics_released_reattach s :
  released_at_rest s -> released_at_rest (ShakePhysics.reattachWindow s).
Proof.
  intros H. unfold ShakePhysics.reattachWindow.
  destruct (negb _); [exact H|].
  apply released_at_rest_zero. exact (proj2 (stopPhysics_at_rest s)).
Qed.

Lemma ShakePhysics_released_startDrag e s :
  released_at_rest s -> released_at_rest (ShakePhysics.startDrag e s).
Proof.
  intros H. unfold ShakePhysics.startDrag.
  apply released_at_rest_bringToFront. unmoved H.
Qed.

Lemma ShakePhysics_released_drag e s :
  released_at_rest s -> released_at_rest (ShakePhysics.drag e s).
Proof.
  intros H. unfold ShakePhysics.drag.
  destruct (isDragging (this s)) eqn:Hd; [|exact H]. cbn [negb]. cbv zeta.
  change (isDetached (this (recordPosition ?x ?y s)))
    with (isDetached (this s)).
  destruct (isDetached (this s)) eqn:Ha.
  - cbn [this on_this isDetached set_lastMouseX set_lastMouseY set_velocity].
    change (isDetached (this (recordPosition ?x ?y s)))
      with (isDetached (this s)).
    rewrite Ha. apply released_at_rest_held; simpl; assumption.
  - cbn [this on_this isDetached set_lastMouseX set_lastMouseY].
    change (isDetached (this (recordPosition ?x ?y s)))
      with (isDetached (this s)).
    rewrite Ha.
    unfold ShakePhysics.detectShake.
    destruct (_ <? 8)%nat; [unmoved H|].
    cbv zeta. destruct (_ && _); [|unmoved H].
    apply ShakePhysics_released_detach. unmoved H.
Qed.

Lemma ShakePhysics_released_endDrag e s :
  released_at_rest s -> released_at_rest (ShakePhysics.endDrag e s).
Proof.
  intros H. unfold ShakePhysics.endDrag.
  destruct (negb _); [exact H|]. cbv zeta.
  apply released_at_rest_saveWindowPosition, released_at_rest_zero.
  destruct (isDetached _).
  - unfold ShakePhysics.startPhysics. simpl. reflexivity.
  - exact (proj2 (stopPhysics_at_rest _)).
Qed.

Lemma ShakePhysics_released_update s :
  released_at_rest s -> released_at_rest (ShakePhysics.updatePhysics s).
Proof.
  intros H.
  destruct (isDetached (this s)) eqn:Ha;
    [destruct (isDragging (this s)) eqn:Hd|].
  - unfold ShakePhysics.updatePhysics. rewrite Ha, Hd. simpl.
    apply released_at_rest_stopPhysics.
  - apply released_at_rest_zero, still_step_stops.
    + left; reflexivity.
    + apply H. left. exact Hd.
  - unfold ShakePhysics.updatePhysics. rewrite Ha. simpl.
    apply released_at_rest_stopPhysics.
Qed.

Lemma ShakePhysics_released_handle i s :
  released_at_rest s -> released_at_rest (ShakePhysicsLoop.handle i s).
Proof.
  intros H. destruct i as [e|e|e|e|h|h|t]; cbn [ShakePhysicsLoop.handle].
  - destruct (hasTitleBar _); [|exact H].
    apply ShakePhysics_released_startDrag, H.
  - destruct (hasTitleBar _); [|exact H].
    unfold ShakePhysics.dblclick.
    destruct (shiftKey e); [|exact H].
    destruct (negb _).
    + apply ShakePhysics_released_detach, H.
    + apply ShakePhysics_released_reattach, H.
  - apply ShakePhysics_released_drag, H.
  - apply ShakePhysics_released_endDrag, H.
  - unfold fire_interval. destruct (existsb _ _); [|exact H].
    apply ShakePhysics_released_update, H.
  - apply released_at_rest_fire_timeout, H.
  - unmoved H.
Qed.

Lemma released_at_rest_fold (handle : Input -> State -> State) inputs :
  (forall i s, released_at_rest s -> released_at_rest (handle i s)) ->
  forall s, released_at_rest s ->
  released_at_rest (fold_left (fun s i => handle i s) inputs s).
Proof.
  intros Hh. induction inputs as [|i inputs IH]; intros s H; [exact H|].
  simpl. apply IH, Hh, H.
Qed.

(** In the two versions built with bounce 0.3 no sequence of events leaves
    a window with a velocity once the button is up: whenever a step of the
    loop gets past its guard, the velocity is (0, 0). *)
Lemma no_event_throws (inputs : list Input) (el : Element) (b : Browser) :
  released_at_rest (ShakePhysicsLoop.run inputs (ShakePhysicsLoop.create el b))
  /\ released_at_rest (StretchLoop.run inputs (StretchLoop.create el b)).
Proof.
  split.
  - apply released_at_rest_fold; [apply ShakePhysics_released_handle|].
    apply released_at_rest_zero.
    unfold ShakePhysicsLoop.create, loadWindowPosition, ShakePhysics.init.
    repeat (first [reflexivity | progress simpl | branch]).
  - apply released_at_rest_fold; [apply Stretch_released_handle|].
    apply released_at_rest_zero.
    unfold StretchLoop.create, Stretch.init.
    repeat (first [reflexivity | progress simpl | branch]).
Qed.

(** ** The shake gesture *)

Lemma Math_abs_gtb (d t : Q) : (Math_abs d >? t) = (Qabs d >? t).
Proof.
  unfold Qgtb, Qltb. f_equal. apply Qleb_comp; [|reflexivity].
  apply Math_abs_Qabs.
Qed.

(** The loop is a fold over the vertical deltas. *)
Lemma shake_loop_fold thr rest : forall prev a,
  shake_loop thr prev rest a
  = fold_left (fun a d => shake_body thr d a) (deltas prev rest) a.
Proof.
  induction rest as [|cur rest IH]; intros prev a; simpl; [reflexivity|].
  apply IH.
Qed.

Lemma shake_scan_fold thr l :
  shake_scan thr l
  = fold_left (fun a d => shake_body thr d a) (vertical_deltas l) shake_zero.
Proof. destruct l; [reflexivity | apply shake_loop_fold]. Qed.

Lemma adjacent_upward_cons d ds :
  adjacent_upward (d :: ds)
  <-> (d < 0 /\ first_upward ds) \/ adjacent_upward ds.
Proof.
  split.
  - intros (l1 & d1 & d2 & l2 & E & H1 & H2).
    destruct l1 as [|x l1]; simpl in E; injection E as -> ->.
    + left. split; [exact H1 | exact H2].
    + right. exists l1, d1, d2, l2. auto.
  - intros [[Hd Hf] | (l1 & d1 & d2 & l2 & -> & H1 & H2)].
    + destruct ds as [|d' ds]; [destruct Hf|].
      exists [], d, d', ds. auto.
    + exists (d :: l1), d1, d2, l2. auto.
Qed.

Lemma adjacent_upward_nil : ~ adjacent_upward [].
Proof.
  intros (l1 & d1 & d2 & l2 & E & _). destruct l1; discriminate.
Qed.

Lemma Math_max_lt (m a b : Q) : m < Math_max a b <-> m < a \/ m < b.
Proof. unfold Math_max. qcase; split; intros; try lra; destruct H; lra. Qed.

Lemma shake_body_small thr d a :
  (Qabs d >? thr) = false -> shake_body thr d a = a.
Proof.
  intros H. unfold shake_body. rewrite Math_abs_gtb, H. reflexivity.
Qed.

Lemma shake_body_up thr d a :
  (Qabs d >? thr) = true -> (d <? 0) = true ->
  shake_body thr d a = shake_up d a.
Proof.
  intros H Hd. unfold shake_body. rewrite Math_abs_gtb, H, Hd. reflexivity.
Qed.

Lemma shake_body_down thr d a :
  (Qabs d >? thr) = true -> (d <? 0) = false ->
  shake_body thr d a = shake_down d a.
Proof.
  intros H Hd. unfold shake_body. rewrite Math_abs_gtb, H, Hd. reflexivity.
Qed.

(** What the six counters hold after the loop, from any starting values. *)
Lemma shake_fold_stats thr ds : forall a,
  let a' := fold_left (fun a d => shake_body thr d a) ds a in
  let big := large thr ds in
  verticalMovements a' = (verticalMovements a + length big)%nat
  /\ upwardMovement a' = (upwardMovement a + length (upward big))%nat
  /\ totalVerticalDistance a'
     == totalVerticalDistance a + Qsum (List.map Qabs big)
  /\ (forall m, m < maxUpwardDelta a' <->
        m < maxUpwardDelta a \/ exists d, In d big /\ d < 0 /\ m < Qabs d)
  /\ ((2 <= maxConsecutiveUpward a')%nat <->
        (2 <= maxConsecutiveUpward a)%nat
        \/ ((1 <= consecutiveUpward a)%nat /\ first_upward big)
        \/ adjacent_upward big).
Proof.
  induction ds as [|d ds IH]; intros a.
  - cbn [fold_left large List.filter upward List.map Qsum length].
    cbv zeta. unfold large, upward. cbn [List.filter List.map Qsum length].
    split; [lia|]. split; [lia|]. split; [lra|]. split.
    + intros m. split.
      * intros H. left. exact H.
      * intros [H | (d & [] & _)]. exact H.
    + split.
      * intros H. left. exact H.
      * intros [H | [[_ []] | H]]; [exact H|].
        destruct (adjacent_upward_nil H).
  - cbn [fold_left]. cbv zeta. unfold large. cbn [List.filter].
    fold (large thr ds).
    destruct (Qabs d >? thr) eqn:Hbig; [destruct (d <? 0) eqn:Hup|].
    + rewrite (shake_body_up thr d a Hbig Hup).
      destruct (IH (shake_up d a)) as (IH1 & IH2 & IH3 & IH4 & IH5).
      cbn [shake_up verticalMovements upwardMovement totalVerticalDistance
           maxUpwardDelta consecutiveUpward maxConsecutiveUpward]
        in IH1, IH2, IH3, IH4, IH5.
      unfold upward. cbn [List.filter List.map Qsum length].
      fold (upward (large thr ds)). rewrite Hup. cbn [length].
      apply Qltb_true in Hup.
      split; [lia|]. split; [lia|]. split.
      { rewrite IH3, Math_abs_Qabs. ring. }
      split.
      { intros m. rewrite IH4, Math_max_lt, Math_abs_Qabs. split.
        - intros [[H | H] | (d' & Hin & Hd' & Hm)].
          + left. exact H.
          + right. exists d. split; [left; reflexivity | auto].
          + right. exists d'. split; [right; exact Hin | auto].
        - intros [H | (d' & [<- | Hin] & Hd' & Hm)].
          + left. left. exact H.
          + left. right. exact Hm.
          + right. exists d'. auto. }
      { rewrite IH5, adjacent_upward_cons. split.
        - intros [H | [[_ Hf] | H]].
          + destruct (Nat.le_gt_cases 2 (maxConsecutiveUpward a)) as [Hm | Hm].
            * left. exact Hm.
            * right. left. split; [lia|]. exact Hup.
          + right. right. left. split; assumption.
          + right. right. right. exact H.
        - intros [H | [[Hc _] | [[_ Hf] | H]]].
          + left. lia.
          + left. lia.
          + right. left. split; [lia | exact Hf].
          + right. right. exact H. }
    + rewrite (shake_body_down thr d a Hbig Hup).
      destruct (IH (shake_down d a)) as (IH1 & IH2 & IH3 & IH4 & IH5).
      cbn [shake_down verticalMovements upwardMovement totalVerticalDistance
           maxUpwardDelta consecutiveUpward maxConsecutiveUpward]
        in IH1, IH2, IH3, IH4, IH5.
      unfold upward. cbn [List.filter List.map Qsum length].
      fold (upward (large thr ds)). rewrite Hup.
      apply Qltb_false in Hup.
      split; [lia|]. split; [lia|]. split.
      { rewrite IH3, Math_abs_Qabs. ring. }
      split.
      { intros m. rewrite IH4. split.
        - intros [H | (d' & Hin & Hd' & Hm)].
          + left. exact H.
          + right. exists d'. split; [right; exact Hin | auto].
        - intros [H | (d' & [<- | Hin] & Hd' & Hm)].
          + left. exact H.
          + lra.
          + right. exists d'. auto. }
      { rewrite IH5, adjacent_upward_cons. split.
        - intros [H | [[Hc _] | H]].
          + left. exact H.
          + lia.
          + right. right. right. exact H.
        - intros [H | [[_ Hf] | [[Hd _] | H]]].
          + left. exact H.
          + simpl in Hf. lra.
          + lra.
          + right. right. exact H. }
    + rewrite (shake_body_small thr d a Hbig). apply IH.
Qed.

(** The five tests of the code say what the five conditions say. *)
Lemma shake_tests_conditions thr l :
  shake_tests (shake_scan thr l) = true <-> shake_conditions thr l.
Proof.
  rewrite shake_scan_fold.
  pose proof (shake_fold_stats thr (vertical_deltas l) shake_zero)
    as (H1 & H2 & H3 & H4 & H5).
  cbv zeta in H1, H2, H3, H4, H5.
  unfold shake_tests, shake_conditions. cbv zeta.
  rewrite !andb_true_iff, !Nat.leb_le, H1, H2.
  unfold Qgtb. rewrite !Qltb_true, H3, H4, H5.
  cbn [shake_zero verticalMovements upwardMovement totalVerticalDistance
       maxUpwardDelta consecutiveUpward maxConsecutiveUpward].
  split.
  - intros ((((A & B) & C) & [D | D]) & [E | [[E _] | E]]);
      try lia; try lra.
    repeat split; try assumption; try lia; lra.
  - intros (A & B & C & D & E).
    repeat split; try lia; try lra; auto.
Qed.

Lemma ShakePhysics_detectShake_iff s :
  isDetached (this s) = false ->
  isDetached (this (ShakePhysics.detectShake s)) = true
  <-> (8 <= length (lastPositions (this s)))%nat
      /\ shake_conditions (shakeThreshold (this s)) (lastPositions (this s)).
Proof.
  intros Ha. unfold ShakePhysics.detectShake. cbv zeta.
  change (if ?c && _ && _ && _ && _ then _ else _)
    with (if shake_tests (shake_scan (shakeThreshold (this s))
                            (lastPositions (this s)))
          then ShakePhysics.detachWindow s else s).
  rewrite <- shake_tests_conditions.
  destruct (length (lastPositions (this s)) <? 8)%nat eqn:Hlen.
  - apply Nat.ltb_lt in Hlen. rewrite Ha. split; [discriminate | lia].
  - apply Nat.ltb_ge in Hlen. destruct (shake_tests _).
    + rewrite ShakePhysics_detach_sets. split; auto.
    + rewrite Ha. split; [discriminate | intros [_ H]; discriminate].
Qed.

(** The loop of the basic version counts the large deltas and the upward
    ones among them. *)
Lemma ShakeBasic_shake_loop_counts thr rest : forall prev a,
  ShakeBasic.shake_loop thr prev rest a
  = (fst a + length (large thr (deltas prev rest)),
     snd a + length (upward (large thr (deltas prev rest))))%nat.
Proof.
  induction rest as [|cur rest IH]; intros prev [v u].
  - simpl. f_equal; lia.
  - cbn [ShakeBasic.shake_loop deltas]. rewrite IH.
    unfold ShakeBasic.shake_body, large. cbn [List.filter].
    rewrite Math_abs_gtb.
    destruct (Qabs _ >? thr); [|reflexivity].
    unfold upward. cbn [List.filter].
    destruct (_ <? 0); cbn [fst snd length]; f_equal; lia.
Qed.

Lemma ShakeBasic_detach_sets s :
  isDetached (this (ShakeBasic.detachWindow s)) = true.
Proof.
  unfold ShakeBasic.detachWindow.
  destruct (isDetached (this s)) eqn:E; [exact E | reflexivity].
Qed.

Lemma ShakeBasic_detectShake_iff s :
  isDetached (this s) = false ->
  let big := large (shakeThreshold (this s))
               (vertical_deltas (lastPositions (this s))) in
  isDetached (this (ShakeBasic.detectShake s)) = true
  <-> (5 <= length (lastPositions (this s)))%nat
      /\ (3 <= length big)%nat /\ (2 <= length (upward big))%nat.
Proof.
  intros Ha big. subst big. unfold ShakeBasic.detectShake.
  destruct (length (lastPositions (this s)) <? 5)%nat eqn:Hlen.
  - apply Nat.ltb_lt in Hlen. rewrite Ha. split; [discriminate | lia].
  - apply Nat.ltb_ge in Hlen.
    destruct (lastPositions (this s)) as [|p rest] eqn:El;
      [simpl in Hlen; lia|].
    rewrite ShakeBasic_shake_loop_counts. cbn [fst snd Nat.add vertical_deltas].
    destruct (_ && _) eqn:Htests.
    + rewrite ShakeBasic_detach_sets.
      apply andb_true_iff in Htests as [H3 H2].
      apply Nat.leb_le in H3, H2. split; auto.
    + rewrite Ha. split; [discriminate|].
      intros (_ & H3 & H2).
      apply Nat.leb_le in H3, H2. rewrite H3, H2 in Htests. discriminate.
Qed.

Lemma recordPosition_length x y s :
  (length (lastPositions (this s)) <= 10)%nat ->
  (length (lastPositions (this (recordPosition x y s))) <= 10)%nat.
Proof.
  intros H. unfold recordPosition. cbn [this on_this lastPositions set_lastPositions].
  rewrite length_app. cbn [length].
  destruct (10 <? _)%nat eqn:E.
  - destruct (lastPositions (this s)); cbn [tail app length] in *; try lia.
    rewrite length_app. cbn [length]. lia.
  - apply Nat.ltb_ge in E. rewrite length_app. cbn [length]. lia.
Qed.

(** C7, as the code has it.  On a move while dragging an attached window
    the sample is pushed on the buffer (at most 10 samples are kept) and
    - the strict version detaches if and only if the buffer holds at least
      8 samples and, counting only the deltas between consecutive samples
      whose size exceeds the shake threshold, there are at least 5 of them,
      at least 3 of them upward, their sizes add up to more than 100, one
      upward among them is larger than 35 and two upward ones follow each
      other;
    - the basic version detaches if and only if the buffer holds at least 5
      samples, with at least 3 such deltas, at least 2 of them upward. *)
Theorem shake_detaches_iff (e : MouseEvent) (s : State) :
  isDragging (this s) = true ->
  isDetached (this s) = false ->
  let buffer :=
    lastPositions (this (recordPosition (clientX e) (clientY e) s)) in
  let big := large (shakeThreshold (this s)) (vertical_deltas buffer) in
  ((length (lastPositions (this s)) <= 10)%nat -> (length buffer <= 10)%nat)
  /\ (isDetached (this (ShakePhysics.drag e s)) = true
      <-> (8 <= length buffer)%nat
          /\ shake_conditions (shakeThreshold (this s)) buffer)
  /\ (isDetached (this (ShakeBasic.drag e s)) = true
      <-> (5 <= length buffer)%nat
          /\ (3 <= length big)%nat /\ (2 <= length (upward big))%nat).
Proof.
  intros Hd Ha buffer big. subst big buffer.
  split; [apply recordPosition_length|]. split.
  - unfold ShakePhysics.drag. rewrite Hd. cbn [negb]. cbv zeta.
    change (isDetached (this (recordPosition ?x ?y s)))
      with (isDetached (this s)).
    rewrite Ha.
    change (isDetached (this (on_this ?f (on_this ?g ?t))))
      with (isDetached (this t)).
    change (isDetached (this (recordPosition ?x ?y s)))
      with (isDetached (this s)).
    rewrite Ha.
    rewrite ShakePhysics_detectShake_iff by exact Ha.
    reflexivity.
  - unfold ShakeBasic.drag. rewrite Hd. cbn [negb]. cbv zeta.
    change (isDetached (this (recordPosition ?x ?y s)))
      with (isDetached (this s)).
    rewrite Ha.
    rewrite ShakeBasic_detectShake_iff by exact Ha.
    reflexivity.
Qed.

Lemma shake_detaches_iff_witness :
  let page := ShakePhysicsLoop.create chat_window desktop in
  isDetached
    (this (ShakePhysics.drag (mouse 150 300)
             (ShakePhysicsLoop.run four_jerks page))) = false
  /\ isDetached
       (this (ShakePhysics.drag (mouse 150 220)
                (ShakePhysicsLoop.run six_jerks page))) = true.
Proof.
  intros page.
  set (s6 := ShakePhysicsLoop.run four_jerks page).
  set (s8 := ShakePhysicsLoop.run six_jerks page).
  assert (Hd6 : isDragging (this s6) = true) by (vm_compute; reflexivity).
  assert (Ha6 : isDetached (this s6) = false) by (vm_compute; reflexivity).
  assert (Hd8 : isDragging (this s8) = true) by (vm_compute; reflexivity).
  assert (Ha8 : isDetached (this s8) = false) by (vm_compute; reflexivity).
  destruct (shake_detaches_iff (mouse 150 300) s6 Hd6 Ha6) as (_ & H6 & _).
  destruct (shake_detaches_iff (mouse 150 220) s8 Hd8 Ha8) as (_ & H8 & _).
  split.
  - destruct (isDetached (this (ShakePhysics.drag (mouse 150 300) s6))) eqn:E;
      [|reflexivity].
    destruct (proj1 H6 eq_refl) as [Hlen _].
    vm_compute in Hlen. lia.
  - apply H8. split; [vm_compute; lia|].
    apply shake_tests_conditions. vm_compute. reflexivity.
Defined.

(** Six samples that meet all five conditions do not detach in the strict
    version: it wants eight samples. *)
Lemma shake_conditions_without_detach :
  let s := ShakePhysicsLoop.run four_jerks
             (ShakePhysicsLoop.create chat_window desktop) in
  let e := mouse 150 300 in
  let buffer :=
    lastPositions (this (recordPosition (clientX e) (clientY e) s)) in
  isDragging (this s) = true
  /\ isDetached (this s) = false
  /\ length buffer = 6%nat
  /\ shake_conditions (shakeThreshold (this s)) buffer
  /\ isDetached (this (ShakePhysics.drag e s)) = false.
Proof.
  intros s e buffer.
  split; [vm_compute; reflexivity|].
  split; [vm_compute; reflexivity|].
  split; [vm_compute; reflexivity|].
  split; [|vm_compute; reflexivity].
  apply shake_tests_conditions. vm_compute. reflexivity.
Qed.

(** ** One timer *)

Lemma one_timer_ext s s' :
  intervals (browser s') = intervals (browser s) ->
  physicsInterval (this s') = physicsInterval (this s) ->
  one_timer s -> one_timer s'.
Proof. unfold one_timer. intros -> ->. auto. Qed.

(** Closes [one_timer (f s)] for an [f] that leaves the timers alone. *)
Ltac neutral H :=
  apply (one_timer_ext _ _) with (3 := H);
  repeat (first [reflexivity | progress simpl | branch]).

Lemma stopPhysics_one_timer s :
  one_timer s ->
  intervals (browser (stopPhysics s)) = []
  /\ physicsInterval (this (stopPhysics s)) = None.
Proof.
  unfold one_timer, stopPhysics. intros H.
  destruct (physicsInterval (this s)) as [h|] eqn:E; simpl; rewrite ?E.
  - rewrite H. simpl. rewrite Pos.eqb_refl. simpl. split; reflexivity.
  - rewrite H. split; reflexivity.
Qed.

Lemma one_timer_stopPhysics s : one_timer s -> one_timer (stopPhysics s).
Proof.
  intros H. destruct (stopPhysics_one_timer s H) as [Hi Hp].
  unfold one_timer. rewrite Hi, Hp. reflexivity.
Qed.

(** Starting over: the old interval is cleared before the new one is
    set. *)
Lemma restart_one_timer s :
  one_timer s ->
  let s' := on_this (set_physicsInterval
                       (Some (fst (setInterval 16 (stopPhysics s)))))
              (snd (setInterval 16 (stopPhysics s))) in
  one_timer s'
  /\ intervals (browser s') = [nextHandle (browser s)].
Proof.
  intros H. destruct (stopPhysics_one_timer s H) as [Hi Hp].
  assert (Hn : nextHandle (browser (stopPhysics s)) = nextHandle (browser s)).
  { unfold stopPhysics. destruct (physicsInterval (this s)); reflexivity. }
  cbv zeta. unfold one_timer, setInterval.
  cbn [fst snd this browser on_this on_browser intervals set_intervals
       set_nextHandle nextHandle physicsInterval set_physicsInterval].
  rewrite Hi, Hn. split; reflexivity.
Qed.

Lemma ShakePhysics_one_timer_startPhysics s :
  one_timer s -> one_timer (ShakePhysics.startPhysics s).
Proof. intros H. apply (restart_one_timer s H). Qed.

Lemma Stretch_one_timer_startPhysics s :
  one_timer s -> one_timer (Stretch.startPhysics s).
Proof. intros H. apply (restart_one_timer s H). Qed.

Lemma StretchGravity_one_timer_startPhysics s :
  one_timer s -> one_timer (StretchGravity.startPhysics s).
Proof. intros H. apply (restart_one_timer s H). Qed.

(** The clean version does nothing when the loop is running. *)
Lemma StretchClean_startPhysics_running s :
  truthy (physicsInterval (this s)) = true -> StretchClean.startPhysics s = s.
Proof. intros H. unfold StretchClean.startPhysics. rewrite H. reflexivity. Qed.

Lemma StretchClean_one_timer_startPhysics s :
  one_timer s -> one_timer (StretchClean.startPhysics s).
Proof.
  intros H. unfold StretchClean.startPhysics.
  destruct (physicsInterval (this s)) eqn:E; simpl; [exact H|].
  unfold one_timer in *. simpl. rewrite H, E. reflexivity.
Qed.

Lemma one_timer_fire_timeout h s : one_timer s -> one_timer (fire_timeout h s).
Proof.
  intros H. unfold fire_timeout.
  destruct (List.find _ _) as [[[h' d] cb]|]; [|exact H].
  destruct cb; neutral H.
Qed.

Lemma one_timer_saveWindowPosition s :
  one_timer s -> one_timer (saveWindowPosition s).
Proof. intros H. unfold saveWindowPosition. neutral H. Qed.

Lemma one_timer_loadWindowPosition s :
  one_timer s -> one_timer (loadWindowPosition s).
Proof. intros H. unfold loadWindowPosition. neutral H. Qed.

Lemma one_timer_bringToFront s : one_timer s -> one_timer (bringToFront s).
Proof. intros H. unfold bringToFront. neutral H. Qed.

(** *** Version 1 *)

Lemma ShakePhysics_one_timer_detach s :
  one_timer s -> one_timer (ShakePhysics.detachWindow s).
Proof. intros H. unfold ShakePhysics.detachWindow. neutral H. Qed.

Lemma ShakePhysics_one_timer_reattach s :
  one_timer s -> one_timer (ShakePhysics.reattachWindow s).
Proof.
  intros H. unfold ShakePhysics.reattachWindow.
  destruct (isDetached (this s)); [|exact H].
  apply (one_timer_ext (stopPhysics s)); try reflexivity.
  apply one_timer_stopPhysics, H.
Qed.

Lemma ShakePhysics_one_timer_update s :
  one_timer s -> one_timer (ShakePhysics.updatePhysics s).
Proof.
  intros H. unfold ShakePhysics.updatePhysics.
  destruct (_ || _); [apply one_timer_stopPhysics, H|].
  destruct (bounce_axis _ (X _) _ _) as [newX vx].
  destruct (bounce_axis _ (Y _) _ _) as [newY vy].
  cbv zeta. destruct (_ && _).
  - apply one_timer_stopPhysics. neutral H.
  - neutral H.
Qed.

Lemma ShakePhysics_one_timer_startDrag e s :
  one_timer s -> one_timer (ShakePhysics.startDrag e s).
Proof.
  intros H. unfold ShakePhysics.startDrag.
  apply one_timer_bringToFront. neutral H.
Qed.

Lemma ShakePhysics_one_timer_drag e s :
  one_timer s -> one_timer (ShakePhysics.drag e s).
Proof.
  intros H. unfold ShakePhysics.drag.
  destruct (negb _); [exact H|]. cbv zeta.
  destruct (isDetached (this (recordPosition _ _ s))) eqn:Ha.
  - cbn [this on_this isDetached set_lastMouseX set_lastMouseY set_velocity].
    rewrite Ha. neutral H.
  - cbn [this on_this isDetached set_lastMouseX set_lastMouseY].
    rewrite Ha. unfold ShakePhysics.detectShake.
    destruct (_ <? 8)%nat; [neutral H|].
    cbv zeta. destruct (_ && _); [|neutral H].
    apply ShakePhysics_one_timer_detach. neutral H.
Qed.

Lemma ShakePhysics_one_timer_endDrag e s :
  one_timer s -> one_timer (ShakePhysics.endDrag e s).
Proof.
  intros H. unfold ShakePhysics.endDrag.
  destruct (negb _); [exact H|]. cbv zeta.
  apply one_timer_saveWindowPosition.
  assert (H1 : one_timer (classList_remove "moving"
                 (style_set "cursor" [] (on_this (set_isDragging false) s))))
    by neutral H.
  destruct (isDetached _).
  - apply ShakePhysics_one_timer_startPhysics.
    unfold ShakePhysics.checkForSlamReattach. cbv zeta.
    destruct (_ <? 100); [|exact H1].
    destruct (_ >? _); [|exact H1].
    apply ShakePhysics_one_timer_reattach, H1.
  - apply one_timer_stopPhysics, H1.
Qed.

Lemma ShakePhysics_one_timer_handle i s :
  one_timer s -> one_timer (ShakePhysicsLoop.handle i s).
Proof.
  intros H. destruct i as [e|e|e|e|h|h|t]; cbn [ShakePhysicsLoop.handle].
  - destruct (hasTitleBar _); [|exact H].
    apply ShakePhysics_one_timer_startDrag, H.
  - destruct (hasTitleBar _); [|exact H].
    unfold ShakePhysics.dblclick.
    destruct (shiftKey e); [|exact H].
    destruct (negb _).
    + apply ShakePhysics_one_timer_detach, H.
    + apply ShakePhysics_one_timer_reattach, H.
  - apply ShakePhysics_one_timer_drag, H.
  - apply ShakePhysics_one_timer_endDrag, H.
  - unfold fire_interval. destruct (existsb _ _); [|exact H].
    apply ShakePhysics_one_timer_update, H.
  - apply one_timer_fire_timeout, H.
  - neutral H.
Qed.

Lemma ShakePhysics_one_timer_run inputs : forall s,
  one_timer s -> one_timer (ShakePhysicsLoop.run inputs s).
Proof.
  unfold ShakePhysicsLoop.run.
  induction inputs as [|i inputs IH]; intros s H; cbn [fold_left];
    [exact H|].
  apply IH, ShakePhysics_one_timer_handle, H.
Qed.

Lemma ShakePhysics_one_timer_create el b :
  intervals b = [] -> one_timer (ShakePhysicsLoop.create el b).
Proof.
  intros Hb. unfold ShakePhysicsLoop.create.
  apply one_timer_loadWindowPosition.
  unfold one_timer. simpl. exact Hb.
Qed.

(** *** The stretch versions *)

Lemma Stretch_one_timer_reattach s :
  one_timer s -> one_timer (Stretch.reattachWindow s).
Proof.
  intros H. unfold Stretch.reattachWindow.
  destruct (isDetached (this s)); [|exact H].
  apply (one_timer_ext (stopPhysics s)); try reflexivity.
  apply one_timer_stopPhysics, H.
Qed.

Lemma StretchGravity_one_timer_reattach s :
  one_timer s -> one_timer (StretchGravity.reattachWindow s).
Proof.
  intros H. unfold StretchGravity.reattachWindow.
  destruct (isDetached (this s)); [|exact H].
  apply (one_timer_ext (stopPhysics s)); try reflexivity.
  apply one_timer_stopPhysics, H.
Qed.

Lemma StretchClean_one_timer_reattach s :
  one_timer s -> one_timer (StretchClean.reattachWindow s).
Proof.
  intros H. unfold StretchClean.reattachWindow.
  destruct (isDetached (this s)); [|exact H].
  apply (one_timer_ext (stopPhysics s)); try reflexivity.
  apply one_timer_stopPhysics, H.
Qed.

Lemma Stretch_one_timer_drag e s :
  one_timer s -> one_timer (Stretch.drag e s).
Proof.
  intros H. unfold Stretch.drag, Stretch.applyStretchEffect,
    Stretch.detachWindow, Stretch.moveWindowFreely, Stretch.moveOnTaskbarRail,
    Stretch.resetStretchEffect.
  neutral H.
Qed.

Lemma StretchGravity_one_timer_drag sin e s :
  one_timer s -> one_timer (StretchGravity.drag sin e s).
Proof.
  intros H. unfold StretchGravity.drag, StretchGravity.applyStretchEffect,
    StretchGravity.detachWindow, StretchGravity.moveWindowFreely,
    StretchGravity.moveOnTaskbarRail, StretchGravity.resetStretchEffect.
  neutral H.
Qed.

Lemma StretchClean_one_timer_drag e s :
  one_timer s -> one_timer (StretchClean.drag e s).
Proof.
  intros H. unfold StretchClean.drag, StretchClean.applyStretchEffect,
    StretchClean.detachWindow, StretchClean.moveWindowFreely,
    StretchClean.moveOnTaskbarRail, StretchClean.resetStretchEffect.
  neutral H.
Qed.

Lemma Stretch_one_timer_startDrag e s :
  one_timer s -> one_timer (Stretch.startDrag e s).
Proof.
  intros H. unfold Stretch.startDrag.
  apply one_timer_bringToFront. neutral H.
Qed.

Lemma StretchGravity_one_timer_startDrag e s :
  one_timer s -> one_timer (StretchGravity.startDrag e s).
Proof.
  intros H. unfold StretchGravity.startDrag.
  apply one_timer_bringToFront. neutral H.
Qed.

Lemma StretchClean_one_timer_startDrag e s :
  one_timer s -> one_timer (StretchClean.startDrag e s).
Proof.
  intros H. unfold StretchClean.startDrag.
  apply one_timer_bringToFront. neutral H.
Qed.

Lemma Stretch_one_timer_endDrag e s :
  one_timer s -> one_timer (Stretch.endDrag e s).
Proof.
  intros H. unfold Stretch.endDrag.
  destruct (negb _); [exact H|]. cbv zeta.
  assert (H1 : one_timer (classList_remove "moving"
                 (style_set "cursor" [] (on_this (set_isDragging false) s))))
    by neutral H.
  destruct (_ && _).
  - unfold Stretch.snapBack, Stretch.resetStretchEffect. neutral H1.
  - destruct (isDetached _); [|exact H1].
    unfold Stretch.checkForSlamReattach. cbv zeta.
    destruct (_ && _).
    + apply Stretch_one_timer_reattach, Stretch_one_timer_startPhysics, H1.
    + apply Stretch_one_timer_startPhysics, H1.
Qed.

Lemma StretchGravity_one_timer_endDrag e s :
  one_timer s -> one_timer (StretchGravity.endDrag e s).
Proof.
  intros H. unfold StretchGravity.endDrag.
  destruct (negb _); [exact H|]. cbv zeta.
  assert (H1 : one_timer (classList_remove "moving"
                 (style_set "cursor" [] (on_this (set_isDragging false) s))))
    by neutral H.
  destruct (_ && _).
  - unfold StretchGravity.snapBack, StretchGravity.resetStretchEffect.
    neutral H1.
  - destruct (isDetached _); [|exact H1].
    unfold StretchGravity.checkForSlamReattach. cbv zeta.
    destruct (_ && _).
    + apply StretchGravity_one_timer_reattach,
        StretchGravity_one_timer_startPhysics, H1.
    + apply StretchGravity_one_timer_startPhysics, H1.
Qed.

Lemma StretchClean_one_timer_endDrag e s :
  one_timer s -> one_timer (StretchClean.endDrag e s).
Proof.
  intros H. unfold StretchClean.endDrag.
  destruct (negb _); [exact H|]. cbv zeta.
  assert (H1 : one_timer (classList_remove "moving"
                 (style_set "cursor" [] (on_this (set_isDragging false) s))))
    by neutral H.
  destruct (_ && _).
  - unfold StretchClean.snapBack, StretchClean.resetStretchEffect.
    neutral H1.
  - destruct (isDetached _); [|exact H1].
    unfold StretchClean.checkForSlamReattach. cbv zeta.
    destruct (_ >=? _).
    + apply StretchClean_one_timer_reattach,
        StretchClean_one_timer_startPhysics, H1.
    + apply StretchClean_one_timer_startPhysics, H1.
Qed.

Lemma Stretch_one_timer_update s :
  one_timer s -> one_timer (Stretch.updatePhysics s).
Proof.
  intros H. unfold Stretch.updatePhysics.
  destruct (_ || _); [apply one_timer_stopPhysics, H|].
  destruct (bounce_axis _ (X _) _ _) as [newX vx].
  destruct (bounce_axis _ (Y _) _ _) as [newY vy].
  cbv zeta. destruct (_ && _).
  - apply one_timer_stopPhysics. neutral H.
  - unfold Stretch.moveWindowFreely. neutral H.
Qed.

Lemma StretchGravity_one_timer_update s :
  one_timer s -> one_timer (StretchGravity.updatePhysics s).
Proof.
  intros H. unfold StretchGravity.updatePhysics.
  destruct (_ || _); [apply one_timer_stopPhysics, H|].
  cbv zeta.
  destruct (bounce_axis _ (X _) _ _) as [newX vx].
  destruct (bounce_axis _ (Y _) _ _) as [newY vy].
  destruct (_ && _).
  - apply one_timer_stopPhysics. neutral H.
  - unfold StretchGravity.checkForAutoReattach. cbv zeta.
    assert (H1 : forall s', one_timer s' ->
              one_timer (StretchGravity.moveWindowFreely newX newY s')).
    { intros s' H'. unfold StretchGravity.moveWindowFreely. neutral H'. }
    destruct (_ >=? _); [destruct (_ <? 2)|].
    + apply StretchGravity_one_timer_reattach, H1. neutral H.
    + apply H1. neutral H.
    + apply H1. neutral H.
Qed.

Lemma StretchClean_one_timer_update s :
  one_timer s -> one_timer (StretchClean.updatePhysics s).
Proof.
  intros H. unfold StretchClean.updatePhysics.
  destruct (_ || _); [apply one_timer_stopPhysics, H|].
  cbv zeta.
  destruct (bounce_axis _ (X _) _ _) as [newX vx].
  destruct (bounce_axis _ (Y _) _ _) as [newY vy].
  destruct (_ && _).
  - apply one_timer_stopPhysics. neutral H.
  - unfold StretchClean.checkForAutoReattach. cbv zeta.
    assert (H1 : forall s', one_timer s' ->
              one_timer (StretchClean.moveWindowFreely newX newY s')).
    { intros s' H'. unfold StretchClean.moveWindowFreely. neutral H'. }
    destruct (_ >=? _); [destruct (_ <? 2)|].
    + apply StretchClean_one_timer_reattach, H1. neutral H.
    + apply H1. neutral H.
    + apply H1. neutral H.
Qed.

Lemma StretchGravity_one_timer_toggleGravity e s :
  one_timer s -> one_timer (StretchGravity.toggleGravity e s).
Proof.
  intros H. unfold StretchGravity.toggleGravity.
  destruct (negb _); [exact H|]. cbv zeta.
  destruct (_ && _).
  - apply StretchGravity_one_timer_startPhysics. neutral H.
  - neutral H.
Qed.

Lemma StretchClean_one_timer_toggleGravity e s :
  one_timer s -> one_timer (StretchClean.toggleGravity e s).
Proof.
  intros H. unfold StretchClean.toggleGravity.
  destruct (negb _); [exact H|]. cbv zeta.
  destruct (gravityEnabled _).
  - apply StretchClean_one_timer_startPhysics. neutral H.
  - neutral H.
Qed.

Lemma Stretch_one_timer_handle i s :
  one_timer s -> one_timer (StretchLoop.handle i s).
Proof.
  intros H. destruct i as [e|e|e|e|h|h|t]; cbn [StretchLoop.handle].
  - destruct (hasTitleBar _); [|exact H].
    apply Stretch_one_timer_startDrag, H.
  - exact H.
  - apply Stretch_one_timer_drag, H.
  - apply Stretch_one_timer_endDrag, H.
  - unfold fire_interval. destruct (existsb _ _); [|exact H].
    apply Stretch_one_timer_update, H.
  - apply one_timer_fire_timeout, H.
  - neutral H.
Qed.

Lemma StretchGravity_one_timer_handle sin i s :
  one_timer s -> one_timer (StretchGravityLoop.handle sin i s).
Proof.
  intros H. destruct i as [e|e|e|e|h|h|t]; cbn [StretchGravityLoop.handle].
  - destruct (hasTitleBar _); [|exact H].
    apply StretchGravity_one_timer_startDrag, H.
  - destruct (hasTitleBar _); [|exact H].
    apply StretchGravity_one_timer_toggleGravity, H.
  - apply StretchGravity_one_timer_drag, H.
  - apply StretchGravity_one_timer_endDrag, H.
  - unfold fire_interval. destruct (existsb _ _); [|exact H].
    apply StretchGravity_one_timer_update, H.
  - apply one_timer_fire_timeout, H.
  - neutral H.
Qed.

Lemma StretchClean_one_timer_handle i s :
  one_timer s -> one_timer (StretchCleanLoop.handle i s).
Proof.
  intros H. destruct i as [e|e|e|e|h|h|t]; cbn [StretchCleanLoop.handle].
  - destruct (hasTitleBar _); [|exact H].
    apply StretchClean_one_timer_startDrag, H.
  - destruct (hasTitleBar _); [|exact H].
    apply StretchClean_one_timer_toggleGravity, H.
  - apply StretchClean_one_timer_drag, H.
  - apply StretchClean_one_timer_endDrag, H.
  - unfold fire_interval. destruct (existsb _ _); [|exact H].
    apply StretchClean_one_timer_update, H.
  - apply one_timer_fire_timeout, H.
  - neutral H.
Qed.

Lemma one_timer_fold (handle : Input -> State -> State) inputs :
  (forall i s, one_timer s -> one_timer (handle i s)) ->
  forall s, one_timer s ->
  one_timer (fold_left (fun s i => handle i s) inputs s).
Proof.
  intros Hh. induction inputs as [|i inputs IH]; intros s H; cbn [fold_left];
    [exact H|].
  apply IH, Hh, H.
Qed.

(** C9. Each controller has at most one physics timer at every moment:
    whatever the events, ticks and timeouts that reach a controller created
    on a page where it has no interval yet, the intervals it has running
    are exactly the one it remembers in [physicsInterval], if any.  Starting
    the integrator again keeps it so: versions 1, 2 and 4 clear the running
    interval before they set the new one, which is then the only one, and
    the clean version returns at once when one is running. *)
Theorem at_most_one_physics_timer (Math_sin : Q -> Q) (el : Element)
    (b : Browser) (inputs : list Input) :
  intervals b = [] ->
  (forall s,
     In s (reachable Math_sin el b inputs) ->
     one_timer s /\ (length (intervals (browser s)) <= 1)%nat)
  /\ (forall s,
        one_timer s ->
        (forall start,
           In start [ShakePhysics.startPhysics; StretchGravity.startPhysics;
                     Stretch.startPhysics] ->
           intervals (browser (start s)) = [nextHandle (browser s)]
           /\ physicsInterval (this (start s))
              = Some (nextHandle (browser s)))
        /\ (truthy (physicsInterval (this s)) = true ->
            StretchClean.startPhysics s = s)
        /\ one_timer (StretchClean.startPhysics s)).
Proof.
  intros Hb. split.
  - intros s Hin.
    assert (H : one_timer s).
    { destruct Hin as [<- | [<- | [<- | [<- | []]]]].
      - apply ShakePhysics_one_timer_run, ShakePhysics_one_timer_create, Hb.
      - apply one_timer_fold; [apply StretchGravity_one_timer_handle|].
        unfold StretchGravityLoop.create, StretchGravity.init, one_timer.
        simpl. destruct (hasTitleBar el); simpl; exact Hb.
      - apply one_timer_fold; [apply Stretch_one_timer_handle|].
        unfold StretchLoop.create, Stretch.init, one_timer.
        simpl. destruct (hasTitleBar el); simpl; exact Hb.
      - apply one_timer_fold; [apply StretchClean_one_timer_handle|].
        unfold one_timer. simpl. exact Hb. }
    split; [exact H|].
    unfold one_timer in H. rewrite H.
    destruct (physicsInterval (this s)); simpl; lia.
  - intros s H. split; [|split].
    + intros start Hstart.
      assert (Hrestart :
        intervals (browser (ShakePhysics.startPhysics s))
          = [nextHandle (browser s)]
        /\ physicsInterval (this (ShakePhysics.startPhysics s))
           = Some (nextHandle (browser s))).
      { split; [apply (restart_one_timer s H)|].
        unfold ShakePhysics.startPhysics, setInterval.
        cbn [fst snd this browser on_this on_browser physicsInterval
             set_physicsInterval].
        f_equal. unfold stopPhysics.
        destruct (physicsInterval (this s)); reflexivity. }
      destruct Hstart as [<- | [<- | [<- | []]]]; exact Hrestart.
    + apply StretchClean_startPhysics_running.
    + apply StretchClean_one_timer_startPhysics, H.
Qed.

(** A throw in the clean version with gravity switched on and off and two
    ticks in between. *)
Lemma at_most_one_physics_timer_witness :
  let inputs :=
    [MouseDown (mouse 150 500); MouseMove (mouse 150 440);
     MouseMove (mouse 170 50); MouseUp (mouse 170 50); Tick 2;
     DblClick (mouse 170 50); Tick 2; DblClick (mouse 170 50)] in
  let s := StretchCleanLoop.run inputs
             (StretchCleanLoop.create chat_window desktop) in
  intervals (browser s) = [2%positive]
  /\ one_timer s
  /\ (length (intervals (browser s)) <= 1)%nat.
Proof.
  intros inputs s. split; [vm_compute; reflexivity|].
  apply (proj1 (at_most_one_physics_timer (fun _ => 0) chat_window desktop
                  inputs eq_refl)).
  right; right; right; left. reflexivity.
Defined.
